(** * GraphGallery: the [Trainer] lifecycle wrapper

    A shallow embedding of [graphgallery/gallery/trainer.py].  The trainer
    is orchestration code around a deep-learning framework, so the
    embedding keeps the trainer's own state and control flow concrete and
    takes the framework (models, sequences, callbacks, configuration
    nodes) as the operations of an abstract [framework] record.  Every
    call into the framework is recorded in a trace of events. *)

From Stdlib Require Import ZArith Ascii String List Lia.
From stdpp Require Import base option list gmap strings pretty.

Local Open Scope string_scope.
Local Open Scope list_scope.
Local Open Scope Z_scope.

Set Warnings "-register-all".

(** ** Python values, exceptions and outcomes *)

(** The Python values the trainer inspects.  Tensors, arrays, layers and
    other framework objects are opaque handles. *)
Inductive pyval : Type :=
  | PNone
  | PBool (b : bool)
  | PInt (z : Z)
  | PStr (s : string)
  | PList (items : list pyval)
  | PTuple (items : list pyval)
  | PObj (handle : nat).

(** The exceptions the module raises itself, or that Python raises on its
    behalf; [Raised] stands for any exception coming out of the framework
    or out of a method a subclass has to supply. *)
Inductive exn : Type :=
  | RuntimeError (msg : string)
  | IndexError (msg : string)
  | NameError (name : string)
  | TypeError (msg : string)
  | AttributeError (msg : string)
  | NotImplementedError
  | Raised (what : string).

Inductive outcome (A : Type) : Type :=
  | Ok (a : A)
  | Raise (e : exn).
Arguments Ok {A} a.
Arguments Raise {A} e.

(** ** Sequence indexing *)

(** [l[i]] on a list or tuple: negative indices count from the end, and an
    index outside the sequence raises [IndexError]. *)
Definition py_getitem (l : list pyval) (i : Z) : outcome pyval :=
  let n := Z.of_nat (length l) in
  let j := if i <? 0 then i + n else i in
  if (j <? 0) || (n <=? j) then Raise (IndexError "index out of range")
  else match nth_error l (Z.to_nat j) with
       | Some v => Ok v
       | None => Raise (IndexError "index out of range")
       end.

(** [isinstance(batch, (list, tuple))], with the elements when it holds. *)
Definition as_list_or_tuple (v : pyval) : option (list pyval) :=
  match v with
  | PList l | PTuple l => Some l
  | _ => None
  end.

(** ** [unravel_batch] *)

Definition unravel_batch (batch : pyval) : outcome (pyval * pyval * pyval) :=
  match as_list_or_tuple batch with
  | Some l =>
      match py_getitem l 0 with
      | Raise e => Raise e
      | Ok inputs =>
          match py_getitem l 1 with
          | Raise e => Raise e
          | Ok labels =>
              if 2 <? Z.of_nat (length l) then
                match py_getitem l (-1) with
                | Raise e => Raise e
                | Ok out_weight => Ok (inputs, labels, out_weight)
                end
              else Ok (inputs, labels, PNone)
          end
      end
  | None => Ok (batch, PNone, PNone)
  end.

(** ** Strings and paths *)

(** [s.startswith(p)] *)
Definition startswith (s p : string) : bool := String.prefix p s.

(** [s[n:]] *)
Fixpoint str_drop (n : nat) (s : string) : string :=
  match n, s with
  | O, _ => s
  | S n', String _ r => str_drop n' r
  | S _, EmptyString => EmptyString
  end.

(** [s.endswith(suffix)] *)
Definition endswith (s suffix : string) : bool :=
  let n := String.length s in
  let m := String.length suffix in
  if (m <=? n)%nat then String.eqb (str_drop (n - m) s) suffix else false.

Definition sep : ascii := "/"%char.

(** [p[:p.rfind('/') + 1]]: the longest prefix of [p] that ends with a
    separator, empty when [p] has none. *)
Fixpoint upto_last_sep (p : string) : string :=
  match p with
  | EmptyString => EmptyString
  | String c r =>
      match upto_last_sep r with
      | EmptyString => if Ascii.eqb c sep then String c EmptyString else EmptyString
      | h => String c h
      end
  end.

(** [s.rstrip('/')] *)
Fixpoint rstrip_sep (s : string) : string :=
  match s with
  | EmptyString => EmptyString
  | String c r =>
      match rstrip_sep r with
      | EmptyString => if Ascii.eqb c sep then EmptyString else String c EmptyString
      | r' => String c r'
      end
  end.

(** [posixpath.split(p)[0]]: the head keeps its trailing separators only
    when it consists of separators alone. *)
Definition osp_split_head (p : string) : string :=
  let head := upto_last_sep p in
  match rstrip_sep head with
  | EmptyString => head
  | stripped => stripped
  end.

(** [posixpath.join(a, b)] for a relative second component [b]. *)
Definition osp_join (a b : string) : string :=
  if String.eqb a EmptyString || endswith a "/" then a +:+ b else a +:+ "/" +:+ b.

(** ** Configuration nodes *)

(** Nodes the trainer only merges into or iterates over are dictionaries;
    [cfg.train] and [cfg.test] are records of the entries the trainer reads. *)
Abbreviation pydict := (gmap string pyval).

Record ModelCheckpointCfg : Type := {
  ckpt_enabled : bool;
  ckpt_monitor : string;
  ckpt_remove_weights : bool;
  ckpt_path : string;
  ckpt_save_best_only : bool;
  ckpt_save_weights_only : bool;
  ckpt_vervose : Z
}.

Record EarlyStoppingCfg : Type := {
  es_enabled : bool;
  es_monitor : string;
  es_patience : Z;
  es_mode : string;
  es_verbose : Z;
  es_baseline : pyval;
  es_restore_best_weights : bool
}.

Record TensorBoardCfg : Type := {
  tb_enabled : bool;
  tb_log_dir : string;
  tb_write_graph : bool;
  tb_update_freq : pyval;
  tb_histogram_freq : Z;
  tb_write_images : bool
}.

Record TrainCfg : Type := {
  epochs : Z;
  verbose : Z;
  cache_train_data : bool;
  cache_val_data : bool;
  cfg_ModelCheckpoint : ModelCheckpointCfg;
  cfg_EarlyStopping : EarlyStoppingCfg;
  cfg_TerminateOnNaN_enabled : bool;
  cfg_TensorBoard : TensorBoardCfg;
  cfg_Progbar_width : Z
}.

Record TestCfg : Type := {
  cache_test_data : bool;
  test_verbose : Z;
  test_Progbar_width : Z
}.

Record Cfg : Type := {
  cfg_process : pydict;
  cfg_model : pydict;
  cfg_train : TrainCfg;
  cfg_test : TestCfg;
  cfg_predict_return_logits : bool
}.

Definition with_monitor_ckpt (m : string) (c : ModelCheckpointCfg) : ModelCheckpointCfg :=
  {| ckpt_enabled := ckpt_enabled c; ckpt_monitor := m;
     ckpt_remove_weights := ckpt_remove_weights c; ckpt_path := ckpt_path c;
     ckpt_save_best_only := ckpt_save_best_only c;
     ckpt_save_weights_only := ckpt_save_weights_only c;
     ckpt_vervose := ckpt_vervose c |}.

Definition with_path_ckpt (p : string) (c : ModelCheckpointCfg) : ModelCheckpointCfg :=
  {| ckpt_enabled := ckpt_enabled c; ckpt_monitor := ckpt_monitor c;
     ckpt_remove_weights := ckpt_remove_weights c; ckpt_path := p;
     ckpt_save_best_only := ckpt_save_best_only c;
     ckpt_save_weights_only := ckpt_save_weights_only c;
     ckpt_vervose := ckpt_vervose c |}.

Definition with_monitor_es (m : string) (c : EarlyStoppingCfg) : EarlyStoppingCfg :=
  {| es_enabled := es_enabled c; es_monitor := m; es_patience := es_patience c;
     es_mode := es_mode c; es_verbose := es_verbose c; es_baseline := es_baseline c;
     es_restore_best_weights := es_restore_best_weights c |}.

Definition with_ModelCheckpoint (k : ModelCheckpointCfg) (c : TrainCfg) : TrainCfg :=
  {| epochs := epochs c; verbose := verbose c;
     cache_train_data := cache_train_data c; cache_val_data := cache_val_data c;
     cfg_ModelCheckpoint := k; cfg_EarlyStopping := cfg_EarlyStopping c;
     cfg_TerminateOnNaN_enabled := cfg_TerminateOnNaN_enabled c;
     cfg_TensorBoard := cfg_TensorBoard c; cfg_Progbar_width := cfg_Progbar_width c |}.

Definition with_EarlyStopping (e : EarlyStoppingCfg) (c : TrainCfg) : TrainCfg :=
  {| epochs := epochs c; verbose := verbose c;
     cache_train_data := cache_train_data c; cache_val_data := cache_val_data c;
     cfg_ModelCheckpoint := cfg_ModelCheckpoint c; cfg_EarlyStopping := e;
     cfg_TerminateOnNaN_enabled := cfg_TerminateOnNaN_enabled c;
     cfg_TensorBoard := cfg_TensorBoard c; cfg_Progbar_width := cfg_Progbar_width c |}.

Definition with_cfg_process (d : pydict) (c : Cfg) : Cfg :=
  {| cfg_process := d; cfg_model := cfg_model c; cfg_train := cfg_train c;
     cfg_test := cfg_test c; cfg_predict_return_logits := cfg_predict_return_logits c |}.

Definition with_cfg_model (d : pydict) (c : Cfg) : Cfg :=
  {| cfg_process := cfg_process c; cfg_model := d; cfg_train := cfg_train c;
     cfg_test := cfg_test c; cfg_predict_return_logits := cfg_predict_return_logits c |}.

Definition with_cfg_train (t : TrainCfg) (c : Cfg) : Cfg :=
  {| cfg_process := cfg_process c; cfg_model := cfg_model c; cfg_train := t;
     cfg_test := cfg_test c; cfg_predict_return_logits := cfg_predict_return_logits c |}.

Definition with_cfg_test (t : TestCfg) (c : Cfg) : Cfg :=
  {| cfg_process := cfg_process c; cfg_model := cfg_model c; cfg_train := cfg_train c;
     cfg_test := t; cfg_predict_return_logits := cfg_predict_return_logits c |}.

Definition with_return_logits (b : bool) (c : Cfg) : Cfg :=
  {| cfg_process := cfg_process c; cfg_model := cfg_model c; cfg_train := cfg_train c;
     cfg_test := cfg_test c; cfg_predict_return_logits := b |}.

(** ** Framework objects *)

(** A Keras callback as the trainer constructs it. *)
Inductive callback : Type :=
  | History
  | EarlyStopping (monitor : string) (patience : Z) (mode : string) (verbosity : Z)
      (baseline : pyval) (restore_best_weights : bool)
  | ModelCheckpoint (path monitor : string) (save_best_only save_weights_only : bool)
      (verbosity : Z)
  | TerminateOnNaN
  | TensorBoard (log_dir : string) (write_graph : bool) (update_freq : pyval)
      (histogram_freq : Z) (write_images : bool).

(** The hooks the trainer invokes on its [CallbackList]. *)
Inductive hook : Type :=
  | on_train_begin
  | on_epoch_begin (epoch : Z)
  | on_train_batch_begin (batch : Z)
  | on_train_batch_end (batch : Z) (logs : pydict)
  | on_epoch_end (epoch : Z) (logs : pydict)
  | on_train_end.

(** A model object: [model_truth] is its Python truth value ([bool(model)],
    which container modules derive from their length). *)
Record model_obj : Type := {
  model_handle : nat;
  model_is_keras : bool;
  model_weights : list pyval;
  model_truth : bool
}.

(** A [Sequence] is a handle; its batches and length live in the framework. *)
Definition sequence : Type := nat.

(** What the caller passes as data: a ready [Sequence] or anything else. *)
Inductive data : Type :=
  | DSequence (q : sequence)
  | DRaw (v : pyval).

Definition data_is_none (d : data) : bool :=
  match d with
  | DRaw PNone => true
  | _ => false
  end.

Inductive stream : Type := stdout | stderr.

(** ** Events, trainer state and the framework *)

(** Every call the trainer makes into the framework, the operating system
    and the console is an event. *)
Inductive event : Type :=
  | ECallback (cbs : list callback) (h : hook)
  | ESetModel (cbs : list callback) (m : model_obj)
  | ESetStopTraining (b : bool)
  | EGetStopTraining (b : bool)
  | EProcessStep (kwargs : pydict)
  | EBuilder (kwargs : pydict)
  | EModelTo (m : model_obj) (dev : string)
  | EMakeSequence (inputs : pyval)
  | EIter (q : sequence)
  | ESeqEpochEnd (q : sequence)
  | EResetMetrics (m : model_obj)
  | ETrainStepOnBatch (m : model_obj) (x y out_weight : pyval) (dev : string)
  | ETestStepOnBatch (m : model_obj) (x y out_weight : pyval) (dev : string)
  | EPredictStepOnBatch (m : model_obj) (x out_weight : pyval) (dev : string)
  | ELoadWeights (m : model_obj) (path : string)
  | ELoad (m : model_obj) (path : string) (loaded : outcome model_obj)
  | EMakedirs (path : string)
  | ERemove (path : string)
  | EWarn (category msg : string)
  | EPrint (out : stream) (msg : string)
  | EProgbar (target width verbosity : Z)
  | EProgbarUpdate (current : Z) (values : pydict).

Record Cache : Type := {
  cache_train : option sequence;
  cache_val : option sequence;
  cache_test : option sequence;
  cache_predict : option sequence
}.

(** The attributes of a [Trainer] instance the module reads or writes. *)
Record Trainer : Type := {
  is_processed : bool;
  backend : string;
  device : string;
  _model : option model_obj;
  backup : option (list pyval);
  cfg : Cfg;
  transform : pydict;
  cache : Cache;
  graph_num_nodes : Z
}.

(** What lies outside the trainer object: the files on disk (regular
    files, by path), the [stop_training] attribute of the model being
    trained, and the framework's own state [F] (weights, metrics, the
    internals of callbacks and sequences). *)
Record world (F : Type) : Type := {
  fs : gset string;
  stop_training : bool;
  fw : F
}.
Arguments fs {F} w.
Arguments stop_training {F} w.
Arguments fw {F} w.

(** A call into the framework: it may change the world and may raise. *)
Definition ext (F A : Type) : Type := world F -> outcome A * world F.

(** The framework and the methods a concrete trainer supplies
    ([process_step], [builder], [train_sequence], each reached through the
    trainer).  They act on the world, not on the trainer attributes above. *)
Record framework (F : Type) : Type := {
  file_ext : string;
  realpath : string -> string;
  merge_from_dict : pydict -> pydict -> outcome pydict;
  merge_train_cfg : TrainCfg -> pydict -> outcome TrainCfg;
  merge_test_cfg : TestCfg -> pydict -> outcome TestCfg;
  gf_get : pyval -> outcome pyval;
  wrapper_process_step : pydict -> ext F pydict;
  wrapper_builder : pydict -> ext F (model_obj * pydict);
  model_to : model_obj -> string -> ext F model_obj;
  train_sequence : pyval -> ext F sequence;
  seq_len : sequence -> world F -> Z;
  seq_device : sequence -> string;
  seq_iter : sequence -> ext F (list pyval);
  seq_on_epoch_end : sequence -> ext F unit;
  reset_metrics : model_obj -> ext F unit;
  train_step_on_batch : model_obj -> pyval -> pyval -> pyval -> string -> ext F pydict;
  test_step_on_batch : model_obj -> pyval -> pyval -> pyval -> string -> ext F pydict;
  predict_step_on_batch : model_obj -> pyval -> pyval -> string -> ext F pyval;
  callbacks_set_model : list callback -> model_obj -> ext F unit;
  callbacks_call : list callback -> hook -> ext F unit;
  load_weights : model_obj -> string -> ext F unit;
  model_load : model_obj -> string -> ext F model_obj;
  makedirs_from_filepath : string -> ext F unit;
  numpy_item : pyval -> outcome pyval;
  np_arange : Z -> pyval;
  gf_asarray : pyval -> outcome pyval;
  np_vstack : list pyval -> outcome pyval;
  softmax : pyval -> outcome pyval;
  squeeze : pyval -> outcome pyval
}.
Arguments file_ext {F} f.
Arguments realpath {F} f.
Arguments merge_from_dict {F} f.
Arguments merge_train_cfg {F} f.
Arguments merge_test_cfg {F} f.
Arguments gf_get {F} f.
Arguments wrapper_process_step {F} f.
Arguments wrapper_builder {F} f.
Arguments model_to {F} f.
Arguments train_sequence {F} f.
Arguments seq_len {F} f.
Arguments seq_device {F} f.
Arguments seq_iter {F} f.
Arguments seq_on_epoch_end {F} f.
Arguments reset_metrics {F} f.
Arguments train_step_on_batch {F} f.
Arguments test_step_on_batch {F} f.
Arguments predict_step_on_batch {F} f.
Arguments callbacks_set_model {F} f.
Arguments callbacks_call {F} f.
Arguments load_weights {F} f.
Arguments model_load {F} f.
Arguments makedirs_from_filepath {F} f.
Arguments numpy_item {F} f.
Arguments np_arange {F} f.
Arguments gf_asarray {F} f.
Arguments np_vstack {F} f.
Arguments softmax {F} f.
Arguments squeeze {F} f.

Record state (F : Type) : Type := {
  self : Trainer;
  wld : world F
}.
Arguments self {F} s.
Arguments wld {F} s.

(** One run of a method: how it ended, the state it left, and the events
    it produced, oldest first. *)
Record run (F A : Type) : Type := {
  outcome_of : outcome A;
  state_of : state F;
  events_of : list event
}.
Arguments outcome_of {F A} r.
Arguments state_of {F A} r.
Arguments events_of {F A} r.

(** ** Attribute updates *)

Definition with_is_processed (b : bool) (t : Trainer) : Trainer :=
  {| is_processed := b; backend := backend t; device := device t; _model := _model t;
     backup := backup t; cfg := cfg t; transform := transform t; cache := cache t;
     graph_num_nodes := graph_num_nodes t |}.

Definition with_cfg (c : Cfg) (t : Trainer) : Trainer :=
  {| is_processed := is_processed t; backend := backend t; device := device t;
     _model := _model t; backup := backup t; cfg := c; transform := transform t;
     cache := cache t; graph_num_nodes := graph_num_nodes t |}.

Definition with_transform (d : pydict) (t : Trainer) : Trainer :=
  {| is_processed := is_processed t; backend := backend t; device := device t;
     _model := _model t; backup := backup t; cfg := cfg t; transform := d;
     cache := cache t; graph_num_nodes := graph_num_nodes t |}.

Definition with_cache (c : Cache) (t : Trainer) : Trainer :=
  {| is_processed := is_processed t; backend := backend t; device := device t;
     _model := _model t; backup := backup t; cfg := cfg t; transform := transform t;
     cache := c; graph_num_nodes := graph_num_nodes t |}.

(** The [model] property setter: a Keras model with weights is backed up. *)
Definition set_model (m : model_obj) (t : Trainer) : Trainer :=
  {| is_processed := is_processed t; backend := backend t; device := device t;
     _model := Some m;
     backup := if model_is_keras m && negb (bool_decide (model_weights m = []))
               then Some (model_weights m) else backup t;
     cfg := cfg t; transform := transform t; cache := cache t;
     graph_num_nodes := graph_num_nodes t |}.

Definition with_cache_train (q : sequence) (c : Cache) : Cache :=
  {| cache_train := Some q; cache_val := cache_val c; cache_test := cache_test c;
     cache_predict := cache_predict c |}.
Definition with_cache_val (q : sequence) (c : Cache) : Cache :=
  {| cache_train := cache_train c; cache_val := Some q; cache_test := cache_test c;
     cache_predict := cache_predict c |}.
Definition with_cache_test (q : sequence) (c : Cache) : Cache :=
  {| cache_train := cache_train c; cache_val := cache_val c; cache_test := Some q;
     cache_predict := cache_predict c |}.
Definition with_cache_predict (q : sequence) (c : Cache) : Cache :=
  {| cache_train := cache_train c; cache_val := cache_val c; cache_test := cache_test c;
     cache_predict := Some q |}.

(** [bool(self.model)] *)
Definition model_truthy (m : option model_obj) : bool :=
  match m with
  | None => false
  | Some mo => model_truth mo
  end.

Definition msg_process_first : string := "Please call 'trainer.process()' first.".
Definition msg_build_first : string :=
  "You must compile your model before training/testing/predicting. Use `trainer.build()`.".

(** [range(n)] *)
Definition py_range (n : Z) : list Z := map Z.of_nat (seq 0 (Z.to_nat n)).

(** The suffixes of the files TensorFlow writes next to a checkpoint. *)
Definition tf_extensions : list string :=
  [".data-00000-of-00001"; ".data-00000-of-00002"; ".data-00001-of-00002"; ".index"].

(** ** The monad of trainer methods *)

(** A method runs on the trainer and the world; it returns or raises, and
    what it changed and emitted before raising stays. *)
Definition M (F A : Type) : Type := state F -> run F A.

Definition ret {F A} (a : A) : M F A :=
  fun s => {| outcome_of := Ok a; state_of := s; events_of := [] |}.

(** The run [r], preceded by the events [evs]. *)
Definition prepend {F A} (evs : list event) (r : run F A) : run F A :=
  {| outcome_of := outcome_of r; state_of := state_of r;
     events_of := evs ++ events_of r |}.
Arguments prepend {F A} evs !r /.

Definition bind {F A B} (m : M F A) (k : A -> M F B) : M F B :=
  fun s =>
    match m s with
    | {| outcome_of := Ok a; state_of := s1; events_of := evs |} => prepend evs (k a s1)
    | {| outcome_of := Raise e; state_of := s1; events_of := evs |} =>
        {| outcome_of := Raise e; state_of := s1; events_of := evs |}
    end.

Definition raise {F A} (e : exn) : M F A :=
  fun s => {| outcome_of := Raise e; state_of := s; events_of := [] |}.

(** [try: body finally: cleanup]: the cleanup runs on both exits; an
    exception of the body is raised again once the cleanup has returned. *)
Definition try_finally {F A} (body : M F A) (cleanup : M F unit) : M F A :=
  fun s =>
    match body s with
    | {| outcome_of := o; state_of := s1; events_of := evs |} =>
        match cleanup s1 with
        | {| outcome_of := Ok _; state_of := s2; events_of := evs' |} =>
            {| outcome_of := o; state_of := s2; events_of := evs ++ evs' |}
        | {| outcome_of := Raise e; state_of := s2; events_of := evs' |} =>
            {| outcome_of := Raise e; state_of := s2; events_of := evs ++ evs' |}
        end
    end.

Declare Scope trainer_scope.
Delimit Scope trainer_scope with trainer.
Notation "x <- m ;; k" := (bind m (fun x => k))
  (at level 100, m at next level, right associativity) : trainer_scope.
Notation "m ;; k" := (bind m (fun _ => k))
  (at level 100, right associativity) : trainer_scope.
Local Open Scope trainer_scope.

Definition lift {F A} (r : outcome A) : M F A :=
  fun s => {| outcome_of := r; state_of := s; events_of := [] |}.

Definition get_self {F} : M F Trainer :=
  fun s => {| outcome_of := Ok (self s); state_of := s; events_of := [] |}.

Definition modify_self {F} (f : Trainer -> Trainer) : M F unit :=
  fun s => {| outcome_of := Ok tt;
              state_of := {| self := f (self s); wld := wld s |};
              events_of := [] |}.

Definition get_world {F} : M F (world F) :=
  fun s => {| outcome_of := Ok (wld s); state_of := s; events_of := [] |}.

Definition emit {F} (ev : event) : M F unit :=
  fun s => {| outcome_of := Ok tt; state_of := s; events_of := [ev] |}.

(** A framework call, recorded as one event. *)
Definition call {F A} (ev : event) (f : ext F A) : M F A :=
  fun s => {| outcome_of := (f (wld s)).1;
              state_of := {| self := self s; wld := (f (wld s)).2 |};
              events_of := [ev] |}.

(** [model.stop_training = b] *)
Definition set_stop_training {F} (b : bool) : M F unit :=
  fun s => {| outcome_of := Ok tt;
              state_of := {| self := self s;
                             wld := {| fs := fs (wld s); stop_training := b;
                                       fw := fw (wld s) |} |};
              events_of := [ESetStopTraining b] |}.

(** reading [model.stop_training] *)
Definition get_stop_training {F} : M F bool :=
  fun s => {| outcome_of := Ok (stop_training (wld s)); state_of := s;
              events_of := [EGetStopTraining (stop_training (wld s))] |}.

(** [osp.exists(path)] *)
Definition osp_exists {F} (path : string) : M F bool :=
  fun s => {| outcome_of := Ok (bool_decide (path ∈ fs (wld s))); state_of := s;
              events_of := [] |}.

(** [os.remove(path)] *)
Definition os_remove {F} (path : string) : M F unit :=
  fun s => {| outcome_of := Ok tt;
              state_of := {| self := self s;
                             wld := {| fs := fs (wld s) ∖ {[path]};
                                       stop_training := stop_training (wld s);
                                       fw := fw (wld s) |} |};
              events_of := [ERemove path] |}.

(** ** Name resolution at the progress report *)

(** [str(v)] as an f-string formats it, for the values the trainer prints. *)
Definition format_value (v : pyval) : string :=
  match v with
  | PInt z => pretty z
  | PStr s => s
  | PBool true => "True"
  | PBool false => "False"
  | PNone => "None"
  | _ => "<object>"
  end.

(** The names bound in the body of [train]: its parameters and the local
    variables assigned in it. *)
Definition train_local_names : list string :=
  ["self"; "train_data"; "val_data"; "kwargs"; "cache"; "cfg"; "ckpt_cfg"; "es_cfg";
   "pb_cfg"; "model"; "validation"; "callbacks"; "history"; "verbose"; "progbar";
   "logs"; "train_logs"; "valid_logs"].

(** The names bound at module level: the imports and the definitions. *)
Definition module_names : list string :=
  ["os"; "sys"; "warnings"; "inspect"; "osp"; "np"; "tf"; "Sequence";
   "callbacks_module"; "EarlyStopping"; "ModelCheckpoint"; "TerminateOnNaN";
   "History"; "Progbar"; "gg"; "gf"; "softmax"; "makedirs_from_filepath";
   "raise_if_kwargs"; "Model"; "default_cfg"; "unravel_batch"; "Trainer";
   "remove_extra_tf_files"; "setup_callbacks"].

(** The builtins the module uses; no builtin is called [epochs]. *)
Definition builtin_names : list string :=
  ["print"; "len"; "range"; "isinstance"; "setattr"; "hasattr"; "zip"; "list";
   "tuple"; "property"; "RuntimeError"; "NotImplementedError"; "UserWarning"].

(** The scope in which the body of the epoch loop is evaluated. *)
Definition epoch_scope (epoch : Z) : pydict :=
  <["epoch" := PInt epoch]>
    (list_to_map ((fun n => (n, PObj 0)) <$>
                  (train_local_names ++ module_names ++ builtin_names))).

Definition lookup_name (scope : pydict) (name : string) : outcome pyval :=
  match scope !! name with
  | Some v => Ok v
  | None => Raise (NameError name)
  end.

(** ** The trainer's methods *)

Section Methods.
Context {F : Type} (fwk : framework F).

Abbreviation T := (M F).

(** *** [process]  (lines 81-105) *)

(** The loop over [cfg.items()]: entries whose key ends with
    ["transform"] become attributes of [self.transform]. *)
Fixpoint set_transforms (items : list (string * pyval)) : T unit :=
  match items with
  | [] => ret tt
  | (k, v) :: rest =>
      (if endswith k "transform"
       then (t <- lift (gf_get fwk v) ;;
             modify_self (fun me => with_transform (<[k := t]> (transform me)) me))
       else ret tt) ;;
      set_transforms rest
  end.

Definition process (kwargs : pydict) : T Trainer :=
  me <- get_self ;;
  kwargs' <- call (EProcessStep kwargs) (wrapper_process_step fwk kwargs) ;;
  merged <- lift (merge_from_dict fwk (cfg_process (cfg me)) kwargs') ;;
  modify_self (fun me => with_cfg (with_cfg_process merged (cfg me)) me) ;;
  set_transforms (map_to_list merged) ;;
  modify_self (with_is_processed true) ;;
  get_self.

(** *** [build] and [build_from_model]  (lines 110-162) *)

(** The guard both builders start with.  [tf.device] only places the
    computation and is left out. *)
Definition require_processed : T unit :=
  me <- get_self ;;
  if negb (is_processed me) then raise (RuntimeError msg_process_first) else ret tt.

Definition build (kwargs : pydict) : T Trainer :=
  require_processed ;;
  me <- get_self ;;
  kwargs' <-
    (if String.eqb (backend me) "tensorflow"
     then (r <- call (EBuilder kwargs) (wrapper_builder fwk kwargs) ;;
           modify_self (set_model (fst r)) ;;
           ret (snd r))
     else (r <- call (EBuilder kwargs) (wrapper_builder fwk kwargs) ;;
           m <- call (EModelTo (fst r) (device me)) (model_to fwk (fst r) (device me)) ;;
           modify_self (set_model m) ;;
           ret (snd r))) ;;
  me <- get_self ;;
  merged <- lift (merge_from_dict fwk (cfg_model (cfg me)) kwargs') ;;
  modify_self (fun me => with_cfg (with_cfg_model merged (cfg me)) me) ;;
  get_self.

Definition build_from_model (model : model_obj) : T Trainer :=
  require_processed ;;
  me <- get_self ;;
  (if String.eqb (backend me) "tensorflow"
   then modify_self (set_model model)
   else (m <- call (EModelTo model (device me)) (model_to fwk model (device me)) ;;
         modify_self (set_model m))) ;;
  modify_self (fun me =>
    with_cfg (with_cfg_model (<["build_from_model" := PBool false]> (cfg_model (cfg me)))
                             (cfg me)) me) ;;
  get_self.

(** *** Sequences and steps  (lines 287-359) *)

(** [test_sequence] and [predict_sequence] fall back on [train_sequence]. *)
Definition make_train_sequence (inputs : pyval) : T sequence :=
  call (EMakeSequence inputs) (train_sequence fwk inputs).
Definition make_test_sequence (inputs : pyval) : T sequence :=
  make_train_sequence inputs.
Definition make_predict_sequence (inputs : pyval) : T sequence :=
  make_test_sequence inputs.

(** [self.model] where the code goes on to call a method of it. *)
Definition the_model (method : string) : T model_obj :=
  me <- get_self ;;
  match _model me with
  | Some m => ret m
  | None => raise (AttributeError ("'NoneType' object has no attribute '" +:+ method +:+ "'"))
  end.

Fixpoint train_batches (model : model_obj) (dev : string) (batches : list pyval)
    (results : option pydict) : T (option pydict) :=
  match batches with
  | [] => ret results
  | batch :: rest =>
      b <- lift (unravel_batch batch) ;;
      r <- call (ETrainStepOnBatch model b.1.1 b.1.2 b.2 dev)
                (train_step_on_batch fwk model b.1.1 b.1.2 b.2 dev) ;;
      train_batches model dev rest (Some r)
  end.

Definition train_step (q : sequence) : T (option pydict) :=
  model <- the_model "reset_metrics" ;;
  call (EResetMetrics model) (reset_metrics fwk model) ;;
  batches <- call (EIter q) (seq_iter fwk q) ;;
  train_batches model (seq_device fwk q) batches None.

Fixpoint test_batches (model : model_obj) (dev : string) (batches : list pyval)
    (results : option pydict) : T (option pydict) :=
  match batches with
  | [] => ret results
  | batch :: rest =>
      b <- lift (unravel_batch batch) ;;
      r <- call (ETestStepOnBatch model b.1.1 b.1.2 b.2 dev)
                (test_step_on_batch fwk model b.1.1 b.1.2 b.2 dev) ;;
      test_batches model dev rest (Some r)
  end.

Definition test_step (q : sequence) : T (option pydict) :=
  model <- the_model "reset_metrics" ;;
  call (EResetMetrics model) (reset_metrics fwk model) ;;
  batches <- call (EIter q) (seq_iter fwk q) ;;
  test_batches model (seq_device fwk q) batches None.

Fixpoint predict_batches (model : option model_obj) (dev : string) (batches : list pyval)
    (logits : list pyval) : T (list pyval) :=
  match batches with
  | [] => ret logits
  | batch :: rest =>
      b <- lift (unravel_batch batch) ;;
      match model with
      | None =>
          raise (AttributeError "'NoneType' object has no attribute 'predict_step_on_batch'")
      | Some m =>
          logit <- call (EPredictStepOnBatch m b.1.1 b.2 dev)
                        (predict_step_on_batch fwk m b.1.1 b.2 dev) ;;
          predict_batches model dev rest (logits ++ [logit])
      end
  end.

Definition predict_step (q : sequence) : T pyval :=
  me <- get_self ;;
  batches <- call (EIter q) (seq_iter fwk q) ;;
  logits <- predict_batches (_model me) (seq_device fwk q) batches [] ;;
  lift (np_vstack fwk logits).

(** [len(sequence)] *)
Definition len_sequence (q : sequence) : T Z :=
  w <- get_world ;; ret (seq_len fwk q w).

(** *** Removing checkpoint files  (lines 405-437) *)

Definition remove_if_exists (path : string) : T unit :=
  present <- osp_exists path ;;
  if present then os_remove path else ret tt.

Fixpoint remove_each (filepath : string) (exts : list string) : T unit :=
  match exts with
  | [] => ret tt
  | e :: rest => remove_if_exists (filepath +:+ e) ;; remove_each filepath rest
  end.

Definition checkpoint_sibling (filepath : string) : string :=
  osp_join (osp_split_head (realpath fwk filepath)) "checkpoint".

Definition remove_extra_tf_files (filepath : string) : T unit :=
  remove_each filepath tf_extensions ;;
  remove_if_exists (checkpoint_sibling filepath).

Definition remove_weights : T unit :=
  me <- get_self ;;
  let filepath := ckpt_path (cfg_ModelCheckpoint (cfg_train (cfg me))) in
  (if String.eqb (backend me) "tensorflow" then remove_extra_tf_files filepath else ret tt) ;;
  remove_if_exists filepath.

(** *** [setup_callbacks]  (lines 440-484) *)

Definition invalid_metric_warning (monitor : string) : string :=
  "The metric 'val_" +:+ monitor +:+ "' is invalid without validation " +:+
  "and has been automatically replaced with '" +:+ monitor +:+ "'.".

(** [cfg] is [self.cfg.train] itself, so the writes land in the trainer. *)
Definition get_train_cfg : T TrainCfg :=
  me <- get_self ;; ret (cfg_train (cfg me)).

Definition put_train_cfg (c : TrainCfg) : T unit :=
  modify_self (fun me => with_cfg (with_cfg_train c (cfg me)) me).

Definition strip_ckpt_monitor : T unit :=
  c <- get_train_cfg ;;
  let ckpt_cfg := cfg_ModelCheckpoint c in
  if ckpt_enabled ckpt_cfg && startswith (ckpt_monitor ckpt_cfg) "val_"
  then (let monitor := str_drop 4 (ckpt_monitor ckpt_cfg) in
        put_train_cfg (with_ModelCheckpoint (with_monitor_ckpt monitor ckpt_cfg) c) ;;
        emit (EWarn "UserWarning" (invalid_metric_warning monitor)))
  else ret tt.

Definition strip_es_monitor : T unit :=
  c <- get_train_cfg ;;
  let es_cfg := cfg_EarlyStopping c in
  if es_enabled es_cfg && startswith (es_monitor es_cfg) "val_"
  then (let monitor := str_drop 4 (es_monitor es_cfg) in
        put_train_cfg (with_EarlyStopping (with_monitor_es monitor es_cfg) c) ;;
        emit (EWarn "UserWarning" (invalid_metric_warning monitor)))
  else ret tt.

Definition append_early_stopping (callbacks : list callback) : T (list callback) :=
  c <- get_train_cfg ;;
  let es_cfg := cfg_EarlyStopping c in
  if es_enabled es_cfg
  then ret (callbacks ++ [EarlyStopping (es_monitor es_cfg) (es_patience es_cfg)
                            (es_mode es_cfg) (es_verbose es_cfg) (es_baseline es_cfg)
                            (es_restore_best_weights es_cfg)])
  else ret callbacks.

Definition append_model_checkpoint (callbacks : list callback) : T (list callback) :=
  c <- get_train_cfg ;;
  let ckpt_cfg := cfg_ModelCheckpoint c in
  if ckpt_enabled ckpt_cfg
  then (let path := if endswith (ckpt_path ckpt_cfg) (file_ext fwk)
                    then ckpt_path ckpt_cfg
                    else ckpt_path ckpt_cfg +:+ file_ext fwk in
        put_train_cfg (with_ModelCheckpoint (with_path_ckpt path ckpt_cfg) c) ;;
        call (EMakedirs path) (makedirs_from_filepath fwk path) ;;
        ret (callbacks ++ [ModelCheckpoint path (ckpt_monitor ckpt_cfg)
                             (ckpt_save_best_only ckpt_cfg)
                             (ckpt_save_weights_only ckpt_cfg) (ckpt_vervose ckpt_cfg)]))
  else ret callbacks.

Definition append_rest (callbacks : list callback) : T (list callback) :=
  c <- get_train_cfg ;;
  let tb_cfg := cfg_TensorBoard c in
  let callbacks1 := if cfg_TerminateOnNaN_enabled c
                    then callbacks ++ [TerminateOnNaN] else callbacks in
  ret (if tb_enabled tb_cfg
       then callbacks1 ++ [TensorBoard (tb_log_dir tb_cfg) (tb_write_graph tb_cfg)
                             (tb_update_freq tb_cfg) (tb_histogram_freq tb_cfg)
                             (tb_write_images tb_cfg)]
       else callbacks1).

Definition setup_callbacks (callbacks : list callback) (validation : bool)
    : T (list callback) :=
  (if negb validation then (strip_ckpt_monitor ;; strip_es_monitor) else ret tt) ;;
  callbacks1 <- append_early_stopping callbacks ;;
  callbacks2 <- append_model_checkpoint callbacks1 ;;
  append_rest callbacks2.

(** *** [train]  (lines 167-255) *)

(** The local variables of [train] that outlive its set-up. *)
Record train_locals : Type := {
  tl_model : model_obj;
  tl_train_data : sequence;
  tl_val_data : option sequence;
  tl_callbacks : list callback;
  tl_history : callback;
  tl_verbose : Z
}.

Definition as_sequence (make : pyval -> T sequence) (d : data) : T sequence :=
  match d with
  | DSequence q => ret q
  | DRaw v => make v
  end.

(** Truth value of an integer setting. *)
Definition truthy (z : Z) : bool := negb (z =? 0).

(** Lines 168-211: everything before the [try]. *)
Definition train_setup (train_data val_data : data) (kwargs : pydict) : T train_locals :=
  me <- get_self ;;
  merged <- lift (merge_train_cfg fwk (cfg_train (cfg me)) kwargs) ;;
  put_train_cfg merged ;;
  match _model me with
  | None => raise (RuntimeError msg_build_first)
  | Some model =>
      train_seq <- as_sequence make_train_sequence train_data ;;
      (if cache_train_data merged
       then modify_self (fun me => with_cache (with_cache_train train_seq (cache me)) me)
       else ret tt) ;;
      let validation := negb (data_is_none val_data) in
      val_seq <-
        (if validation
         then (q <- as_sequence make_test_sequence val_data ;;
               (if cache_val_data merged
                then modify_self (fun me => with_cache (with_cache_val q (cache me)) me)
                else ret tt) ;;
               ret (Some q))
         else ret None) ;;
      let history := History in
      callbacks <- setup_callbacks [history] validation ;;
      call (ESetModel callbacks model) (callbacks_set_model fwk callbacks model) ;;
      set_stop_training false ;;
      c <- get_train_cfg ;;
      let verbose := verbose c in
      (if truthy verbose
       then ((if verbose <=? 2
              then emit (EProgbar (epochs c) (cfg_Progbar_width merged) verbose)
              else ret tt) ;;
             emit (EPrint stdout "Training..."))
       else ret tt) ;;
      call (ECallback callbacks on_train_begin) (callbacks_call fwk callbacks on_train_begin) ;;
      ret {| tl_model := model; tl_train_data := train_seq; tl_val_data := val_seq;
             tl_callbacks := callbacks; tl_history := history; tl_verbose := verbose |}
  end.

Definition val_key (k : string) : string := "val_" +:+ k.

(** Lines 225-228: the validation pass of an epoch. *)
Definition validate (L : train_locals) (logs : pydict) : T pydict :=
  match tl_val_data L with
  | None => ret logs
  | Some val_data =>
      valid_logs <- test_step val_data ;;
      match valid_logs with
      | None => raise (AttributeError "'NoneType' object has no attribute 'items'")
      | Some d =>
          call (ESeqEpochEnd val_data) (seq_on_epoch_end fwk val_data) ;;
          ret (kmap val_key d ∪ logs)
      end
  end.

(** Lines 233-237: the progress report of an epoch. *)
Definition report_epoch (L : train_locals) (epoch : Z) (logs : pydict) : T unit :=
  let verbose := tl_verbose L in
  if 2 <? verbose
  then (total <- lift (lookup_name (epoch_scope epoch) "epochs") ;;
        emit (EPrint stdout ("Epoch " +:+ pretty (epoch + 1) +:+ "/" +:+ format_value total)) ;;
        n <- len_sequence (tl_train_data L) ;;
        emit (EProgbarUpdate n logs))
  else if truthy verbose
  then emit (EProgbarUpdate (epoch + 1) logs)
  else ret tt.

(** Lines 214-231: one epoch of training and validation, with its hooks. *)
Definition epoch_work (L : train_locals) (epoch : Z) (logs : pydict) : T pydict :=
  let callbacks := tl_callbacks L in
  let train_data := tl_train_data L in
  c <- get_train_cfg ;;
  (if 2 <? tl_verbose L
   then (n <- len_sequence train_data ;;
         emit (EProgbar n (cfg_Progbar_width c) (tl_verbose L - 2)))
   else ret tt) ;;
  call (ECallback callbacks (on_epoch_begin epoch))
       (callbacks_call fwk callbacks (on_epoch_begin epoch)) ;;
  call (ECallback callbacks (on_train_batch_begin 0))
       (callbacks_call fwk callbacks (on_train_batch_begin 0)) ;;
  train_logs <- train_step train_data ;;
  call (ESeqEpochEnd train_data) (seq_on_epoch_end fwk train_data) ;;
  logs1 <- match train_logs with
           | Some d => ret (d ∪ logs)
           | None => raise (TypeError "'NoneType' object is not iterable")
           end ;;
  logs2 <- validate L logs1 ;;
  n <- len_sequence train_data ;;
  call (ECallback callbacks (on_train_batch_end n logs2))
       (callbacks_call fwk callbacks (on_train_batch_end n logs2)) ;;
  call (ECallback callbacks (on_epoch_end epoch logs2))
       (callbacks_call fwk callbacks (on_epoch_end epoch logs2)) ;;
  ret logs2.

(** Lines 214-237: one pass of the loop body, up to the stop test. *)
Definition train_epoch (L : train_locals) (epoch : Z) (logs : pydict) : T pydict :=
  logs' <- epoch_work L epoch logs ;;
  report_epoch L epoch logs' ;;
  ret logs'.

(** Lines 213-241: the loop over [range(cfg.epochs)], left by [break]
    when [model.stop_training] is set after an epoch. *)
Fixpoint train_epochs (L : train_locals) (todo : list Z) (logs : pydict) : T unit :=
  match todo with
  | [] => ret tt
  | epoch :: rest =>
      logs' <- train_epoch L epoch logs ;;
      stop <- get_stop_training ;;
      if stop
      then emit (EPrint stderr ("Early Stopping at Epoch " +:+ pretty epoch))
      else train_epochs L rest logs'
  end.

(** [model.load(path)], recorded with the model it returned. *)
Definition load_model (model : model_obj) (path : string) : T model_obj :=
  fun s => {| outcome_of := (model_load fwk model path (wld s)).1;
              state_of := {| self := self s; wld := (model_load fwk model path (wld s)).2 |};
              events_of := [ELoad model path (model_load fwk model path (wld s)).1] |}.

(** Lines 244-248: reload what the checkpoint callback saved. *)
Definition restore_checkpoint (L : train_locals) : T unit :=
  c <- get_train_cfg ;;
  let ckpt_cfg := cfg_ModelCheckpoint c in
  let model := tl_model L in
  if ckpt_enabled ckpt_cfg
  then (if ckpt_save_weights_only ckpt_cfg
        then call (ELoadWeights model (ckpt_path ckpt_cfg))
                  (load_weights fwk model (ckpt_path ckpt_cfg))
        else (m <- load_model model (ckpt_path ckpt_cfg) ;;
              modify_self (set_model m)))
  else ret tt.

(** Lines 250-253: the [finally] clause. *)
Definition train_cleanup : T unit :=
  c <- get_train_cfg ;;
  if ckpt_enabled (cfg_ModelCheckpoint c) && ckpt_remove_weights (cfg_ModelCheckpoint c)
  then remove_weights
  else ret tt.

(** Lines 213-248: the body of the [try] statement. *)
Definition train_body (L : train_locals) : T unit :=
  c <- get_train_cfg ;;
  train_epochs L (py_range (epochs c)) ∅ ;;
  call (ECallback (tl_callbacks L) on_train_end)
       (callbacks_call fwk (tl_callbacks L) on_train_end) ;;
  restore_checkpoint L.

(** Lines 212-255: the [try] statement and the return. *)
Definition train_run (L : train_locals) : T callback :=
  try_finally (train_body L) train_cleanup ;;
  ret (tl_history L).

Definition train (train_data val_data : data) (kwargs : pydict) : T callback :=
  L <- train_setup train_data val_data kwargs ;;
  train_run L.

(** *** [test] and [predict]  (lines 257-285, 313-338) *)

(** [{k: v.numpy().item() for k, v in logs.items()}] *)
Fixpoint numpy_items (items : list (string * pyval)) : outcome (list (string * pyval)) :=
  match items with
  | [] => Ok []
  | (k, v) :: rest =>
      match numpy_item fwk v with
      | Raise e => Raise e
      | Ok x => match numpy_items rest with
                | Raise e => Raise e
                | Ok rest' => Ok ((k, x) :: rest')
                end
      end
  end.

Definition test (d : data) (kwargs : pydict) : T pydict :=
  me <- get_self ;;
  if negb (model_truthy (_model me))
  then raise (RuntimeError msg_build_first)
  else
    (merged <- lift (merge_test_cfg fwk (cfg_test (cfg me)) kwargs) ;;
     modify_self (fun me => with_cfg (with_cfg_test merged (cfg me)) me) ;;
     test_data <- as_sequence make_test_sequence d ;;
     (if cache_test_data merged
      then modify_self (fun me => with_cache (with_cache_test test_data (cache me)) me)
      else ret tt) ;;
     (if truthy (test_verbose merged) then emit (EPrint stdout "Testing...") else ret tt) ;;
     n <- len_sequence test_data ;;
     emit (EProgbar n (test_Progbar_width merged) (test_verbose merged)) ;;
     results <- test_step test_data ;;
     match results with
     | None => raise (TypeError "argument after ** must be a mapping, not NoneType")
     | Some logs =>
         items <- lift (numpy_items (map_to_list logs)) ;;
         let logs' := list_to_map items ∪ logs in
         n' <- len_sequence test_data ;;
         emit (EProgbarUpdate n' logs') ;;
         ret logs'
     end).

Definition predict (predict_data : data) (return_logits : bool) : T pyval :=
  me <- get_self ;;
  if negb (model_truthy (_model me))
  then raise (RuntimeError msg_build_first)
  else
    (modify_self (fun me => with_cfg (with_return_logits return_logits (cfg me)) me) ;;
     let predict_data1 := if data_is_none predict_data
                          then DRaw (np_arange fwk (graph_num_nodes me))
                          else predict_data in
     q <- as_sequence (fun v => a <- lift (gf_asarray fwk v) ;; make_predict_sequence a)
                      predict_data1 ;;
     modify_self (fun me => with_cache (with_cache_predict q (cache me)) me) ;;
     logits <- predict_step q ;;
     logits' <- (if negb return_logits then lift (softmax fwk logits) else ret logits) ;;
     lift (squeeze fwk logits')).
End Methods.

(** ** A scripted framework for concrete runs *)

Module Demo.
(** The framework state is the index of the epoch in progress. *)
Definition F : Type := Z.

(** [stop_at]: the epoch at whose end a callback sets
    [model.stop_training]; [fail_at]: the epoch whose training step raises. *)
Record script : Type := { stop_at : option Z; fail_at : option Z }.

Definition model0 : model_obj :=
  {| model_handle := 1; model_is_keras := true; model_weights := [PObj 10];
     model_truth := true |}.

Definition model1 : model_obj :=
  {| model_handle := 2; model_is_keras := true; model_weights := [PObj 11];
     model_truth := true |}.

(** A container module without layers: set, but false as a truth value. *)
Definition empty_container : model_obj :=
  {| model_handle := 3; model_is_keras := false; model_weights := [];
     model_truth := false |}.

Definition unchanged {A} (a : A) : ext F A := fun w => (Ok a, w).

Definition saved_files (cb : callback) : list string :=
  match cb with
  | ModelCheckpoint path _ _ _ _ => [path; path +:+ ".index"]
  | _ => []
  end.

Definition hooks (sc : script) (cbs : list callback) (h : hook) : ext F unit :=
  fun w =>
    match h with
    | on_epoch_begin e =>
        (Ok tt, {| fs := fs w; stop_training := stop_training w; fw := e |})
    | on_epoch_end e _ =>
        (Ok tt, {| fs := list_to_set (flat_map saved_files cbs) ∪ fs w;
                   stop_training := stop_training w || bool_decide (stop_at sc = Some e);
                   fw := fw w |})
    | _ => (Ok tt, w)
    end.

Definition step (sc : script) : ext F pydict :=
  fun w => if bool_decide (fail_at sc = Some (fw w))
           then (Raise (Raised "step failed"), w)
           else (Ok {["loss" := PObj 3]}, w).

Definition need_file {A} (path : string) (a : A) : ext F A :=
  fun w => if bool_decide (path ∈ fs w) then (Ok a, w)
           else (Raise (Raised "FileNotFoundError"), w).

Definition get_transform (v : pyval) : outcome pyval :=
  match v with
  | PNone => Ok PNone
  | PStr s => Ok (PObj (String.length s))
  | _ => Raise (Raised "ValueError")
  end.

Definition framework_of (sc : script) : framework F :=
  {| file_ext := ".h5";
     realpath := fun p => p;
     merge_from_dict := fun d kw => Ok (kw ∪ d);
     merge_train_cfg := fun c kw =>
       if bool_decide (kw = ∅) then Ok c else Raise (Raised "KeyError");
     merge_test_cfg := fun c kw =>
       if bool_decide (kw = ∅) then Ok c else Raise (Raised "KeyError");
     gf_get := get_transform;
     wrapper_process_step := fun kw => unchanged kw;
     wrapper_builder := fun kw => unchanged (model0, kw);
     model_to := fun m _ => unchanged m;
     train_sequence := fun _ => unchanged 0%nat;
     seq_len := fun _ _ => 1;
     seq_device := fun _ => "cpu";
     seq_iter := fun _ => unchanged [PTuple [PObj 1; PObj 2]];
     seq_on_epoch_end := fun _ => unchanged tt;
     reset_metrics := fun _ => unchanged tt;
     train_step_on_batch := fun _ _ _ _ _ => step sc;
     test_step_on_batch := fun _ _ _ _ _ => unchanged {["loss" := PObj 4]};
     predict_step_on_batch := fun _ _ _ _ => unchanged (PObj 5);
     callbacks_set_model := fun _ _ => unchanged tt;
     callbacks_call := hooks sc;
     load_weights := fun _ path => need_file path tt;
     model_load := fun _ path => need_file path model1;
     makedirs_from_filepath := fun _ => unchanged tt;
     numpy_item := fun v => Ok v;
     np_arange := fun _ => PObj 6;
     gf_asarray := fun v => Ok v;
     np_vstack := fun l => Ok (PList l);
     softmax := fun v => Ok v;
     squeeze := fun v => Ok v |}.

Definition quiet : framework F := framework_of {| stop_at := None; fail_at := None |}.

(** A trainer whose [process_step] is the one of the base class. *)
Definition abstract : framework F :=
  {| file_ext := file_ext quiet; realpath := realpath quiet;
     merge_from_dict := merge_from_dict quiet; merge_train_cfg := merge_train_cfg quiet;
     merge_test_cfg := merge_test_cfg quiet; gf_get := gf_get quiet;
     wrapper_process_step := fun _ w => (Raise NotImplementedError, w);
     wrapper_builder := fun _ w => (Raise NotImplementedError, w);
     model_to := model_to quiet;
     train_sequence := fun _ w => (Raise NotImplementedError, w);
     seq_len := seq_len quiet; seq_device := seq_device quiet; seq_iter := seq_iter quiet;
     seq_on_epoch_end := seq_on_epoch_end quiet; reset_metrics := reset_metrics quiet;
     train_step_on_batch := train_step_on_batch quiet;
     test_step_on_batch := test_step_on_batch quiet;
     predict_step_on_batch := predict_step_on_batch quiet;
     callbacks_set_model := callbacks_set_model quiet;
     callbacks_call := callbacks_call quiet; load_weights := load_weights quiet;
     model_load := model_load quiet;
     makedirs_from_filepath := makedirs_from_filepath quiet;
     numpy_item := numpy_item quiet; np_arange := np_arange quiet;
     gf_asarray := gf_asarray quiet; np_vstack := np_vstack quiet;
     softmax := softmax quiet; squeeze := squeeze quiet |}.

Definition checkpoint_cfg (enabled weights_only remove : bool) : ModelCheckpointCfg :=
  {| ckpt_enabled := enabled; ckpt_monitor := "val_accuracy";
     ckpt_remove_weights := remove; ckpt_path := "/tmp/run/weights";
     ckpt_save_best_only := true; ckpt_save_weights_only := weights_only;
     ckpt_vervose := 0 |}.

Definition early_stopping_cfg (enabled : bool) : EarlyStoppingCfg :=
  {| es_enabled := enabled; es_monitor := "val_loss"; es_patience := 10;
     es_mode := "auto"; es_verbose := 0; es_baseline := PNone;
     es_restore_best_weights := true |}.

Definition train_cfg (n v : Z) (ckpt : ModelCheckpointCfg) (es : bool) : TrainCfg :=
  {| epochs := n; verbose := v; cache_train_data := false; cache_val_data := false;
     cfg_ModelCheckpoint := ckpt; cfg_EarlyStopping := early_stopping_cfg es;
     cfg_TerminateOnNaN_enabled := false;
     cfg_TensorBoard := {| tb_enabled := false; tb_log_dir := "./logs";
                           tb_write_graph := true; tb_update_freq := PStr "epoch";
                           tb_histogram_freq := 0; tb_write_images := false |};
     cfg_Progbar_width := 20 |}.

Definition trainer (be : string) (processed : bool) (m : option model_obj) (c : TrainCfg)
    : Trainer :=
  {| is_processed := processed; backend := be; device := "cpu"; _model := m;
     backup := None;
     cfg := {| cfg_process := {["attr_transform" := PStr "normalize_attr"; "label" := PNone]};
               cfg_model := ∅; cfg_train := c;
               cfg_test := {| cache_test_data := false; test_verbose := 1;
                              test_Progbar_width := 20 |};
               cfg_predict_return_logits := true |};
     transform := ∅;
     cache := {| cache_train := None; cache_val := None; cache_test := None;
                 cache_predict := None |};
     graph_num_nodes := 4 |}.

Definition start (t : Trainer) (files : list string) : state F :=
  {| self := t; wld := {| fs := list_to_set files; stop_training := false; fw := -1 |} |}.

(** A trainer fresh from its constructor. *)
Definition fresh : state F :=
  start (trainer "tensorflow" false None (train_cfg 2 1 (checkpoint_cfg true true true) true))
        [].

Definition process_kwargs : pydict := {["adj_transform" := PStr "normalize_adj"]}.

(** A built trainer ready to train for [n] epochs. *)
Definition ready (be : string) (m : model_obj) (n v : Z) (ckpt : ModelCheckpointCfg)
    (files : list string) : state F :=
  start (trainer be true (Some m) (train_cfg n v ckpt true)) files.

Definition raw_data : data := DRaw (PObj 9).
Definition no_data : data := DRaw PNone.

(** What a run returned, [d] if it raised. *)
Definition returned {A} (d : A) (r : run F A) : A :=
  match outcome_of r with
  | Ok a => a
  | Raise _ => d
  end.

Definition no_locals : train_locals :=
  {| tl_model := model0; tl_train_data := 0%nat; tl_val_data := None;
     tl_callbacks := []; tl_history := History; tl_verbose := 0 |}.



Definition no_checkpoint : ModelCheckpointCfg := checkpoint_cfg false false true.
End Demo.

(** ** Observations on runs *)

(** The attributes of [self.transform] once the loop of [process] has run
    over [items], starting from the attributes [tr]. *)
Fixpoint transforms_of {F} (fwk : framework F) (items : list (string * pyval)) (tr : pydict)
    : pydict :=
  match items with
  | [] => tr
  | (k, v) :: rest =>
      transforms_of fwk rest
        (if endswith k "transform"
         then match gf_get fwk v with
              | Ok t => <[k := t]> tr
              | Raise _ => tr
              end
         else tr)
  end.

(** The hooks invoked, each with the callback list it was invoked on. *)
Definition hook_calls (evs : list event) : list (list callback * hook) :=
  omap (fun ev => match ev with ECallback cbs h => Some (cbs, h) | _ => None end) evs.

(** The epochs begun: the arguments of the [on_epoch_begin] calls. *)
Definition epochs_begun (evs : list event) : list Z :=
  omap (fun ev => match ev with ECallback _ (on_epoch_begin e) => Some e | _ => None end) evs.

(** The values read from [model.stop_training], one per completed epoch. *)
Definition stop_reads (evs : list event) : list bool :=
  omap (fun ev => match ev with EGetStopTraining b => Some b | _ => None end) evs.

(** Events that are neither a hook, nor a read of [stop_training], nor
    console output. *)
Definition plain (ev : event) : Prop :=
  match ev with
  | ECallback _ _ | EGetStopTraining _ | EPrint _ _ | EProgbarUpdate _ _ => False
  | _ => True
  end.

(** Events that do not begin an epoch and do not read [stop_training]. *)
Definition within_epoch (ev : event) : Prop :=
  match ev with
  | ECallback _ (on_epoch_begin _) | EGetStopTraining _ => False
  | _ => True
  end.

Definition no_hook (ev : event) : Prop :=
  match ev with
  | ECallback _ _ => False
  | _ => True
  end.

Definition is_remove (ev : event) : Prop :=
  match ev with
  | ERemove _ => True
  | _ => False
  end.

(** A training, testing or prediction step on a batch. *)
Definition is_step (ev : event) : Prop :=
  match ev with
  | ETrainStepOnBatch _ _ _ _ _ | ETestStepOnBatch _ _ _ _ _
  | EPredictStepOnBatch _ _ _ _ => True
  | _ => False
  end.

(** The hooks of one completed epoch. *)
Definition epoch_hooks (epoch : Z) (info : Z * pydict) : list hook :=
  [on_epoch_begin epoch; on_train_batch_begin 0;
   on_train_batch_end info.1 info.2; on_epoch_end epoch info.2].


Inductive callback_kind : Type :=
  | KHistory | KEarlyStopping | KModelCheckpoint | KTerminateOnNaN | KTensorBoard.

Definition kind_of (cb : callback) : callback_kind :=
  match cb with
  | History => KHistory
  | EarlyStopping _ _ _ _ _ _ => KEarlyStopping
  | ModelCheckpoint _ _ _ _ _ => KModelCheckpoint
  | TerminateOnNaN => KTerminateOnNaN
  | TensorBoard _ _ _ _ _ => KTensorBoard
  end.

Global Instance callback_kind_eq_dec : EqDecision callback_kind.
Proof. solve_decision. Defined.

(** The files [remove_weights] deletes for a checkpoint at [filepath]. *)
Definition removed_files {F} (fwk : framework F) (be filepath : string) : gset string :=
  (if String.eqb be "tensorflow"
   then list_to_set ((fun e => filepath +:+ e) <$> tf_extensions)
        ∪ {[checkpoint_sibling fwk filepath]}
   else ∅) ∪ {[filepath]}.

(** Every event of [m], from any state, satisfies [P]. *)
Definition emits {F A} (P : event -> Prop) (m : M F A) : Prop :=
  forall s, Forall P (events_of (m s)).

(** [m] relates the trainer it starts with to the trainer it leaves by [Q]. *)
Definition keeps {F A} (Q : Trainer -> Trainer -> Prop) (m : M F A) : Prop :=
  forall s, Q (self s) (self (state_of (m s))).

(** Relations between the trainer before and after. *)
Definition same_cfg (t t' : Trainer) : Prop :=
  cfg t' = cfg t /\ backend t' = backend t.

Definition same_core (t t' : Trainer) : Prop :=
  cfg t' = cfg t /\ _model t' = _model t /\ backend t' = backend t.

Definition same_monitors (t t' : Trainer) : Prop :=
  ckpt_monitor (cfg_ModelCheckpoint (cfg_train (cfg t')))
    = ckpt_monitor (cfg_ModelCheckpoint (cfg_train (cfg t))) /\
  es_monitor (cfg_EarlyStopping (cfg_train (cfg t')))
    = es_monitor (cfg_EarlyStopping (cfg_train (cfg t))).

Definition same_train_flags (t t' : Trainer) : Prop :=
  let c := cfg_train (cfg t) in
  let c' := cfg_train (cfg t') in
  epochs c' = epochs c /\ verbose c' = verbose c /\
  cfg_TerminateOnNaN_enabled c' = cfg_TerminateOnNaN_enabled c /\
  tb_enabled (cfg_TensorBoard c') = tb_enabled (cfg_TensorBoard c) /\
  es_enabled (cfg_EarlyStopping c') = es_enabled (cfg_EarlyStopping c) /\
  ckpt_enabled (cfg_ModelCheckpoint c') = ckpt_enabled (cfg_ModelCheckpoint c) /\
  ckpt_remove_weights (cfg_ModelCheckpoint c') = ckpt_remove_weights (cfg_ModelCheckpoint c) /\
  ckpt_save_weights_only (cfg_ModelCheckpoint c')
    = ckpt_save_weights_only (cfg_ModelCheckpoint c) /\
  backend t' = backend t.

(** The warnings issued, each with its category. *)
Definition warnings_of (evs : list event) : list (string * string) :=
  omap (fun ev => match ev with EWarn c m => Some (c, m) | _ => None end) evs.

(** Whether [setup_callbacks] replaces a monitor: there is no validation
    data, the callback is enabled and its monitor starts with ["val_"]. *)
Definition falls_back (validation enabled : bool) (monitor : string) : bool :=
  negb validation && enabled && startswith monitor "val_".

Definition is_warning (ev : event) : Prop :=
  match ev with
  | EWarn _ _ => True
  | _ => False
  end.

Definition no_warning (ev : event) : Prop := ~ is_warning ev.

(** The kinds of the callbacks the configuration enables, in the order
    [setup_callbacks] appends them. *)
Definition enabled_kinds (c : TrainCfg) : list callback_kind :=
  (if es_enabled (cfg_EarlyStopping c) then [KEarlyStopping] else []) ++
  (if ckpt_enabled (cfg_ModelCheckpoint c) then [KModelCheckpoint] else []) ++
  (if cfg_TerminateOnNaN_enabled c then [KTerminateOnNaN] else []) ++
  (if tb_enabled (cfg_TensorBoard c) then [KTensorBoard] else []).

(** Events other than the progress report of an epoch. *)
Definition no_progress (ev : event) : Prop :=
  match ev with
  | EProgbarUpdate _ _ => False
  | EPrint _ msg => startswith msg "Epoch " = false
  | _ => True
  end.

(** [m] always returns, leaves the trainer alone, deletes exactly the files
    in [X] and does nothing but deleting. *)
Definition removes {F} (X : gset string) (m : M F unit) : Prop :=
  forall s, outcome_of (m s) = Ok tt /\
            self (state_of (m s)) = self s /\
            fs (wld (state_of (m s))) = fs (wld s) ∖ X /\
            Forall is_remove (events_of (m s)).



(** ** Further observations on runs *)

(** The batches [train_step_on_batch] was called on. *)
Definition train_steps (evs : list event) : list (pyval * pyval * pyval) :=
  omap (fun ev => match ev with
                  | ETrainStepOnBatch _ x y w _ => Some (x, y, w)
                  | _ => None
                  end) evs.

(** The batches [test_step_on_batch] was called on. *)
Definition test_steps (evs : list event) : list (pyval * pyval * pyval) :=
  omap (fun ev => match ev with
                  | ETestStepOnBatch _ x y w _ => Some (x, y, w)
                  | _ => None
                  end) evs.

(** The event of a training step on [batch], [None] when the batch cannot
    be unravelled. *)
Definition train_call (model : model_obj) (dev : string) (batch : pyval) : option event :=
  match unravel_batch batch with
  | Ok (x, y, w) => Some (ETrainStepOnBatch model x y w dev)
  | Raise _ => None
  end.

Definition test_call (model : model_obj) (dev : string) (batch : pyval) : option event :=
  match unravel_batch batch with
  | Ok (x, y, w) => Some (ETestStepOnBatch model x y w dev)
  | Raise _ => None
  end.

(** A prediction step is not given the labels of the batch. *)
Definition predict_call (model : model_obj) (dev : string) (batch : pyval) : option event :=
  match unravel_batch batch with
  | Ok (x, _, w) => Some (EPredictStepOnBatch model x w dev)
  | Raise _ => None
  end.

(** [v.numpy().item()], when it returns. *)
Definition numpy_item_of {F} (fwk : framework F) (v : pyval) : option pyval :=
  match numpy_item fwk v with
  | Ok x => Some x
  | Raise _ => None
  end.

(** The events of the set-up of [train], up to [on_train_begin]. *)
Definition setup_event (ev : event) : Prop :=
  match ev with
  | EMakeSequence _ | EWarn _ _ | EMakedirs _ | ESetModel _ _ | ESetStopTraining false
  | EProgbar _ _ _ | EPrint stdout _ | ECallback _ on_train_begin => True
  | _ => False
  end.

(** The events of the loop over the epochs; a test step needs validation
    data. *)
Definition loop_event (validation : bool) (ev : event) : Prop :=
  match ev with
  | ECallback _ (on_epoch_begin _) | ECallback _ (on_train_batch_begin _)
  | ECallback _ (on_train_batch_end _ _) | ECallback _ (on_epoch_end _ _)
  | EProgbar _ _ _ | EResetMetrics _ | EIter _ | ETrainStepOnBatch _ _ _ _ _
  | ESeqEpochEnd _ | EPrint _ _ | EProgbarUpdate _ _ | EGetStopTraining _ => True
  | ETestStepOnBatch _ _ _ _ _ => validation = true
  | _ => False
  end.

(** The events that follow the loop in the [try] statement:
    [on_train_end] and the reload of the checkpoint. *)
Definition finish_event (ev : event) : Prop :=
  match ev with
  | ECallback _ on_train_end | ELoadWeights _ _ | ELoad _ _ _ => True
  | _ => False
  end.

(** [validation] in [train]: whether validation data was given. *)
Definition has_validation (L : train_locals) : bool :=
  match tl_val_data L with
  | Some _ => true
  | None => false
  end.

(** The callbacks [setup_callbacks] appends when the configuration is
    [c], each built from the entries of [c]. *)
Definition configured_callbacks (c : TrainCfg) : list callback :=
  let es_cfg := cfg_EarlyStopping c in
  let ckpt_cfg := cfg_ModelCheckpoint c in
  let tb_cfg := cfg_TensorBoard c in
  (if es_enabled es_cfg
   then [EarlyStopping (es_monitor es_cfg) (es_patience es_cfg) (es_mode es_cfg)
           (es_verbose es_cfg) (es_baseline es_cfg) (es_restore_best_weights es_cfg)]
   else []) ++
  (if ckpt_enabled ckpt_cfg
   then [ModelCheckpoint (ckpt_path ckpt_cfg) (ckpt_monitor ckpt_cfg)
           (ckpt_save_best_only ckpt_cfg) (ckpt_save_weights_only ckpt_cfg)
           (ckpt_vervose ckpt_cfg)]
   else []) ++
  (if cfg_TerminateOnNaN_enabled c then [TerminateOnNaN] else []) ++
  (if tb_enabled tb_cfg
   then [TensorBoard (tb_log_dir tb_cfg) (tb_write_graph tb_cfg) (tb_update_freq tb_cfg)
           (tb_histogram_freq tb_cfg) (tb_write_images tb_cfg)]
   else []).

(** The directories made: the arguments of [makedirs_from_filepath]. *)
Definition makedirs_of (evs : list event) : list string :=
  omap (fun ev => match ev with EMakedirs p => Some p | _ => None end) evs.


(** The trainer's cache is left as it was. *)
Definition same_cache (t t' : Trainer) : Prop := cache t' = cache t.

(** * Properties *)

(** ** Python sequences and strings *)

Lemma nth_error_last (l : list pyval) (d : pyval) :
  l <> [] -> nth_error l (length l - 1) = Some (List.last l d).
Proof.
  induction l as [|a [|b l] IH]; intros Hne; [done | done |].
  specialize (IH ltac:(done)). cbn [length] in *.
  replace (S (S (length l)) - 1)%nat with (S (S (length l) - 1)) by lia.
  exact IH.
Qed.

Lemma py_getitem_last (l : list pyval) (d : pyval) :
  l <> [] -> py_getitem l (-1) = Ok (List.last l d).
Proof.
  intros Hne. unfold py_getitem.
  assert (0 < Z.of_nat (length l)) by (destruct l; [done | cbn; lia]).
  replace (-1 <? 0) with true by done.
  destruct (Z.ltb_spec (-1 + Z.of_nat (length l)) 0); [lia |].
  destruct (Z.leb_spec (Z.of_nat (length l)) (-1 + Z.of_nat (length l))); [lia |].
  cbn [orb].
  replace (Z.to_nat (-1 + Z.of_nat (length l))) with (length l - 1)%nat by lia.
  by rewrite (nth_error_last l d Hne).
Qed.

Lemma nth_error_is_lookup (l : list pyval) (i : nat) : nth_error l i = l !! i.
Proof. revert i. induction l as [|a l IH]; intros [|i]; cbn; auto. Qed.

Lemma py_getitem_lookup (l : list pyval) (i : nat) (v : pyval) :
  l !! i = Some v -> py_getitem l (Z.of_nat i) = Ok v.
Proof.
  intros Hv. pose proof (lookup_lt_Some _ _ _ Hv) as Hlt. unfold py_getitem.
  destruct (Z.ltb_spec (Z.of_nat i) 0); [lia |].
  destruct (Z.ltb_spec (Z.of_nat i) 0); [lia |].
  destruct (Z.leb_spec (Z.of_nat (length l)) (Z.of_nat i)); [lia |].
  cbn [orb]. by rewrite Nat2Z.id, nth_error_is_lookup, Hv.
Qed.

Lemma startswith_drop (s p : string) :
  startswith s p = true -> p +:+ str_drop (String.length p) s = s.
Proof.
  unfold startswith. revert s.
  induction p as [|c p IH]; intros s H; [done |].
  destruct s as [|c' s]; [done |]. cbn in H.
  destruct (Ascii.ascii_dec c c') as [->|]; [| done].
  change (String c' (p +:+ str_drop (String.length p) s) = String c' s).
  f_equal. by apply IH.
Qed.

(** C8: [unravel_batch] returns [(batch, None, None)] for anything that is
    not a list or tuple; for a list or tuple of length 2 it returns the two
    elements and [None]; for a longer one it returns elements 0 and 1 and
    the last element; for a shorter one it raises [IndexError]. *)
Theorem unravel_batch_shape (batch : pyval) :
  match as_list_or_tuple batch with
  | None => unravel_batch batch = Ok (batch, PNone, PNone)
  | Some l =>
      (length l = 2%nat ->
       exists a b, l = [a; b] /\ unravel_batch batch = Ok (a, b, PNone)) /\
      ((2 < length l)%nat ->
       exists a b c, l !! 0%nat = Some a /\ l !! 1%nat = Some b /\
                     List.last l PNone = c /\ py_getitem l (-1) = Ok c /\
                     unravel_batch batch = Ok (a, b, c)) /\
      ((length l < 2)%nat -> exists msg, unravel_batch batch = Raise (IndexError msg))
  end.
Proof.
  unfold unravel_batch.
  destruct (as_list_or_tuple batch) as [l|] eqn:Hl; [| done].
  split; [| split].
  - intros Hlen. destruct l as [|a [|b [|c l]]]; try done. by exists a, b.
  - intros Hlen. destruct l as [|a [|b [|c l]]]; cbn in Hlen; try lia.
    exists a, b, (List.last (a :: b :: c :: l) PNone).
    split; [done |]. split; [done |]. split; [done |].
    assert (Hlast : py_getitem (a :: b :: c :: l) (-1)
                    = Ok (List.last (a :: b :: c :: l) PNone))
      by (by apply py_getitem_last).
    split; [exact Hlast |].
    assert (H0 : py_getitem (a :: b :: c :: l) 0 = Ok a)
      by exact (py_getitem_lookup (a :: b :: c :: l) 0 a eq_refl).
    assert (H1 : py_getitem (a :: b :: c :: l) 1 = Ok b)
      by exact (py_getitem_lookup (a :: b :: c :: l) 1 b eq_refl).
    rewrite H0, H1.
    replace (2 <? Z.of_nat (length (a :: b :: c :: l))) with true
      by (symmetry; apply Z.ltb_lt; cbn [length]; lia).
    by rewrite Hlast.
  - intros Hlen. destruct l as [|a [|b l]]; cbn in Hlen; try lia.
    + by eexists.
    + by eexists.
Qed.

Lemma unravel_batch_shape_witness :
  unravel_batch (PObj 7) = Ok (PObj 7, PNone, PNone) /\
  unravel_batch (PTuple [PObj 1; PObj 2]) = Ok (PObj 1, PObj 2, PNone) /\
  unravel_batch (PList [PObj 1; PObj 2; PObj 3; PObj 4]) = Ok (PObj 1, PObj 2, PObj 4) /\
  (exists msg, unravel_batch (PList [PObj 1]) = Raise (IndexError msg)).
Proof.
  split; [exact (unravel_batch_shape (PObj 7)) |].
  split.
  { destruct (proj1 (unravel_batch_shape (PTuple [PObj 1; PObj 2])) eq_refl)
      as (a & b & Hl & Hr).
    injection Hl as <- <-. exact Hr. }
  split.
  { destruct (proj1 (proj2 (unravel_batch_shape (PList [PObj 1; PObj 2; PObj 3; PObj 4])))
                ltac:(cbn; lia)) as (a & b & c & Ha & Hb & Hc & _ & Hr).
    injection Ha as <-. injection Hb as <-. cbn in Hc. subst c. exact Hr. }
  exact (proj2 (proj2 (unravel_batch_shape (PList [PObj 1]))) ltac:(cbn; lia)).
Defined.

(** ** The monad *)

(** Reduce projections of runs, states and configuration records, and
    nothing else: dictionaries and strings stay as they are. *)
Ltac reduce_run :=
  cbn [prepend outcome_of state_of events_of self wld fs stop_training fw fst snd app
       negb andb orb
       is_processed backend device _model backup cfg transform cache graph_num_nodes
       cfg_process cfg_model cfg_train cfg_test cfg_predict_return_logits
       with_is_processed with_cfg with_transform with_cache set_model
       with_cfg_process with_cfg_model with_cfg_train with_cfg_test with_return_logits
       epochs verbose cache_train_data cache_val_data cfg_ModelCheckpoint
       cfg_EarlyStopping cfg_TerminateOnNaN_enabled cfg_TensorBoard cfg_Progbar_width
       ckpt_enabled ckpt_monitor ckpt_remove_weights ckpt_path ckpt_save_best_only
       ckpt_save_weights_only ckpt_vervose
       es_enabled es_monitor es_patience es_mode es_verbose es_baseline
       es_restore_best_weights
       tb_enabled tb_log_dir tb_write_graph tb_update_freq tb_histogram_freq
       tb_write_images
       with_monitor_ckpt with_path_ckpt with_monitor_es with_ModelCheckpoint
       with_EarlyStopping
       cache_train cache_val cache_test cache_predict
       with_cache_train with_cache_val with_cache_test with_cache_predict
       cache_test_data test_verbose test_Progbar_width].

(** Case analysis on the first value the goal branches on. *)
Ltac split_match :=
  match goal with
  | |- context [match ?x with _ => _ end] => destruct x eqn:?
  end.

(** Unfold the monad's operations and reduce. *)
Ltac run :=
  unfold bind, ret, raise, lift, get_self, modify_self, get_world, emit, call,
    set_stop_training, get_stop_training, osp_exists, os_remove;
  reduce_run.

Section MonadFacts.
Context {F : Type}.
Implicit Types s : state F.

Lemma bind_Ok {A B} (m : M F A) (k : A -> M F B) s a s1 evs :
  m s = {| outcome_of := Ok a; state_of := s1; events_of := evs |} ->
  bind m k s = prepend evs (k a s1).
Proof. intros H. unfold bind. by rewrite H. Qed.

Lemma bind_Raise {A B} (m : M F A) (k : A -> M F B) s e s1 evs :
  m s = {| outcome_of := Raise e; state_of := s1; events_of := evs |} ->
  bind m k s = {| outcome_of := Raise e; state_of := s1; events_of := evs |}.
Proof. intros H. unfold bind. by rewrite H. Qed.

Lemma bind_Ok_inv {A B} (m : M F A) (k : A -> M F B) s b s2 evs :
  bind m k s = {| outcome_of := Ok b; state_of := s2; events_of := evs |} ->
  exists a s1 evs1 evs2,
    m s = {| outcome_of := Ok a; state_of := s1; events_of := evs1 |} /\
    k a s1 = {| outcome_of := Ok b; state_of := s2; events_of := evs2 |} /\
    evs = evs1 ++ evs2.
Proof.
  unfold bind. destruct (m s) as [[a|e] s1 evs1]; [| done].
  destruct (k a s1) as [o s2' evs2] eqn:Ek. unfold prepend. cbn.
  intros H. injection H as H1 H2 H3. subst. by exists a, s1, evs1, evs2.
Qed.

Lemma events_bind {A B} (m : M F A) (k : A -> M F B) s :
  events_of (bind m k s)
    = events_of (m s) ++ match outcome_of (m s) with
                         | Ok a => events_of (k a (state_of (m s)))
                         | Raise _ => []
                         end.
Proof.
  unfold bind. destruct (m s) as [[a|e] s1 evs1]; cbn.
  - by destruct (k a s1).
  - by rewrite app_nil_r.
Qed.

Lemma try_finally_Ok_inv {A} (body : M F A) (cleanup : M F unit) s a s2 evs :
  try_finally body cleanup s
    = {| outcome_of := Ok a; state_of := s2; events_of := evs |} ->
  exists s1 evs1 evs2,
    body s = {| outcome_of := Ok a; state_of := s1; events_of := evs1 |} /\
    cleanup s1 = {| outcome_of := Ok tt; state_of := s2; events_of := evs2 |} /\
    evs = evs1 ++ evs2.
Proof.
  unfold try_finally. destruct (body s) as [o s1 evs1].
  destruct (cleanup s1) as [[[]|e] s2' evs2] eqn:Ec; [| done].
  intros H. injection H as H1 H2 H3. subst. by exists s1, evs1, evs2.
Qed.


Lemma run_eta {A} (r : run F A) :
  {| outcome_of := outcome_of r; state_of := state_of r; events_of := events_of r |} = r.
Proof. by destruct r. Qed.
End MonadFacts.

(** ** What methods emit and what they keep *)

Section Emits.
Context {F : Type}.
Implicit Types (s : state F) (P : event -> Prop) (Q : Trainer -> Trainer -> Prop).

Lemma emits_ret {A} P (a : A) : emits (F:=F) P (ret a).
Proof. intros s. constructor. Qed.

Lemma emits_raise {A} P e : emits (F:=F) (A:=A) P (raise e).
Proof. intros s. constructor. Qed.

Lemma emits_lift {A} P (r : outcome A) : emits (F:=F) P (lift r).
Proof. intros s. constructor. Qed.

Lemma emits_get_self P : emits (F:=F) P get_self.
Proof. intros s. constructor. Qed.

Lemma emits_modify_self P f : emits (F:=F) P (modify_self f).
Proof. intros s. constructor. Qed.

Lemma emits_get_world P : emits (F:=F) P get_world.
Proof. intros s. constructor. Qed.

Lemma emits_osp_exists P path : emits (F:=F) P (osp_exists path).
Proof. intros s. constructor. Qed.

Lemma emits_emit P ev : P ev -> emits (F:=F) P (emit ev).
Proof. intros H s. by repeat constructor. Qed.

Lemma emits_call {A} P ev (f : ext F A) : P ev -> emits P (call ev f).
Proof. intros H s. by repeat constructor. Qed.

Lemma emits_set_stop_training P b :
  P (ESetStopTraining b) -> emits (F:=F) P (set_stop_training b).
Proof. intros H s. by repeat constructor. Qed.

Lemma emits_get_stop_training P :
  (forall b, P (EGetStopTraining b)) -> emits (F:=F) P get_stop_training.
Proof. intros H s. by repeat constructor. Qed.

Lemma emits_os_remove P path : P (ERemove path) -> emits (F:=F) P (os_remove path).
Proof. intros H s. by repeat constructor. Qed.

Lemma emits_bind {A B} P (m : M F A) (k : A -> M F B) :
  emits P m -> (forall a, emits P (k a)) -> emits P (bind m k).
Proof.
  intros Hm Hk s. unfold bind. specialize (Hm s).
  destruct (m s) as [[a|e] s1 evs]; [| exact Hm].
  specialize (Hk a s1). destruct (k a s1) as [o s2 evs2]. cbn in *.
  by apply Forall_app.
Qed.

Lemma emits_try_finally {A} P (body : M F A) (cleanup : M F unit) :
  emits P body -> emits P cleanup -> emits P (try_finally body cleanup).
Proof.
  intros Hb Hc s. unfold try_finally. specialize (Hb s).
  destruct (body s) as [o s1 evs]. specialize (Hc s1).
  destruct (cleanup s1) as [[[]|e] s2 evs2]; cbn in *; by apply Forall_app.
Qed.

Lemma emits_weaken {A} P P' (m : M F A) :
  (forall ev, P ev -> P' ev) -> emits P m -> emits P' m.
Proof. intros H Hm s. eapply Forall_impl; [apply Hm | exact H]. Qed.

Lemma keeps_ret {A} Q `{!Reflexive Q} (a : A) : keeps (F:=F) Q (ret a).
Proof. intros s. cbn. reflexivity. Qed.

Lemma keeps_raise {A} Q `{!Reflexive Q} e : keeps (F:=F) (A:=A) Q (raise e).
Proof. intros s. cbn. reflexivity. Qed.

Lemma keeps_lift {A} Q `{!Reflexive Q} (r : outcome A) : keeps (F:=F) Q (lift r).
Proof. intros s. cbn. reflexivity. Qed.

Lemma keeps_get_self Q `{!Reflexive Q} : keeps (F:=F) Q get_self.
Proof. intros s. cbn. reflexivity. Qed.

Lemma keeps_get_world Q `{!Reflexive Q} : keeps (F:=F) Q get_world.
Proof. intros s. cbn. reflexivity. Qed.

Lemma keeps_osp_exists Q `{!Reflexive Q} path : keeps (F:=F) Q (osp_exists path).
Proof. intros s. cbn. reflexivity. Qed.

Lemma keeps_emit Q `{!Reflexive Q} ev : keeps (F:=F) Q (emit ev).
Proof. intros s. cbn. reflexivity. Qed.

Lemma keeps_call {A} Q `{!Reflexive Q} ev (f : ext F A) : keeps Q (call ev f).
Proof. intros s. cbn. reflexivity. Qed.

Lemma keeps_set_stop_training Q `{!Reflexive Q} b : keeps (F:=F) Q (set_stop_training b).
Proof. intros s. cbn. reflexivity. Qed.

Lemma keeps_get_stop_training Q `{!Reflexive Q} : keeps (F:=F) Q get_stop_training.
Proof. intros s. cbn. reflexivity. Qed.

Lemma keeps_os_remove Q `{!Reflexive Q} path : keeps (F:=F) Q (os_remove path).
Proof. intros s. cbn. reflexivity. Qed.

Lemma keeps_modify_self Q f : (forall t, Q t (f t)) -> keeps (F:=F) Q (modify_self f).
Proof. intros H s. cbn. apply H. Qed.

Lemma keeps_bind {A B} Q `{!Transitive Q} (m : M F A) (k : A -> M F B) :
  keeps Q m -> (forall a, keeps Q (k a)) -> keeps Q (bind m k).
Proof.
  intros Hm Hk s. unfold bind. specialize (Hm s).
  destruct (m s) as [[a|e] s1 evs]; [| exact Hm].
  specialize (Hk a s1). destruct (k a s1) as [o s2 evs2]. cbn in *.
  by transitivity (self s1).
Qed.

Lemma keeps_try_finally {A} Q `{!Transitive Q} (body : M F A) (cleanup : M F unit) :
  keeps Q body -> keeps Q cleanup -> keeps Q (try_finally body cleanup).
Proof.
  intros Hb Hc s. unfold try_finally. specialize (Hb s).
  destruct (body s) as [o s1 evs]. specialize (Hc s1).
  destruct (cleanup s1) as [[[]|e] s2 evs2]; cbn in *; by transitivity (self s1).
Qed.
End Emits.

Global Instance same_cfg_preorder : PreOrder same_cfg.
Proof.
  split; [by intros t | intros t1 t2 t3 [] []; split; congruence].
Qed.

Global Instance same_core_preorder : PreOrder same_core.
Proof.
  split; [by intros t | intros t1 t2 t3 (?&?&?) (?&?&?); repeat split; congruence].
Qed.

Global Instance same_monitors_preorder : PreOrder same_monitors.
Proof.
  split; [by intros t | intros t1 t2 t3 [] []; split; congruence].
Qed.

Global Instance same_train_flags_preorder : PreOrder same_train_flags.
Proof.
  split; [by intros t |].
  intros t1 t2 t3. unfold same_train_flags. cbn zeta. intros H1 H2.
  destruct H1 as (?&?&?&?&?&?&?&?&?), H2 as (?&?&?&?&?&?&?&?&?).
  repeat split; congruence.
Qed.

Create HintDb emits discriminated.

(** Decompose a goal [emits P m] or [keeps Q m] along the structure of [m]. *)
Ltac emits_step :=
  match goal with
  | |- emits _ (bind _ _) => apply emits_bind; [| intros ?]
  | |- emits _ (ret _) => apply emits_ret
  | |- emits _ (raise _) => apply emits_raise
  | |- emits _ (lift _) => apply emits_lift
  | |- emits _ get_self => apply emits_get_self
  | |- emits _ get_world => apply emits_get_world
  | |- emits _ (modify_self _) => apply emits_modify_self
  | |- emits _ (osp_exists _) => apply emits_osp_exists
  | |- emits _ (emit _) => apply emits_emit; try first [exact I | done]
  | |- emits _ (call _ _) => apply emits_call; try first [exact I | done]
  | |- emits _ (set_stop_training _) => apply emits_set_stop_training; try exact I
  | |- emits _ get_stop_training => apply emits_get_stop_training; try (intros ?; exact I)
  | |- emits _ (os_remove _) => apply emits_os_remove; try exact I
  | |- emits _ (try_finally _ _) => apply emits_try_finally
  | |- emits _ (if ?b then _ else _) => destruct b
  | |- emits _ (match ?x with _ => _ end) => destruct x
  | |- keeps _ (bind _ _) => apply keeps_bind; [apply _ | | intros ?]
  | |- keeps _ (ret _) => apply keeps_ret; apply _
  | |- keeps _ (raise _) => apply keeps_raise; apply _
  | |- keeps _ (lift _) => apply keeps_lift; apply _
  | |- keeps _ get_self => apply keeps_get_self; apply _
  | |- keeps _ get_world => apply keeps_get_world; apply _
  | |- keeps _ (osp_exists _) => apply keeps_osp_exists; apply _
  | |- keeps _ (emit _) => apply keeps_emit; apply _
  | |- keeps _ (call _ _) => apply keeps_call; apply _
  | |- keeps _ (set_stop_training _) => apply keeps_set_stop_training; apply _
  | |- keeps _ get_stop_training => apply keeps_get_stop_training; apply _
  | |- keeps _ (os_remove _) => apply keeps_os_remove; apply _
  | |- keeps _ (try_finally _ _) => apply keeps_try_finally; [apply _ | |]
  | |- keeps _ (if ?b then _ else _) => destruct b
  | |- keeps _ (match ?x with _ => _ end) => destruct x
  end.

Ltac emits_auto := repeat first [emits_step | solve [eauto with emits]].

(** From [H : (m ;; k) s = Ok ...], the run of [m] and the run of [k]. *)
Ltac peel H Hm :=
  let a := fresh "a" in
  let s1 := fresh "s" in
  let e1 := fresh "evs" in
  let e2 := fresh "evs" in
  apply bind_Ok_inv in H as (a & s1 & e1 & e2 & Hm & H & ->).

(** The same, naming the state between [m] and [k]. *)
Ltac peel_to H Hm s1 :=
  let a := fresh "a" in
  let e1 := fresh "evs" in
  let e2 := fresh "evs" in
  apply bind_Ok_inv in H as (a & s1 & e1 & e2 & Hm & H & ->).

(** Take apart an equation between two runs. *)
Ltac inv_run H := injection H; clear H; intros; subst.

(** From [Hm : m s = {| ...; events_of := evs |}], that [evs] satisfies [P]. *)
Ltac events_in P Hm H :=
  match type of Hm with
  | ?m ?s = _ =>
      assert (H : emits P m);
      [ try solve [emits_auto]
      | specialize (H s); rewrite Hm in H; cbn [events_of] in H ]
  end.

(** From [Hm : m s = {| ...; state_of := s' |}], that [Q (self s) (self s')]. *)
Ltac trainer_in Q Hm H :=
  match type of Hm with
  | ?m ?s = _ =>
      assert (H : keeps Q m);
      [ try solve [emits_auto]
      | specialize (H s); rewrite Hm in H; cbn [state_of] in H ]
  end.

(** ** [process], [build] and [build_from_model] *)

Section Lifecycle.
Context {F : Type} (fwk : framework F).
Implicit Types s : state F.

Lemma transforms_of_other (items : list (string * pyval)) (tr : pydict) (k : string) :
  k ∉ items.*1 -> transforms_of fwk items tr !! k = tr !! k.
Proof.
  revert tr. induction items as [|[k0 v0] rest IH]; intros tr Hk; [done |].
  cbn in Hk. apply not_elem_of_cons in Hk as [Hne Hk]. cbn [transforms_of].
  rewrite IH by done.
  destruct (endswith k0 "transform"); [| done].
  destruct (gf_get fwk v0); [| done]. by rewrite lookup_insert_ne.
Qed.

Lemma transforms_of_skipped (items : list (string * pyval)) (tr : pydict) (k : string) :
  endswith k "transform" = false -> transforms_of fwk items tr !! k = tr !! k.
Proof.
  intros Hk. revert tr. induction items as [|[k0 v0] rest IH]; intros tr; [done |].
  cbn [transforms_of]. rewrite IH.
  destruct (endswith k0 "transform") eqn:E0; [| done].
  destruct (gf_get fwk v0); [| done].
  rewrite lookup_insert_ne; [done |]. intros ->. congruence.
Qed.

Lemma transforms_of_set (items : list (string * pyval)) (tr : pydict) k v t :
  NoDup items.*1 -> (k, v) ∈ items -> endswith k "transform" = true ->
  gf_get fwk v = Ok t -> transforms_of fwk items tr !! k = Some t.
Proof.
  revert tr. induction items as [|[k0 v0] rest IH]; intros tr Hnd Hin Hk Hg.
  { by apply elem_of_nil in Hin. }
  cbn in Hnd. apply NoDup_cons in Hnd as [Hfresh Hnd]. cbn [transforms_of].
  apply elem_of_cons in Hin as [Heq | Hin].
  - injection Heq as <- <-. rewrite Hk, Hg.
    rewrite transforms_of_other by done. by rewrite lookup_insert_eq.
  - by apply IH.
Qed.

Lemma with_transform_id (t : Trainer) : with_transform (transform t) t = t.
Proof. by destruct t. Qed.

Lemma state_eta s : {| self := self s; wld := wld s |} = s.
Proof. by destruct s. Qed.

Lemma set_transforms_spec (items : list (string * pyval)) s :
  (forall k v, (k, v) ∈ items -> endswith k "transform" = true ->
               exists t, gf_get fwk v = Ok t) ->
  set_transforms fwk items s
    = {| outcome_of := Ok tt;
         state_of := {| self := with_transform
                                  (transforms_of fwk items (transform (self s))) (self s);
                        wld := wld s |};
         events_of := [] |}.
Proof.
  revert s. induction items as [|[k v] rest IH]; intros s Hg.
  { cbn [set_transforms transforms_of]. unfold ret.
    by rewrite with_transform_id, state_eta. }
  cbn [set_transforms transforms_of].
  assert (Hrest : forall k' v', (k', v') ∈ rest -> endswith k' "transform" = true ->
                                exists t, gf_get fwk v' = Ok t).
  { intros k' v' Hin. apply Hg. apply elem_of_cons. by right. }
  destruct (endswith k "transform") eqn:Ek.
  - destruct (Hg k v ltac:(apply elem_of_cons; by left) Ek) as [t Ht].
    run. rewrite Ht. run. by rewrite (IH _ Hrest).
  - run. by rewrite (IH _ Hrest).
Qed.

(** What [process] does when the calls it delegates to return. *)
Lemma process_returns s (kwargs kwargs' merged : pydict) (w : world F) :
  wrapper_process_step fwk kwargs (wld s) = (Ok kwargs', w) ->
  merge_from_dict fwk (cfg_process (cfg (self s))) kwargs' = Ok merged ->
  (forall k v, merged !! k = Some v -> endswith k "transform" = true ->
               exists t, gf_get fwk v = Ok t) ->
  let me' := with_is_processed true
               (with_transform (transforms_of fwk (map_to_list merged) (transform (self s)))
                  (with_cfg (with_cfg_process merged (cfg (self s))) (self s))) in
  process fwk kwargs s
    = {| outcome_of := Ok me'; state_of := {| self := me'; wld := w |};
         events_of := [EProcessStep kwargs] |}.
Proof.
  intros Hw Hm Hg me'. subst me'. unfold process.
  assert (Hitems : forall k v, (k, v) ∈ map_to_list merged ->
                               endswith k "transform" = true ->
                               exists t, gf_get fwk v = Ok t).
  { intros k v Hin. apply Hg. by apply elem_of_map_to_list. }
  run. rewrite Hw. run. rewrite Hm. run.
  by rewrite (set_transforms_spec _ _ Hitems).
Qed.

(** C7: [process] merges the keyword arguments handed back by
    [process_step] into [cfg.process]; then every entry of [cfg.process]
    whose key ends with ["transform"] is an attribute of
    [self.transform], set to [gf.get] of the configured value, the other
    attributes being left alone; and [process] returns the trainer. *)
Theorem process_merges_and_sets_transforms s (kwargs kwargs' merged : pydict)
    (w : world F) :
  wrapper_process_step fwk kwargs (wld s) = (Ok kwargs', w) ->
  merge_from_dict fwk (cfg_process (cfg (self s))) kwargs' = Ok merged ->
  (forall k v, merged !! k = Some v -> endswith k "transform" = true ->
               exists t, gf_get fwk v = Ok t) ->
  let r := process fwk kwargs s in
  outcome_of r = Ok (self (state_of r)) /\
  cfg_process (cfg (self (state_of r))) = merged /\
  (forall k v, merged !! k = Some v -> endswith k "transform" = true ->
               exists t, gf_get fwk v = Ok t /\
                         transform (self (state_of r)) !! k = Some t) /\
  (forall k, merged !! k = None \/ endswith k "transform" = false ->
             transform (self (state_of r)) !! k = transform (self s) !! k).
Proof.
  intros Hw Hm Hg r. subst r.
  rewrite (process_returns s kwargs kwargs' merged w Hw Hm Hg). reduce_run.
  split; [done |]. split; [done |]. split.
  - intros k v Hk Hend. destruct (Hg k v Hk Hend) as [t Ht]. exists t.
    split; [done |].
    apply (transforms_of_set _ _ k v t); [apply NoDup_fst_map_to_list | | done | done].
    by apply elem_of_map_to_list.
  - intros k [Hnone | Hend].
    + apply transforms_of_other. intros Hin.
      apply list_elem_of_fmap in Hin as ([k' v'] & -> & Hin).
      apply elem_of_map_to_list in Hin. cbn in Hnone. congruence.
    + by apply transforms_of_skipped.
Qed.

(** C1: while [is_processed] is false, [build] and [build_from_model]
    raise [RuntimeError] and leave the trainer, its model included, as it
    was; [process] sets [is_processed] and returns the trainer, and from
    then on [build] passes the guard and calls the builder. *)
Theorem build_requires_process s (kwargs : pydict) (model : model_obj) :
  is_processed (self s) = false ->
  build fwk kwargs s
    = {| outcome_of := Raise (RuntimeError msg_process_first); state_of := s;
         events_of := [] |} /\
  build_from_model fwk model s
    = {| outcome_of := Raise (RuntimeError msg_process_first); state_of := s;
         events_of := [] |} /\
  (forall (pkwargs pkwargs' merged : pydict) (w : world F),
     wrapper_process_step fwk pkwargs (wld s) = (Ok pkwargs', w) ->
     merge_from_dict fwk (cfg_process (cfg (self s))) pkwargs' = Ok merged ->
     (forall k v, merged !! k = Some v -> endswith k "transform" = true ->
                  exists t, gf_get fwk v = Ok t) ->
     let r := process fwk pkwargs s in
     outcome_of r = Ok (self (state_of r)) /\
     is_processed (self (state_of r)) = true /\
     outcome_of (require_processed (state_of r)) = Ok tt /\
     exists rest, events_of (build fwk kwargs (state_of r)) = EBuilder kwargs :: rest).
Proof.
  intros Hp. split; [| split].
  - unfold build, require_processed. run. by rewrite Hp.
  - unfold build_from_model, require_processed. run. by rewrite Hp.
  - intros pkwargs pkwargs' merged w Hw Hm Hg r. subst r.
    rewrite (process_returns s pkwargs pkwargs' merged w Hw Hm Hg).
    reduce_run.
    split; [done |]. split; [done |]. split; [done |].
    unfold build, require_processed. run.
    destruct (String.eqb (backend (self s)) "tensorflow"); run;
      destruct (wrapper_builder fwk kwargs w) as [[[m kw]|e] w1]; run;
      try (destruct (model_to fwk m (device (self s)) w1) as [[m'|e'] w2]; run);
      repeat (split_match; run); by eexists.
Qed.
End Lifecycle.

Lemma process_merges_and_sets_transforms_witness :
  outcome_of (process Demo.quiet Demo.process_kwargs Demo.fresh)
    = Ok (self (state_of (process Demo.quiet Demo.process_kwargs Demo.fresh))) /\
  transform (self (state_of (process Demo.quiet Demo.process_kwargs Demo.fresh)))
    !! "adj_transform" = Some (PObj 13) /\
  transform (self (state_of (process Demo.quiet Demo.process_kwargs Demo.fresh)))
    !! "attr_transform" = Some (PObj 14).
Proof.
  assert (Hg : forall k v,
             (Demo.process_kwargs ∪ cfg_process (cfg (self Demo.fresh))) !! k = Some v ->
             endswith k "transform" = true -> exists t, gf_get Demo.quiet v = Ok t).
  { intros k v Hk _. apply elem_of_map_to_list in Hk.
    eassert (Hl : map_to_list (Demo.process_kwargs ∪ cfg_process (cfg (self Demo.fresh))) = _)
      by (vm_compute; reflexivity).
    rewrite Hl in Hk. clear Hl. rewrite !elem_of_cons, elem_of_nil in Hk.
    destruct Hk as [Hk | [Hk | [Hk | []]]]; injection Hk as -> ->;
      eexists; vm_compute; reflexivity. }
  destruct (process_merges_and_sets_transforms Demo.quiet Demo.fresh Demo.process_kwargs
              Demo.process_kwargs
              (Demo.process_kwargs ∪ cfg_process (cfg (self Demo.fresh)))
              (wld Demo.fresh) eq_refl eq_refl Hg) as (Ho & _ & Ht & _).
  split; [exact Ho |]. split.
  - destruct (Ht "adj_transform" (PStr "normalize_adj")
                ltac:(vm_compute; reflexivity) ltac:(vm_compute; reflexivity))
      as (t & Hget & Hl).
    assert (Hv : gf_get Demo.quiet (PStr "normalize_adj") = Ok (PObj 13))
      by (vm_compute; reflexivity).
    rewrite Hv in Hget. injection Hget as <-. exact Hl.
  - destruct (Ht "attr_transform" (PStr "normalize_attr")
                ltac:(vm_compute; reflexivity) ltac:(vm_compute; reflexivity))
      as (t & Hget & Hl).
    assert (Hv : gf_get Demo.quiet (PStr "normalize_attr") = Ok (PObj 14))
      by (vm_compute; reflexivity).
    rewrite Hv in Hget. injection Hget as <-. exact Hl.
Defined.

Lemma build_requires_process_witness :
  is_processed (self Demo.fresh) = false /\
  outcome_of (build Demo.quiet ∅ Demo.fresh) = Raise (RuntimeError msg_process_first) /\
  _model (self (state_of (build Demo.quiet ∅ Demo.fresh))) = None /\
  outcome_of (build_from_model Demo.quiet Demo.model0 Demo.fresh)
    = Raise (RuntimeError msg_process_first) /\
  is_processed (self (state_of (process Demo.quiet Demo.process_kwargs Demo.fresh))) = true.
Proof.
  assert (Hg : forall k v,
             (Demo.process_kwargs ∪ cfg_process (cfg (self Demo.fresh))) !! k = Some v ->
             endswith k "transform" = true -> exists t, gf_get Demo.quiet v = Ok t).
  { intros k v Hk _. apply elem_of_map_to_list in Hk.
    eassert (Hl : map_to_list (Demo.process_kwargs ∪ cfg_process (cfg (self Demo.fresh))) = _)
      by (vm_compute; reflexivity).
    rewrite Hl in Hk. clear Hl. rewrite !elem_of_cons, elem_of_nil in Hk.
    destruct Hk as [Hk | [Hk | [Hk | []]]]; injection Hk as -> ->;
      eexists; vm_compute; reflexivity. }
  destruct (build_requires_process Demo.quiet Demo.fresh ∅ Demo.model0 eq_refl)
    as (Hb & Hm & Hp).
  destruct (Hp Demo.process_kwargs Demo.process_kwargs
              (Demo.process_kwargs ∪ cfg_process (cfg (self Demo.fresh)))
              (wld Demo.fresh) eq_refl eq_refl Hg) as (_ & Hproc & _).
  split; [reflexivity |]. rewrite Hb, Hm. cbn [outcome_of state_of].
  split; [reflexivity |]. split; [reflexivity |]. split; [reflexivity | exact Hproc].
Defined.

(** ** [train], [test] and [predict] need a model *)

Section NeedsModel.
Context {F : Type} (fwk : framework F).
Implicit Types s : state F.

End NeedsModel.



(** ** [setup_callbacks] *)

Section SetupCallbacks.
Context {F : Type} (fwk : framework F).
Implicit Types s : state F.

Lemma omap_none_Forall {A} (f : event -> option A) (P : event -> Prop) evs :
  (forall ev, P ev -> f ev = None) -> Forall P evs -> omap f evs = [].
Proof.
  intros Hf. induction 1 as [|ev evs Hev _ IH]; [done |].
  cbn. by rewrite (Hf ev Hev), IH.
Qed.

(** What [setup_callbacks] leaves behind, however it ends. *)
Lemma setup_callbacks_effect s (callbacks : list callback) (validation : bool) :
  let r := setup_callbacks fwk callbacks validation s in
  let ckpt := cfg_ModelCheckpoint (cfg_train (cfg (self s))) in
  let es := cfg_EarlyStopping (cfg_train (cfg (self s))) in
  let ckpt' := cfg_ModelCheckpoint (cfg_train (cfg (self (state_of r)))) in
  let es' := cfg_EarlyStopping (cfg_train (cfg (self (state_of r)))) in
  let ckpt_falls := falls_back validation (ckpt_enabled ckpt) (ckpt_monitor ckpt) in
  let es_falls := falls_back validation (es_enabled es) (es_monitor es) in
  same_train_flags (self s) (self (state_of r)) /\
  _model (self (state_of r)) = _model (self s) /\
  ckpt_monitor ckpt'
    = (if ckpt_falls then str_drop 4 (ckpt_monitor ckpt) else ckpt_monitor ckpt) /\
  es_monitor es' = (if es_falls then str_drop 4 (es_monitor es) else es_monitor es) /\
  warnings_of (events_of r)
    = (if ckpt_falls
       then [("UserWarning", invalid_metric_warning (str_drop 4 (ckpt_monitor ckpt)))]
       else []) ++
      (if es_falls
       then [("UserWarning", invalid_metric_warning (str_drop 4 (es_monitor es)))]
       else []) /\
  (forall callbacks', outcome_of r = Ok callbacks' ->
     exists more, callbacks' = callbacks ++ more /\
                  kind_of <$> more = enabled_kinds (cfg_train (cfg (self s)))).
Proof.
  destruct s as [[ip be dev m bk
                    [cp cm [ep vb ctd cvd [ce cmon crw cpath csbo cswo cv]
                                          [ee em epat emode ev eb er] nan
                                          [te tl tw tu th ti] pw] ct rl] tr ca gn] w].
  unfold setup_callbacks, strip_ckpt_monitor, strip_es_monitor, append_early_stopping,
    append_model_checkpoint, append_rest, get_train_cfg, put_train_cfg, falls_back,
    same_train_flags, enabled_kinds.
  cbn zeta. run.
  destruct validation; run; destruct ce; run;
    destruct (startswith cmon "val_"); run; destruct ee; run;
    destruct (startswith em "val_"); run;
    try destruct (endswith cpath (file_ext fwk)); run;
    try (match goal with
         | |- context [makedirs_from_filepath fwk ?path ?w0] =>
             destruct (makedirs_from_filepath fwk path w0) as [[[]|err] w1]
         end; run);
    (split; [done |]); (split; [done |]); (split; [done |]); (split; [done |]);
    (split; [done |]); intros callbacks' H; try discriminate H;
    injection H as <-; destruct nan, te; rewrite <- ?app_assoc;
    first [by eexists | exists []; by rewrite app_nil_r].
Qed.

(** C9: without validation data, an enabled [ModelCheckpoint] or
    [EarlyStopping] entry whose monitor starts with ["val_"] has the
    four-character prefix removed from the monitor in the configuration,
    and one [UserWarning] is issued for it; with validation data, or for
    a monitor that does not start with ["val_"], the monitor stays as it
    is and no warning is issued for it. *)
Theorem setup_callbacks_monitor_fallback s (callbacks : list callback) (validation : bool) :
  let r := setup_callbacks fwk callbacks validation s in
  let ckpt := cfg_ModelCheckpoint (cfg_train (cfg (self s))) in
  let es := cfg_EarlyStopping (cfg_train (cfg (self s))) in
  let ckpt' := cfg_ModelCheckpoint (cfg_train (cfg (self (state_of r)))) in
  let es' := cfg_EarlyStopping (cfg_train (cfg (self (state_of r)))) in
  let ckpt_falls := falls_back validation (ckpt_enabled ckpt) (ckpt_monitor ckpt) in
  let es_falls := falls_back validation (es_enabled es) (es_monitor es) in
  ckpt_monitor ckpt'
    = (if ckpt_falls then str_drop 4 (ckpt_monitor ckpt) else ckpt_monitor ckpt) /\
  es_monitor es' = (if es_falls then str_drop 4 (es_monitor es) else es_monitor es) /\
  (ckpt_falls = true -> "val_" +:+ ckpt_monitor ckpt' = ckpt_monitor ckpt) /\
  (es_falls = true -> "val_" +:+ es_monitor es' = es_monitor es) /\
  warnings_of (events_of r)
    = (if ckpt_falls
       then [("UserWarning", invalid_metric_warning (str_drop 4 (ckpt_monitor ckpt)))]
       else []) ++
      (if es_falls
       then [("UserWarning", invalid_metric_warning (str_drop 4 (es_monitor es)))]
       else []).
Proof.
  intros r ckpt es ckpt' es' ckpt_falls es_falls.
  destruct (setup_callbacks_effect s callbacks validation) as (_ & _ & Hc & He & Hw & _).
  fold r ckpt es ckpt' es' ckpt_falls es_falls in Hc, He, Hw.
  repeat split; try done.
  - intros Hf. rewrite Hc, Hf. subst ckpt_falls. unfold falls_back in Hf.
    apply andb_prop in Hf as [_ Hf]. exact (startswith_drop _ "val_" Hf).
  - intros Hf. rewrite He, Hf. subst es_falls. unfold falls_back in Hf.
    apply andb_prop in Hf as [_ Hf]. exact (startswith_drop _ "val_" Hf).
Qed.
End SetupCallbacks.

Lemma setup_callbacks_monitor_fallback_witness :
  ckpt_monitor (cfg_ModelCheckpoint (cfg_train (cfg (self (state_of
    (setup_callbacks Demo.quiet [History] false Demo.fresh)))))) = "accuracy" /\
  es_monitor (cfg_EarlyStopping (cfg_train (cfg (self (state_of
    (setup_callbacks Demo.quiet [History] false Demo.fresh)))))) = "loss" /\
  ckpt_monitor (cfg_ModelCheckpoint (cfg_train (cfg (self (state_of
    (setup_callbacks Demo.quiet [History] true Demo.fresh)))))) = "val_accuracy" /\
  length (warnings_of (events_of (setup_callbacks Demo.quiet [History] false Demo.fresh)))
    = 2%nat.
Proof.
  destruct (setup_callbacks_monitor_fallback Demo.quiet Demo.fresh [History] false)
    as (Hc & He & _ & _ & Hw).
  destruct (setup_callbacks_monitor_fallback Demo.quiet Demo.fresh [History] true)
    as (Hc' & _).
  rewrite Hc, He, Hc', Hw. by vm_compute.
Defined.

(** ** Removing checkpoint files *)

Section RemoveWeights.
Context {F : Type} (fwk : framework F).
Implicit Types s : state F.

Lemma removes_ret : removes (F:=F) ∅ (ret tt).
Proof. intros s. cbn. repeat split; [set_solver | constructor]. Qed.

Lemma removes_bind (X Y : gset string) (m m' : M F unit) :
  removes X m -> removes Y m' -> removes (X ∪ Y) (m ;; m').
Proof.
  intros Hm Hm' s. unfold bind. destruct (Hm s) as (Ho & Hs & Hf & He).
  destruct (m s) as [o s1 evs]. cbn in *. subst o.
  destruct (Hm' s1) as (Ho' & Hs' & Hf' & He').
  destruct (m' s1) as [o' s2 evs2]. cbn in *.
  repeat split; [done | congruence | | by apply Forall_app].
  rewrite Hf', Hf. set_solver.
Qed.

Lemma removes_if_exists (path : string) : removes (F:=F) {[path]} (remove_if_exists path).
Proof.
  intros s. unfold remove_if_exists. run.
  destruct (bool_decide_reflect (path ∈ fs (wld s))); run.
  - repeat split; by repeat constructor.
  - repeat split; [set_solver | constructor].
Qed.

Lemma removes_each (filepath : string) (exts : list string) :
  removes (F:=F) (list_to_set ((fun e => filepath +:+ e) <$> exts))
    (remove_each filepath exts).
Proof.
  induction exts as [|e exts IH]; cbn [remove_each fmap list_fmap list_to_set].
  - apply removes_ret.
  - apply removes_bind; [apply removes_if_exists | exact IH].
Qed.

Lemma remove_weights_run s :
  let path := ckpt_path (cfg_ModelCheckpoint (cfg_train (cfg (self s)))) in
  outcome_of (remove_weights fwk s) = Ok tt /\
  self (state_of (remove_weights fwk s)) = self s /\
  fs (wld (state_of (remove_weights fwk s)))
    = fs (wld s) ∖ removed_files fwk (backend (self s)) path /\
  Forall is_remove (events_of (remove_weights fwk s)).
Proof.
  intros path. unfold remove_weights.
  rewrite (bind_Ok get_self _ s (self s) s [] eq_refl). cbn beta zeta.
  fold path. unfold removed_files.
  assert (H : removes
                ((if String.eqb (backend (self s)) "tensorflow"
                  then list_to_set ((fun e => path +:+ e) <$> tf_extensions)
                       ∪ {[checkpoint_sibling fwk path]}
                  else ∅) ∪ {[path]})
                ((if String.eqb (backend (self s)) "tensorflow"
                  then remove_extra_tf_files fwk path else ret tt) ;;
                 remove_if_exists path)).
  { apply removes_bind; [| apply removes_if_exists].
    destruct (String.eqb (backend (self s)) "tensorflow"); [| apply removes_ret].
    unfold remove_extra_tf_files.
    apply removes_bind; [apply removes_each | apply removes_if_exists]. }
  destruct (H s) as (Ho & Hs & Hf & He).
  match goal with
  | |- context [prepend [] ?r] => set (r0 := r) in *; clearbody r0
  end.
  destruct r0 as [o s1 evs]. by cbn in *.
Qed.
End RemoveWeights.

(** ** The steps of an epoch *)

Section Steps.
Context {F : Type} (fwk : framework F).
Implicit Types s : state F.

Lemma plain_within ev : plain ev -> within_epoch ev.
Proof. by destruct ev as [? []| | | | | | | | | | | | | | | | | | | | |]. Qed.

Lemma remove_plain ev : is_remove ev -> plain ev.
Proof. by destruct ev. Qed.

Lemma remove_no_progress ev : is_remove ev -> no_progress ev.
Proof. by destruct ev. Qed.

Lemma hook_calls_plain evs : Forall plain evs -> hook_calls evs = [].
Proof. apply omap_none_Forall. by intros []. Qed.

Lemma hook_calls_no_hook evs : Forall no_hook evs -> hook_calls evs = [].
Proof. apply omap_none_Forall. by intros []. Qed.

Lemma epochs_begun_within evs : Forall within_epoch evs -> epochs_begun evs = [].
Proof. apply omap_none_Forall. by intros [? []| | | | | | | | | | | | | | | | | | | | |]. Qed.

Lemma stop_reads_within evs : Forall within_epoch evs -> stop_reads evs = [].
Proof. apply omap_none_Forall. by intros []. Qed.

Lemma hook_calls_app evs evs' : hook_calls (evs ++ evs') = hook_calls evs ++ hook_calls evs'.
Proof. apply omap_app. Qed.

Lemma epochs_begun_app evs evs' :
  epochs_begun (evs ++ evs') = epochs_begun evs ++ epochs_begun evs'.
Proof. apply omap_app. Qed.

Lemma stop_reads_app evs evs' : stop_reads (evs ++ evs') = stop_reads evs ++ stop_reads evs'.
Proof. apply omap_app. Qed.

Lemma epochs_begun_skip ev evs :
  within_epoch ev -> epochs_begun (ev :: evs) = epochs_begun evs.
Proof. by destruct ev as [? []| | | | | | | | | | | | | | | | | | | | |]. Qed.

Lemma epochs_begun_begin cbs epoch evs :
  epochs_begun (ECallback cbs (on_epoch_begin epoch) :: evs) = epoch :: epochs_begun evs.
Proof. done. Qed.

Lemma stop_reads_skip ev evs :
  within_epoch ev \/ (exists cbs h, ev = ECallback cbs h) ->
  stop_reads (ev :: evs) = stop_reads evs.
Proof. intros [H | (cbs & h & ->)]; [by destruct ev | done]. Qed.

Lemma Forall_plain_within evs : Forall plain evs -> Forall within_epoch evs.
Proof. intros H. eapply Forall_impl; [exact H | apply plain_within]. Qed.

Lemma plain_no_progress ev : plain ev -> no_progress ev.
Proof. by destruct ev. Qed.

Section Emitting.
Context (P : event -> Prop).
Hypothesis P_plain : forall ev, plain ev -> P ev.

Lemma emits_the_model method : emits (F:=F) P (the_model method).
Proof. unfold the_model. emits_auto. Qed.

Lemma emits_len_sequence q : emits P (len_sequence fwk q).
Proof. unfold len_sequence. emits_auto. Qed.

Lemma emits_train_batches model dev batches results :
  emits P (train_batches fwk model dev batches results).
Proof.
  revert results. induction batches as [|b batches IH]; intros results;
    cbn [train_batches]; emits_auto; by apply P_plain.
Qed.

Lemma emits_test_batches model dev batches results :
  emits P (test_batches fwk model dev batches results).
Proof.
  revert results. induction batches as [|b batches IH]; intros results;
    cbn [test_batches]; emits_auto; by apply P_plain.
Qed.

Lemma emits_train_step q : emits P (train_step fwk q).
Proof.
  unfold train_step. emits_auto;
    first [apply emits_the_model | apply emits_train_batches | by apply P_plain].
Qed.

Lemma emits_test_step q : emits P (test_step fwk q).
Proof.
  unfold test_step. emits_auto;
    first [apply emits_the_model | apply emits_test_batches | by apply P_plain].
Qed.

Lemma emits_validate L logs : emits P (validate fwk L logs).
Proof.
  unfold validate. emits_auto; first [apply emits_test_step | by apply P_plain].
Qed.



Lemma emits_restore_checkpoint L : emits P (restore_checkpoint fwk L).
Proof.
  unfold restore_checkpoint, get_train_cfg. emits_auto; try by apply P_plain.
  intros s. cbn. repeat constructor. by apply P_plain.
Qed.

Lemma emits_setup_callbacks callbacks validation :
  emits P (setup_callbacks fwk callbacks validation).
Proof.
  unfold setup_callbacks, strip_ckpt_monitor, strip_es_monitor, append_early_stopping,
    append_model_checkpoint, append_rest, get_train_cfg, put_train_cfg.
  emits_auto; by apply P_plain.
Qed.
End Emitting.

Section Keeping.
Context (Q : Trainer -> Trainer -> Prop) `{!PreOrder Q}.

Lemma keeps_the_model method : keeps (F:=F) Q (the_model method).
Proof. unfold the_model. emits_auto. Qed.

Lemma keeps_len_sequence q : keeps Q (len_sequence fwk q).
Proof. unfold len_sequence. emits_auto. Qed.

Lemma keeps_train_batches model dev batches results :
  keeps Q (train_batches fwk model dev batches results).
Proof.
  revert results. induction batches as [|b batches IH]; intros results;
    cbn [train_batches]; emits_auto.
Qed.

Lemma keeps_test_batches model dev batches results :
  keeps Q (test_batches fwk model dev batches results).
Proof.
  revert results. induction batches as [|b batches IH]; intros results;
    cbn [test_batches]; emits_auto.
Qed.

Lemma keeps_train_step q : keeps Q (train_step fwk q).
Proof.
  unfold train_step. emits_auto;
    first [apply keeps_the_model | apply keeps_train_batches].
Qed.

Lemma keeps_test_step q : keeps Q (test_step fwk q).
Proof.
  unfold test_step. emits_auto;
    first [apply keeps_the_model | apply keeps_test_batches].
Qed.

Lemma keeps_validate L logs : keeps Q (validate fwk L logs).
Proof. unfold validate. emits_auto. apply keeps_test_step. Qed.

Lemma keeps_report_epoch L epoch logs : keeps Q (report_epoch fwk L epoch logs).
Proof. unfold report_epoch. emits_auto. apply keeps_len_sequence. Qed.

Lemma keeps_epoch_work L epoch logs : keeps Q (epoch_work fwk L epoch logs).
Proof.
  unfold epoch_work, get_train_cfg. emits_auto;
    first [apply keeps_len_sequence | apply keeps_train_step | apply keeps_validate].
Qed.

Lemma keeps_train_epoch L epoch logs : keeps Q (train_epoch fwk L epoch logs).
Proof.
  unfold train_epoch. emits_auto;
    first [apply keeps_epoch_work | apply keeps_report_epoch].
Qed.

Lemma keeps_train_epochs L todo logs : keeps Q (train_epochs fwk L todo logs).
Proof.
  revert logs. induction todo as [|e todo IH]; intros logs; cbn [train_epochs];
    emits_auto. apply keeps_train_epoch.
Qed.

Lemma keeps_remove_weights : keeps Q (remove_weights fwk).
Proof.
  intros s. destruct (remove_weights_run fwk s) as (_ & -> & _). reflexivity.
Qed.

Lemma keeps_train_cleanup : keeps Q (train_cleanup fwk).
Proof.
  unfold train_cleanup, get_train_cfg. emits_auto. apply keeps_remove_weights.
Qed.
End Keeping.

(** *** One epoch *)

Lemma emits_report_epoch L epoch logs :
  emits within_epoch (report_epoch fwk L epoch logs).
Proof.
  unfold report_epoch. emits_auto. apply emits_len_sequence.
Qed.

(** Whatever happens in it, an epoch begins once and reads no stop flag. *)
Lemma epoch_work_begun L epoch logs s :
  epochs_begun (events_of (epoch_work fwk L epoch logs s)) = [epoch] /\
  stop_reads (events_of (epoch_work fwk L epoch logs s)) = [].
Proof.
  unfold epoch_work.
  match goal with
  | |- context [bind (call (ECallback _ (on_epoch_begin _)) _) ?k] =>
      assert (HK : forall a, emits within_epoch (k a));
      [ intros a; emits_auto;
        first [ apply emits_train_step, plain_within
              | apply emits_validate, plain_within
              | apply emits_len_sequence ]
      | set (K := k) in *; clearbody K ]
  end.
  unfold get_train_cfg, len_sequence. run.
  destruct (2 <? tl_verbose L); run;
    destruct (callbacks_call fwk (tl_callbacks L) (on_epoch_begin epoch) (wld s))
      as [[[]|e] w]; run; try done;
    match goal with
    | |- context [prepend _ (K ?a ?s1)] =>
        specialize (HK a s1); destruct (K a s1) as [o s2 evs]
    end;
    cbn [prepend events_of app] in *;
    rewrite ?(epochs_begun_skip (EProgbar _ _ _)) by exact I;
    rewrite ?(stop_reads_skip (EProgbar _ _ _)) by (left; exact I);
    rewrite epochs_begun_begin, stop_reads_skip by (right; by do 2 eexists);
    by rewrite (epochs_begun_within _ HK), (stop_reads_within _ HK).
Qed.

Lemma call_Ok_inv {A} ev (f : ext F A) s a s' evs :
  call ev f s = {| outcome_of := Ok a; state_of := s'; events_of := evs |} ->
  evs = [ev] /\ self s' = self s.
Proof. unfold call. intros H. injection H as _ <- <-. done. Qed.

(** A completed epoch invoked its four hooks, in order, and left the
    trainer as it was. *)
Lemma epoch_work_Ok L epoch logs s logs' s' evs :
  epoch_work fwk L epoch logs s
    = {| outcome_of := Ok logs'; state_of := s'; events_of := evs |} ->
  (exists n, (exists w, n = seq_len fwk (tl_train_data L) w) /\
             hook_calls evs = pair (tl_callbacks L) <$> epoch_hooks epoch (n, logs')) /\
  self s' = self s /\ Forall no_progress evs.
Proof.
  intros H.
  pose proof (keeps_epoch_work eq L epoch logs s) as Hself.
  assert (Hquiet : emits no_progress (epoch_work fwk L epoch logs)).
  { unfold epoch_work, get_train_cfg. emits_auto;
      first [ apply emits_len_sequence
            | apply emits_train_step, plain_no_progress
            | apply emits_validate, plain_no_progress ]. }
  specialize (Hquiet s). rewrite H in Hself, Hquiet. cbn in Hself, Hquiet.
  split; [| done]. clear Hself Hquiet.
  unfold epoch_work in H.
  peel H H1. events_in plain H1 P1. { unfold get_train_cfg. emits_auto. }
  peel H H2. events_in plain H2 P2. { emits_auto. apply emits_len_sequence. }
  peel H H3. apply call_Ok_inv in H3 as [-> _].
  peel H H4. apply call_Ok_inv in H4 as [-> _].
  peel H H5. events_in plain H5 P5. { by apply emits_train_step. }
  peel H H6. events_in plain H6 P6.
  peel H H7. events_in plain H7 P7.
  peel H H8. events_in plain H8 P8. { by apply emits_validate. }
  peel_to H H9 u9. events_in plain H9 P9. { apply emits_len_sequence. }
  match type of H9 with
  | _ = {| outcome_of := Ok ?n |} =>
      assert (Hlen : exists w, n = seq_len fwk (tl_train_data L) w)
  end.
  { revert H9. unfold len_sequence. run. intros H9. inv_run H9. by eexists. }
  peel H H10. apply call_Ok_inv in H10 as [-> _].
  peel H H11. apply call_Ok_inv in H11 as [-> _].
  injection H as <- _ <-.
  match goal with
  | |- context [on_train_batch_end ?n _] => exists n
  end.
  split; [exact Hlen |].
  rewrite !hook_calls_app.
  rewrite (hook_calls_plain _ P1), (hook_calls_plain _ P2), (hook_calls_plain _ P5),
    (hook_calls_plain _ P6), (hook_calls_plain _ P7), (hook_calls_plain _ P8),
    (hook_calls_plain _ P9).
  reflexivity.
Qed.

Lemma train_epoch_begun L epoch logs s :
  epochs_begun (events_of (train_epoch fwk L epoch logs s)) = [epoch] /\
  stop_reads (events_of (train_epoch fwk L epoch logs s)) = [].
Proof.
  unfold train_epoch. rewrite events_bind.
  destruct (epoch_work_begun L epoch logs s) as [Hb Hr].
  unfold epochs_begun, stop_reads in *. rewrite !omap_app, Hb, Hr.
  destruct (outcome_of (epoch_work fwk L epoch logs s)) as [logs'|e]; [| done].
  match goal with
  | |- context [events_of (?m ?s1)] =>
      assert (Hm : emits within_epoch m)
        by (emits_auto; apply emits_report_epoch);
      specialize (Hm s1)
  end.
  fold (epochs_begun (events_of
    ((report_epoch fwk L epoch logs' ;; ret logs')
       (state_of (epoch_work fwk L epoch logs s))))).
  fold (stop_reads (events_of
    ((report_epoch fwk L epoch logs' ;; ret logs')
       (state_of (epoch_work fwk L epoch logs s))))).
  by rewrite (epochs_begun_within _ Hm), (stop_reads_within _ Hm).
Qed.


(** *** The loop over the epochs *)


End Steps.

(** ** [train] *)

Section Train.
Context {F : Type} (fwk : framework F).
Implicit Types s : state F.

Lemma enabled_kinds_flags (t t' : Trainer) :
  same_train_flags t t' ->
  enabled_kinds (cfg_train (cfg t')) = enabled_kinds (cfg_train (cfg t)).
Proof.
  unfold same_train_flags, enabled_kinds. cbn zeta.
  intros (_ & _ & -> & -> & -> & -> & _). done.
Qed.

Lemma emits_as_sequence P (make : pyval -> M F sequence) d :
  (forall v, emits P (make v)) -> emits P (as_sequence make d).
Proof. intros H. unfold as_sequence. destruct d; [apply emits_ret | apply H]. Qed.

Lemma keeps_as_sequence Q `{!PreOrder Q} (make : pyval -> M F sequence) d :
  (forall v, keeps Q (make v)) -> keeps Q (as_sequence make d).
Proof. intros H. unfold as_sequence. destruct d; [apply keeps_ret; apply _ | apply H]. Qed.

Lemma emits_train_setup P train_data val_data kwargs :
  (forall ev, plain ev -> P ev) ->
  (forall t w v, P (EProgbar t w v)) -> P (EPrint stdout "Training...") ->
  (forall cbs, P (ECallback cbs on_train_begin)) ->
  emits P (train_setup fwk train_data val_data kwargs).
Proof.
  intros Hplain Hbar Hprint Hbegin.
  unfold train_setup, put_train_cfg, get_train_cfg, make_test_sequence,
    make_train_sequence.
  emits_auto;
    first [ apply emits_as_sequence; intros v; emits_auto; by apply Hplain
          | by apply emits_setup_callbacks
          | by apply Hplain | apply Hbar | apply Hprint | apply Hbegin ].
Qed.

(** What a completed set-up leaves: the model to train, the callback
    list with [History] first, and [on_train_begin] as the only hook. *)
Lemma train_setup_Ok train_data val_data kwargs s L s1 evs :
  train_setup fwk train_data val_data kwargs s
    = {| outcome_of := Ok L; state_of := s1; events_of := evs |} ->
  _model (self s) = Some (tl_model L) /\
  _model (self s1) = Some (tl_model L) /\
  backend (self s1) = backend (self s) /\
  tl_history L = History /\
  (exists more, tl_callbacks L = History :: more /\
                kind_of <$> more = enabled_kinds (cfg_train (cfg (self s1)))) /\
  tl_verbose L = verbose (cfg_train (cfg (self s1))) /\
  hook_calls evs = [(tl_callbacks L, on_train_begin)].
Proof.
  intros H. unfold train_setup in H.
  peel H H1. unfold get_self in H1. inv_run H1.
  peel H H2. unfold lift in H2. injection H2 as Hmerge ? ?. subst.
  peel H H3. unfold put_train_cfg, modify_self in H3. inv_run H3.
  destruct (_model (self s)) as [model|] eqn:Emodel; [| discriminate H].
  peel_to H H4 u1. events_in plain H4 P4.
  { apply emits_as_sequence. intros v. unfold make_train_sequence. emits_auto. }
  trainer_in same_core H4 K4.
  { apply keeps_as_sequence; [apply _ |]. intros v. unfold make_train_sequence.
    emits_auto. }
  peel_to H H5 u2. events_in plain H5 P5. trainer_in same_core H5 K5.
  { emits_auto. by apply keeps_modify_self. }
  peel_to H H6 u3. events_in plain H6 P6.
  { emits_auto. apply emits_as_sequence. intros v.
    unfold make_test_sequence, make_train_sequence. emits_auto. }
  trainer_in same_core H6 K6.
  { emits_auto.
    - apply keeps_as_sequence; [apply _ |]. intros v.
      unfold make_test_sequence, make_train_sequence. emits_auto.
    - by apply keeps_modify_self. }
  peel_to H H7 u4. events_in plain H7 P7. { by apply emits_setup_callbacks. }
  match type of H7 with
  | setup_callbacks _ ?cbs ?v ?s0 = _ =>
      destruct (setup_callbacks_effect fwk s0 cbs v) as (Hflags & Hmodel & _ & _ & _ & Hcbs)
  end.
  rewrite H7 in Hflags, Hmodel, Hcbs. cbn [state_of outcome_of] in Hflags, Hmodel, Hcbs.
  destruct (Hcbs _ eq_refl) as (more & -> & Hkinds). clear Hcbs.
  peel_to H H8 u5. apply call_Ok_inv in H8 as [-> Hs8].
  peel_to H H9 u6. unfold set_stop_training in H9. inv_run H9.
  peel_to H H10 u7. unfold get_train_cfg in H10. peel H10 H10'.
  unfold get_self in H10'. inv_run H10'. unfold ret in H10. inv_run H10.
  peel_to H H11 u8. events_in no_hook H11 P11. trainer_in (@eq Trainer) H11 K11.
  peel_to H H12 u9. apply call_Ok_inv in H12 as [-> Hs12].
  unfold ret in H. inv_run H. cbn [tl_model tl_history tl_callbacks tl_verbose].
  cbn [self] in *.
  destruct K4 as (Kc4 & Km4 & Kb4), K5 as (Kc5 & Km5 & Kb5), K6 as (Kc6 & Km6 & Kb6).
  cbn [cfg _model backend with_cfg] in Km4, Kb4.
  assert (Hself : self s1 = self u4) by congruence.
  rewrite Hself.
  split; [done |].
  split; [congruence |].
  split; [destruct Hflags as (_&_&_&_&_&_&_&_&Hb); congruence |].
  split; [done |].
  split.
  { exists more. split; [done |]. rewrite Hkinds. symmetry.
    by apply enabled_kinds_flags. }
  split; [congruence |].
  rewrite !hook_calls_app.
  rewrite (hook_calls_plain _ P4), (hook_calls_plain _ P5), (hook_calls_plain _ P6),
    (hook_calls_plain _ P7), (hook_calls_no_hook _ P11).
  reflexivity.
Qed.

Lemma keeps_restore_checkpoint L : keeps same_cfg (restore_checkpoint fwk L).
Proof.
  unfold restore_checkpoint, get_train_cfg. emits_auto.
  - intros s. cbn. reflexivity.
  - by apply keeps_modify_self.
Qed.


(** What a completed [restore_checkpoint] did. *)
Lemma restore_checkpoint_Ok L s s' evs :
  restore_checkpoint fwk L s
    = {| outcome_of := Ok tt; state_of := s'; events_of := evs |} ->
  let k := cfg_ModelCheckpoint (cfg_train (cfg (self s))) in
  if ckpt_enabled k
  then if ckpt_save_weights_only k
       then evs = [ELoadWeights (tl_model L) (ckpt_path k)] /\ self s' = self s
       else exists m, evs = [ELoad (tl_model L) (ckpt_path k) (Ok m)] /\
                      self s' = set_model m (self s)
  else evs = [] /\ self s' = self s.
Proof.
  intros H k. subst k. revert H. unfold restore_checkpoint, get_train_cfg, load_model. run.
  destruct (ckpt_enabled _); run.
  - destruct (ckpt_save_weights_only _); run.
    + destruct (load_weights fwk _ _ _) as [[[]|e] w]; run; intros H;
        [by inv_run H | discriminate H].
    + destruct (model_load fwk _ _ _) as [[m|e] w]; run; intros H;
        [inv_run H; by exists m | discriminate H].
  - intros H. by inv_run H.
Qed.

(** The run of a [train] that returned, stage by stage. *)
Lemma train_Ok_inv train_data val_data kwargs s h s' evs :
  train fwk train_data val_data kwargs s
    = {| outcome_of := Ok h; state_of := s'; events_of := evs |} ->
  exists L s1 evs1 s2 evs2 s3 s4 evs4 evs5,
    train_setup fwk train_data val_data kwargs s
      = {| outcome_of := Ok L; state_of := s1; events_of := evs1 |} /\
    train_epochs fwk L (py_range (epochs (cfg_train (cfg (self s1))))) ∅ s1
      = {| outcome_of := Ok tt; state_of := s2; events_of := evs2 |} /\
    self s3 = self s2 /\
    restore_checkpoint fwk L s3
      = {| outcome_of := Ok tt; state_of := s4; events_of := evs4 |} /\
    train_cleanup fwk s4
      = {| outcome_of := Ok tt; state_of := s'; events_of := evs5 |} /\
    evs = evs1 ++ evs2 ++ [ECallback (tl_callbacks L) on_train_end] ++ evs4 ++ evs5 /\
    h = tl_history L.
Proof.
  intros H. unfold train in H.
  apply bind_Ok_inv in H as (L & s1 & evs1 & evsr & Hsetup & H & ->).
  unfold train_run in H.
  apply bind_Ok_inv in H as ([] & sr & evst & evsu & Htry & H & ->).
  unfold ret in H. inv_run H.
  apply try_finally_Ok_inv in Htry as (s4 & evsb & evs5 & Hbody & Hclean & ->).
  unfold train_body in Hbody.
  apply bind_Ok_inv in Hbody as (c & sc0 & evsc & evsd & Hc & Hbody & ->).
  unfold get_train_cfg in Hc. peel Hc Hc'. unfold get_self in Hc'. inv_run Hc'.
  unfold ret in Hc. inv_run Hc.
  apply bind_Ok_inv in Hbody as ([] & s2 & evs2 & evse & Hloop & Hbody & ->).
  apply bind_Ok_inv in Hbody as ([] & s3 & evsf & evs4 & Hend & Hrestore & ->).
  apply call_Ok_inv in Hend as [-> Hs3].
  exists L, sc0, evs1, s2, evs2, s3, s4, evs4, evs5.
  repeat split; try done.
  cbn [app]. by rewrite <- !app_assoc, app_nil_r.
Qed.

Lemma emits_train_cleanup_removes : emits is_remove (train_cleanup fwk).
Proof.
  unfold train_cleanup, get_train_cfg. emits_auto.
  intros s. apply remove_weights_run.
Qed.



(** The stages of a [train] that returned, with what each stage emitted
    and kept. *)
Lemma train_Ok_stages train_data val_data kwargs s h s' evs :
  train fwk train_data val_data kwargs s
    = {| outcome_of := Ok h; state_of := s'; events_of := evs |} ->
  exists L s1 evs1 s2 evs2 s3 s4 evs4 evs5,
    train_setup fwk train_data val_data kwargs s
      = {| outcome_of := Ok L; state_of := s1; events_of := evs1 |} /\
    train_epochs fwk L (py_range (epochs (cfg_train (cfg (self s1))))) ∅ s1
      = {| outcome_of := Ok tt; state_of := s2; events_of := evs2 |} /\
    restore_checkpoint fwk L s3
      = {| outcome_of := Ok tt; state_of := s4; events_of := evs4 |} /\
    evs = evs1 ++ evs2 ++ [ECallback (tl_callbacks L) on_train_end] ++ evs4 ++ evs5 /\
    h = tl_history L /\
    self s3 = self s1 /\ self s' = self s4 /\ same_cfg (self s1) (self s') /\
    Forall within_epoch evs1 /\ Forall plain evs4 /\ Forall is_remove evs5.
Proof.
  intros H.
  apply train_Ok_inv in H
    as (L & s1 & evs1 & s2 & evs2 & s3 & s4 & evs4 & evs5
        & Hsetup & Hloop & Hs3 & Hrestore & Hclean & -> & ->).
  exists L, s1, evs1, s2, evs2, s3, s4, evs4, evs5.
  events_in within_epoch Hsetup P1.
  { apply emits_train_setup; try done. apply plain_within. }
  trainer_in (@eq Trainer) Hloop K2. { apply keeps_train_epochs. apply _. }
  events_in plain Hrestore P4. { by apply emits_restore_checkpoint. }
  trainer_in same_cfg Hrestore K4. { apply keeps_restore_checkpoint. }
  events_in is_remove Hclean P5. { apply emits_train_cleanup_removes. }
  trainer_in (@eq Trainer) Hclean K5. { apply keeps_train_cleanup. apply _. }
  repeat split; try done; try congruence.
  - destruct K4 as [K4 _]. congruence.
  - destruct K4 as [_ K4]. congruence.
Qed.




Lemma get_train_cfg_run s :
  get_train_cfg s
    = {| outcome_of := Ok (cfg_train (cfg (self s))); state_of := s; events_of := [] |}.
Proof. unfold get_train_cfg. by run. Qed.




Lemma prepend_nil {A} (r : run F A) : prepend [] r = r.
Proof. by destruct r. Qed.



Lemma py_range_pos (n : Z) : 1 <= n -> exists rest, py_range n = 0 :: rest.
Proof.
  intros Hn. unfold py_range.
  destruct (Z.to_nat n) as [|m] eqn:Em; [lia |]. cbn. by eexists.
Qed.

Lemma epochs_unbound (epoch : Z) :
  lookup_name (epoch_scope epoch) "epochs" = Raise (NameError "epochs").
Proof.
  unfold lookup_name, epoch_scope. rewrite lookup_insert_ne by done.
  by vm_compute.
Qed.

Lemma train_cleanup_returns s : outcome_of (train_cleanup fwk s) = Ok tt.
Proof.
  unfold train_cleanup. rewrite (bind_Ok _ _ _ _ _ _ (get_train_cfg_run s)).
  rewrite prepend_nil.
  destruct (ckpt_enabled _ && ckpt_remove_weights _); [| done].
  apply remove_weights_run.
Qed.

(** C10: with [cfg.train.verbose] above 2 and at least one epoch to run,
    once the first epoch has trained and invoked its hooks, the report
    that follows raises [NameError] for the name [epochs]; [train] raises
    it, after the clean-up, and no progress was printed. *)
Theorem verbose_report_raises_NameError train_data val_data kwargs s L logs' :
  let setup := train_setup fwk train_data val_data kwargs s in
  outcome_of setup = Ok L ->
  2 < verbose (cfg_train (cfg (self (state_of setup)))) ->
  1 <= epochs (cfg_train (cfg (self (state_of setup)))) ->
  outcome_of (epoch_work fwk L 0 ∅ (state_of setup)) = Ok logs' ->
  let r := train fwk train_data val_data kwargs s in
  outcome_of r = Raise (NameError "epochs") /\
  epochs_begun (events_of r) = [0] /\
  Forall no_progress (events_of r).
Proof.
  intros setup Hsetup Hv Hn Hwork r. subst r setup.
  destruct (train_setup fwk train_data val_data kwargs s) as [o s1 evs1] eqn:Es.
  cbn [outcome_of state_of events_of] in *. subst o.
  pose proof (train_setup_Ok _ _ _ _ _ _ _ Es) as (_ & _ & _ & _ & _ & Hverbose & _).
  events_in within_epoch Es P1. { apply emits_train_setup; try done. apply plain_within. }
  events_in no_progress Es Q1.
  { apply emits_train_setup; try done. apply plain_no_progress. }
  destruct (epoch_work_begun fwk L 0 ∅ s1) as [Hbegun _].
  destruct (epoch_work fwk L 0 ∅ s1) as [ow s2 evs2] eqn:Ew.
  cbn [outcome_of events_of] in *. subst ow.
  pose proof (epoch_work_Ok _ _ _ _ _ _ _ _ Ew) as (_ & _ & Q2).
  destruct (py_range_pos _ Hn) as (rest & Hrange).
  assert (Hepoch : train_epoch fwk L 0 ∅ s1
                   = {| outcome_of := Raise (NameError "epochs"); state_of := s2;
                        events_of := evs2 |}).
  { unfold train_epoch. rewrite (bind_Ok _ _ _ _ _ _ Ew). unfold report_epoch.
    replace (2 <? tl_verbose L) with true by (symmetry; apply Z.ltb_lt; lia).
    unfold bind at 1. unfold bind at 1. unfold lift at 1. rewrite epochs_unbound.
    cbn [prepend outcome_of state_of events_of]. by rewrite app_nil_r. }
  assert (Hbody : train_body fwk L s1
                  = {| outcome_of := Raise (NameError "epochs"); state_of := s2;
                       events_of := evs2 |}).
  { unfold train_body. rewrite (bind_Ok _ _ _ _ _ _ (get_train_cfg_run s1)).
    rewrite Hrange. cbn [train_epochs].
    unfold bind at 1. unfold bind at 1. rewrite Hepoch. by cbn. }
  pose proof (train_cleanup_returns s2) as Hreturns.
  pose proof (emits_train_cleanup_removes s2) as P3.
  unfold train. rewrite (bind_Ok _ _ _ _ _ _ Es). unfold train_run, bind, try_finally.
  rewrite Hbody.
  destruct (train_cleanup fwk s2) as [oc s3 evs3]. cbn [outcome_of events_of] in *.
  subst oc. cbn [prepend outcome_of state_of events_of].
  split; [done |]. split.
  - assert (P3' : Forall within_epoch evs3).
    { eapply Forall_impl; [exact P3 |]. intros ev Hev. by apply plain_within, remove_plain. }
    by rewrite !epochs_begun_app, (epochs_begun_within _ P1), Hbegun,
      (epochs_begun_within _ P3').
  - rewrite !Forall_app. split; [done |]. split; [done |].
    eapply Forall_impl; [exact P3 | apply remove_no_progress].
Qed.
End Train.

(** ** Concrete runs *)






Lemma verbose_report_raises_NameError_witness :
  outcome_of (train Demo.quiet Demo.raw_data Demo.no_data ∅
                (Demo.ready "torch" Demo.model0 2 3 Demo.no_checkpoint []))
    = Raise (NameError "epochs").
Proof.
  apply (verbose_report_raises_NameError Demo.quiet Demo.raw_data Demo.no_data ∅
           (Demo.ready "torch" Demo.model0 2 3 Demo.no_checkpoint [])
           (Demo.returned Demo.no_locals
              (train_setup Demo.quiet Demo.raw_data Demo.no_data ∅
                 (Demo.ready "torch" Demo.model0 2 3 Demo.no_checkpoint [])))
           (Demo.returned ∅
              (epoch_work Demo.quiet
                 (Demo.returned Demo.no_locals
                    (train_setup Demo.quiet Demo.raw_data Demo.no_data ∅
                       (Demo.ready "torch" Demo.model0 2 3 Demo.no_checkpoint [])))
                 0 ∅
                 (state_of (train_setup Demo.quiet Demo.raw_data Demo.no_data ∅
                              (Demo.ready "torch" Demo.model0 2 3 Demo.no_checkpoint [])))))).
  - vm_compute. reflexivity.
  - vm_compute. reflexivity.
  - by vm_compute.
  - vm_compute. reflexivity.
Defined.

(** * Further properties *)

(** ** The steps over the batches of a sequence *)

Section BatchSteps.
Context {F : Type} (fwk : framework F).
Implicit Types s : state F.

Lemma lift_Ok_inv {A} (o : outcome A) s a s' evs :
  lift o s = {| outcome_of := Ok a; state_of := s'; events_of := evs |} ->
  o = Ok a /\ s' = s /\ evs = [].
Proof. unfold lift. intros H. by injection H as -> -> <-. Qed.

Lemma ret_Ok_inv {A} (x : A) s a s' evs :
  ret x s = {| outcome_of := Ok a; state_of := s'; events_of := evs |} ->
  a = x /\ s' = s /\ evs = [].
Proof. unfold ret. intros H. by injection H as -> -> <-. Qed.

Lemma call_Ok_world {A} ev (f : ext F A) s a s' evs :
  call ev f s = {| outcome_of := Ok a; state_of := s'; events_of := evs |} ->
  (f (wld s)).1 = Ok a /\ wld s' = (f (wld s)).2.
Proof. unfold call. intros H. by injection H as -> <- _. Qed.

Lemma train_batches_Ok model dev batches results s r s' evs :
  train_batches fwk model dev batches results s
    = {| outcome_of := Ok r; state_of := s'; events_of := evs |} ->
  Some <$> evs = train_call model dev <$> batches /\
  (batches = [] -> r = results) /\
  (batches <> [] -> exists d, r = Some d) /\
  self s' = self s.
Proof.
  revert results s evs. induction batches as [|b rest IH]; intros results s evs H.
  { apply ret_Ok_inv in H as (-> & -> & ->). by repeat split. }
  cbn [train_batches] in H.
  apply bind_Ok_inv in H as (u & s1 & e1 & e2 & H1 & H & ->).
  apply lift_Ok_inv in H1 as (Hu & -> & ->).
  apply bind_Ok_inv in H as (d & s2 & e3 & e4 & H2 & H & ->).
  apply call_Ok_inv in H2 as [-> Hs2].
  apply IH in H as (Hev & Hnil & Hcons & Hs).
  split; [| split; [done | split; [| congruence]]].
  - cbn. unfold train_call at 1. rewrite Hu. destruct u as [[x y] w]. cbn. by f_equal.
  - intros _. destruct rest as [|b' rest]; [| by apply Hcons].
    exists d. by apply Hnil.
Qed.

Lemma test_batches_Ok model dev batches results s r s' evs :
  test_batches fwk model dev batches results s
    = {| outcome_of := Ok r; state_of := s'; events_of := evs |} ->
  Some <$> evs = test_call model dev <$> batches /\
  (batches = [] -> r = results) /\
  (batches <> [] -> exists d, r = Some d) /\
  self s' = self s.
Proof.
  revert results s evs. induction batches as [|b rest IH]; intros results s evs H.
  { apply ret_Ok_inv in H as (-> & -> & ->). by repeat split. }
  cbn [test_batches] in H.
  apply bind_Ok_inv in H as (u & s1 & e1 & e2 & H1 & H & ->).
  apply lift_Ok_inv in H1 as (Hu & -> & ->).
  apply bind_Ok_inv in H as (d & s2 & e3 & e4 & H2 & H & ->).
  apply call_Ok_inv in H2 as [-> Hs2].
  apply IH in H as (Hev & Hnil & Hcons & Hs).
  split; [| split; [done | split; [| congruence]]].
  - cbn. unfold test_call at 1. rewrite Hu. destruct u as [[x y] w]. cbn. by f_equal.
  - intros _. destruct rest as [|b' rest]; [| by apply Hcons].
    exists d. by apply Hnil.
Qed.

Lemma the_model_Ok method s m s' evs :
  the_model method s = {| outcome_of := Ok m; state_of := s'; events_of := evs |} ->
  _model (self s) = Some m /\ s' = s /\ evs = [].
Proof.
  unfold the_model. run. destruct (_model (self s)) as [m'|]; run; intros H; [| done].
  by injection H as -> <- <-.
Qed.

(** What a training step that returned did. *)
Lemma train_step_Ok q s r s' evs :
  train_step fwk q s = {| outcome_of := Ok r; state_of := s'; events_of := evs |} ->
  exists model batches steps,
    _model (self s) = Some model /\
    (seq_iter fwk q (reset_metrics fwk model (wld s)).2).1 = Ok batches /\
    evs = EResetMetrics model :: EIter q :: steps /\
    Some <$> steps = train_call model (seq_device fwk q) <$> batches /\
    (r = None <-> batches = []) /\
    self s' = self s.
Proof.
  intros H. unfold train_step in H.
  apply bind_Ok_inv in H as (model & s1 & e1 & e2 & H1 & H & ->).
  apply the_model_Ok in H1 as (Hm & -> & ->).
  apply bind_Ok_inv in H as ([] & s2 & e3 & e4 & H2 & H & ->).
  pose proof (call_Ok_world _ _ _ _ _ _ H2) as [_ Hw2].
  apply call_Ok_inv in H2 as [-> Hs2].
  apply bind_Ok_inv in H as (batches & s3 & e5 & e6 & H3 & H & ->).
  pose proof (call_Ok_world _ _ _ _ _ _ H3) as [Hit _].
  apply call_Ok_inv in H3 as [-> Hs3].
  apply train_batches_Ok in H as (Hev & Hnil & Hcons & Hs).
  exists model, batches, e6. rewrite Hw2 in Hit.
  split; [done |]. split; [done |]. split; [done |]. split; [done |].
  split; [| congruence].
  split.
  - intros ->. destruct batches as [|b rest]; [done |].
    destruct (Hcons ltac:(done)) as [d Hd]. discriminate Hd.
  - intros ->. by apply Hnil.
Qed.

Lemma test_step_Ok q s r s' evs :
  test_step fwk q s = {| outcome_of := Ok r; state_of := s'; events_of := evs |} ->
  exists model batches steps,
    _model (self s) = Some model /\
    (seq_iter fwk q (reset_metrics fwk model (wld s)).2).1 = Ok batches /\
    evs = EResetMetrics model :: EIter q :: steps /\
    Some <$> steps = test_call model (seq_device fwk q) <$> batches /\
    (r = None <-> batches = []) /\
    self s' = self s.
Proof.
  intros H. unfold test_step in H.
  apply bind_Ok_inv in H as (model & s1 & e1 & e2 & H1 & H & ->).
  apply the_model_Ok in H1 as (Hm & -> & ->).
  apply bind_Ok_inv in H as ([] & s2 & e3 & e4 & H2 & H & ->).
  pose proof (call_Ok_world _ _ _ _ _ _ H2) as [_ Hw2].
  apply call_Ok_inv in H2 as [-> Hs2].
  apply bind_Ok_inv in H as (batches & s3 & e5 & e6 & H3 & H & ->).
  pose proof (call_Ok_world _ _ _ _ _ _ H3) as [Hit _].
  apply call_Ok_inv in H3 as [-> Hs3].
  apply test_batches_Ok in H as (Hev & Hnil & Hcons & Hs).
  exists model, batches, e6. rewrite Hw2 in Hit.
  split; [done |]. split; [done |]. split; [done |]. split; [done |].
  split; [| congruence].
  split.
  - intros ->. destruct batches as [|b rest]; [done |].
    destruct (Hcons ltac:(done)) as [d Hd]. discriminate Hd.
  - intros ->. by apply Hnil.
Qed.

Lemma run_of {A} (r : run F A) a :
  outcome_of r = Ok a ->
  r = {| outcome_of := Ok a; state_of := state_of r; events_of := events_of r |}.
Proof. destruct r. cbn. by intros ->. Qed.

(** X1: a [train_step] that returns has reset the metrics of the model,
    iterated over the sequence once and called [train_step_on_batch] once
    per batch, in order, on the unravelled batch and the device of the
    sequence; it returns [None] exactly when the sequence had no batch, and
    it leaves the trainer as it was. *)
Theorem train_step_runs_every_batch q s results :
  let r := train_step fwk q s in
  outcome_of r = Ok results ->
  exists model batches steps,
    _model (self s) = Some model /\
    (seq_iter fwk q (reset_metrics fwk model (wld s)).2).1 = Ok batches /\
    events_of r = EResetMetrics model :: EIter q :: steps /\
    Some <$> steps = train_call model (seq_device fwk q) <$> batches /\
    (results = None <-> batches = []) /\
    self (state_of r) = self s.
Proof.
  intros r Hr. apply run_of in Hr. by apply train_step_Ok in Hr.
Qed.
End BatchSteps.

Lemma train_step_runs_every_batch_witness :
  exists steps,
    events_of (train_step Demo.quiet 0%nat
                 (Demo.ready "torch" Demo.model0 1 0 Demo.no_checkpoint []))
      = EResetMetrics Demo.model0 :: EIter 0%nat :: steps /\
    length steps = 1%nat.
Proof.
  assert (Hr : outcome_of (train_step Demo.quiet 0%nat
                             (Demo.ready "torch" Demo.model0 1 0 Demo.no_checkpoint []))
               = Ok (Some {["loss" := PObj 3]})) by (vm_compute; reflexivity).
  pose proof (train_step_runs_every_batch Demo.quiet 0%nat
                (Demo.ready "torch" Demo.model0 1 0 Demo.no_checkpoint []) _ Hr) as H.
  cbv zeta in H. destruct H as (model & batches & steps & Hm & Hb & Hev & Hst & _).
  injection Hm as <-.
  assert (Hq : (seq_iter Demo.quiet 0%nat
                  (reset_metrics Demo.quiet Demo.model0
                     (wld (Demo.ready "torch" Demo.model0 1 0 Demo.no_checkpoint []))).2).1
               = Ok [PTuple [PObj 1; PObj 2]]) by (vm_compute; reflexivity).
  rewrite Hq in Hb. injection Hb as <-.
  exists steps. split; [exact Hev |].
  apply (f_equal length) in Hst. by rewrite !length_fmap in Hst.
Defined.
(** ** [predict] and [test] *)

Section PredictTest.
Context {F : Type} (fwk : framework F).
Implicit Types s : state F.

Lemma predict_batches_Ok model dev batches logits s r s' evs :
  predict_batches fwk model dev batches logits s
    = {| outcome_of := Ok r; state_of := s'; events_of := evs |} ->
  (exists new, r = logits ++ new /\ length new = length batches) /\
  (batches <> [] -> exists m, model = Some m /\
                              Some <$> evs = predict_call m dev <$> batches) /\
  (batches = [] -> evs = []) /\
  self s' = self s.
Proof.
  revert logits s evs. induction batches as [|b rest IH]; intros logits s evs H.
  { apply ret_Ok_inv in H as (-> & -> & ->).
    split; [exists []; by rewrite app_nil_r |]. by repeat split. }
  cbn [predict_batches] in H.
  apply bind_Ok_inv in H as (u & s1 & e1 & e2 & H1 & H & ->).
  apply lift_Ok_inv in H1 as (Hu & -> & ->).
  destruct model as [m|]; [| discriminate H].
  apply bind_Ok_inv in H as (logit & s2 & e3 & e4 & H2 & H & ->).
  apply call_Ok_inv in H2 as [-> Hs2].
  apply IH in H as ((new & -> & Hlen) & Hcons & Hnil & Hs).
  split; [| split; [| split; [done | congruence]]].
  - exists (logit :: new). rewrite <- app_assoc. split; [done |]. cbn. by rewrite Hlen.
  - intros _. exists m. split; [done |].
    cbn. unfold predict_call at 1. rewrite Hu. destruct u as [[x y] w]. cbn. f_equal.
    destruct rest as [|b' rest]; [by rewrite Hnil |].
    destruct (Hcons ltac:(done)) as (m' & Hm' & Hev). by injection Hm' as <-.
Qed.

(** What a prediction step that returned did. *)
Lemma predict_step_Ok q s v s' evs :
  predict_step fwk q s = {| outcome_of := Ok v; state_of := s'; events_of := evs |} ->
  exists batches logits steps,
    (seq_iter fwk q (wld s)).1 = Ok batches /\
    evs = EIter q :: steps /\
    (batches <> [] ->
     exists m, _model (self s) = Some m /\
               Some <$> steps = predict_call m (seq_device fwk q) <$> batches) /\
    (batches = [] -> steps = []) /\
    length logits = length batches /\
    np_vstack fwk logits = Ok v /\
    self s' = self s.
Proof.
  intros H. unfold predict_step in H.
  apply bind_Ok_inv in H as (me & s1 & e1 & e2 & H1 & H & ->).
  unfold get_self in H1. injection H1 as <- <- <-.
  apply bind_Ok_inv in H as (batches & s2 & e3 & e4 & H2 & H & ->).
  pose proof (call_Ok_world _ _ _ _ _ _ H2) as [Hit _].
  apply call_Ok_inv in H2 as [-> Hs2].
  apply bind_Ok_inv in H as (logits & s3 & e5 & e6 & H3 & H & ->).
  apply lift_Ok_inv in H as (Hv & -> & ->).
  apply predict_batches_Ok in H3 as ((new & -> & Hlen) & Hcons & Hnil & Hs).
  exists batches, new, e5. rewrite app_nil_r.
  repeat split; try done. congruence.
Qed.


Lemma modify_self_Ok_inv (f : Trainer -> Trainer) s (a : unit) s' evs :
  modify_self f s = {| outcome_of := Ok a; state_of := s'; events_of := evs |} ->
  s' = {| self := f (self s); wld := wld s |} /\ evs = [].
Proof. unfold modify_self. intros H. by injection H as <- <-. Qed.

(** X3: a [predict] that returns has recorded [return_logits] in
    [cfg.predict] and cached the sequence it predicted on, which is the
    given one when a [Sequence] is given and otherwise the one
    [predict_sequence] makes from [gf.asarray] of the data, the data being
    [np.arange(graph.num_nodes)] when none is given; the result is the
    squeezed output of the prediction step, passed through [softmax] first
    unless [return_logits] is set. *)
Theorem predict_caches_and_squeezes predict_data return_logits s v :
  let r := predict fwk predict_data return_logits s in
  outcome_of r = Ok v ->
  exists q mid logits,
    model_truthy (_model (self s)) = true /\
    _model (self (state_of r)) = _model (self s) /\
    cfg_predict_return_logits (cfg (self (state_of r))) = return_logits /\
    cache_predict (cache (self (state_of r))) = Some q /\
    match predict_data with
    | DSequence q0 => q = q0 /\ head (events_of r) = Some (EIter q)
    | DRaw given =>
        exists a, gf_asarray fwk (if data_is_none predict_data
                                  then np_arange fwk (graph_num_nodes (self s))
                                  else given) = Ok a /\
                  (train_sequence fwk a (wld s)).1 = Ok q /\
                  exists rest, events_of r = EMakeSequence a :: EIter q :: rest
    end /\
    outcome_of (predict_step fwk q mid) = Ok logits /\
    (if return_logits then squeeze fwk logits = Ok v
     else exists p, softmax fwk logits = Ok p /\ squeeze fwk p = Ok v).
Proof.
  intros r Hr. subst r. apply run_of in Hr.
  set (s' := state_of _) in *. set (evs := events_of _) in *. clearbody s' evs.
  unfold predict in Hr.
  apply bind_Ok_inv in Hr as (me & s1 & e1 & e2 & H1 & H & ->).
  unfold get_self in H1. injection H1 as <- <- <-.
  destruct (model_truthy (_model (self s))) eqn:Etruth; [| discriminate H].
  cbn [negb] in H.
  apply bind_Ok_inv in H as ([] & s2 & e3 & e4 & H2 & H & ->).
  apply modify_self_Ok_inv in H2 as [-> ->].
  apply bind_Ok_inv in H as (q & s3 & e5 & e6 & H3 & H & ->).
  apply bind_Ok_inv in H as ([] & s4 & e7 & e8 & H4 & H & ->).
  apply modify_self_Ok_inv in H4 as [-> ->].
  apply bind_Ok_inv in H as (logits & s5 & e9 & e10 & H5 & H & ->).
  apply bind_Ok_inv in H as (logits' & s6 & e11 & e12 & H6 & H & ->).
  apply lift_Ok_inv in H as (Hsq & -> & ->).
  pose proof (predict_step_Ok _ _ _ _ _ H5) as (bs & lg & steps & _ & Hev5 & _ & _ & _ & _ & Hs5).
  assert (Hs6 : self s6 = self s5 /\ e11 = []).
  { destruct return_logits; cbn [negb] in H6.
    - by apply ret_Ok_inv in H6 as (_ & -> & ->).
    - by apply lift_Ok_inv in H6 as (_ & -> & ->). }
  destruct Hs6 as [Hs6 ->].
  match type of H5 with
  | predict_step _ _ ?mid0 = _ =>
      assert (Hmid : self mid0
                     = with_cache (with_cache_predict q (cache (self s3))) (self s3))
        by done;
      set (mid := mid0) in *; clearbody mid
  end.
  exists q, mid, logits.
  rewrite Hs6, Hs5, Hmid. reduce_run.
  assert (Hkeep : self s3 = with_cfg (with_return_logits return_logits (cfg (self s))) (self s)
                  /\ match predict_data with
                     | DSequence q0 => q = q0 /\ e5 = []
                     | DRaw given =>
                         exists a, gf_asarray fwk (if data_is_none predict_data
                                                   then np_arange fwk (graph_num_nodes (self s))
                                                   else given) = Ok a /\
                                   (train_sequence fwk a (wld s)).1 = Ok q /\
                                   e5 = [EMakeSequence a]
                     end).
  { destruct predict_data as [q0 | given].
    - cbn [data_is_none as_sequence] in H3. by apply ret_Ok_inv in H3 as (-> & -> & ->).
    - assert (H3' : as_sequence
                      (fun v0 => a <- lift (gf_asarray fwk v0) ;; make_predict_sequence fwk a)
                      (DRaw (if data_is_none (DRaw given)
                             then np_arange fwk (graph_num_nodes (self s)) else given))
                      {| self := with_cfg (with_return_logits return_logits (cfg (self s)))
                                   (self s);
                         wld := wld s |}
                    = {| outcome_of := Ok q; state_of := s3; events_of := e5 |}).
      { rewrite <- H3. by destruct (data_is_none (DRaw given)). }
      clear H3. cbn [as_sequence] in H3'.
      apply bind_Ok_inv in H3' as (a & s7 & e13 & e14 & H7 & H8 & ->).
      apply lift_Ok_inv in H7 as (Ha & -> & ->).
      unfold make_predict_sequence, make_test_sequence, make_train_sequence in H8.
      pose proof (call_Ok_world _ _ _ _ _ _ H8) as [Hq _].
      apply call_Ok_inv in H8 as [-> Hs8].
      split; [done |]. by exists a. }
  destruct Hkeep as [Hs3 Hdata]. rewrite Hs3. reduce_run.
  split; [done |]. split; [done |]. split; [done |]. split; [done |].
  split.
  { destruct predict_data as [q0 | given].
    - destruct Hdata as [-> ->]. split; [done |]. by rewrite Hev5.
    - destruct Hdata as (a & Ha & Hq & ->). exists a. split; [done |]. split; [done |].
      rewrite Hev5. by eexists. }
  split; [by rewrite H5 |].
  destruct return_logits; cbn [negb] in H6.
  - by apply ret_Ok_inv in H6 as (-> & _ & _).
  - apply lift_Ok_inv in H6 as (Hp & _ & _). by exists logits'.
Qed.

Lemma numpy_items_Ok (items items' : list (string * pyval)) :
  numpy_items fwk items = Ok items' ->
  items'.*1 = items.*1 /\
  (forall k v, (k, v) ∈ items ->
               exists x, numpy_item fwk v = Ok x /\ (k, x) ∈ items').
Proof.
  revert items'. induction items as [|[k v] rest IH]; intros items' H.
  { injection H as <-. split; [done |]. intros k v Hin. by apply elem_of_nil in Hin. }
  cbn [numpy_items] in H.
  destruct (numpy_item fwk v) as [x|e] eqn:Ex; [| discriminate H].
  destruct (numpy_items fwk rest) as [rest'|e]; [| discriminate H].
  injection H as <-. destruct (IH rest' eq_refl) as [Hkeys Hvals].
  split; [cbn; by rewrite Hkeys |].
  intros k' v' Hin. apply elem_of_cons in Hin as [Heq | Hin].
  - injection Heq as -> ->. exists x. split; [done |]. apply elem_of_cons. by left.
  - destruct (Hvals k' v' Hin) as (x' & Hx' & Hin'). exists x'. split; [done |].
    apply elem_of_cons. by right.
Qed.

Lemma item_logs_lookup (results : pydict) (items : list (string * pyval)) (k : string) :
  numpy_items fwk (map_to_list results) = Ok items ->
  (list_to_map items ∪ results : pydict) !! k = results !! k ≫= numpy_item_of fwk.
Proof.
  intros H. apply numpy_items_Ok in H as [Hkeys Hvals].
  assert (Hnd : NoDup items.*1) by (rewrite Hkeys; apply NoDup_fst_map_to_list).
  destruct (results !! k) as [v|] eqn:Ek; cbn.
  - apply elem_of_map_to_list in Ek. destruct (Hvals k v Ek) as (x & Hx & Hin).
    unfold numpy_item_of. rewrite Hx.
    apply lookup_union_Some_l. by apply elem_of_list_to_map_1.
  - apply lookup_union_None. split; [| done].
    apply not_elem_of_list_to_map_1. rewrite Hkeys. intros Hin.
    apply list_elem_of_fmap in Hin as ([k' v'] & -> & Hin).
    apply elem_of_map_to_list in Hin. cbn in Ek. congruence.
Qed.

Lemma test_steps_app evs evs' : test_steps (evs ++ evs') = test_steps evs ++ test_steps evs'.
Proof. apply omap_app. Qed.

Lemma train_steps_app evs evs' :
  train_steps (evs ++ evs') = train_steps evs ++ train_steps evs'.
Proof. apply omap_app. Qed.

Lemma test_steps_calls model dev batches steps :
  Some <$> steps = test_call model dev <$> batches ->
  length (test_steps steps) = length batches.
Proof.
  revert steps. induction batches as [|b rest IH]; intros [|ev steps] H; try done.
  cbn in H. injection H as Hev H. cbn [length]. rewrite <- (IH steps H).
  unfold test_call in Hev. destruct (unravel_batch b) as [[[x y] w]|e]; [| done].
  by injection Hev as ->.
Qed.

Lemma train_steps_calls model dev batches steps :
  Some <$> steps = train_call model dev <$> batches ->
  length (train_steps steps) = length batches.
Proof.
  revert steps. induction batches as [|b rest IH]; intros [|ev steps] H; try done.
  cbn in H. injection H as Hev H. cbn [length]. rewrite <- (IH steps H).
  unfold train_call in Hev. destruct (unravel_batch b) as [[[x y] w]|e]; [| done].
  by injection Hev as ->.
Qed.

Lemma as_sequence_given (make : pyval -> M F sequence) q0 s q s' evs :
  as_sequence make (DSequence q0) s
    = {| outcome_of := Ok q; state_of := s'; events_of := evs |} ->
  q = q0.
Proof. cbn. intros H. by apply ret_Ok_inv in H as (-> & _). Qed.

(** X4: a [test] that returns has merged the keyword arguments into
    [cfg.test], cached the test sequence when [cache_test_data] is set, and
    run one test step on it, which tested at least one batch; the logs it
    returns have the keys of the results of that step, each value
    converted by [.numpy().item()], and are the last thing shown on the
    progress bar. *)
Theorem test_returns_converted_results d kwargs s logs :
  let r := test fwk d kwargs s in
  outcome_of r = Ok logs ->
  exists merged q mid results n,
    model_truthy (_model (self s)) = true /\
    merge_test_cfg fwk (cfg_test (cfg (self s))) kwargs = Ok merged /\
    cfg_test (cfg (self (state_of r))) = merged /\
    _model (self (state_of r)) = _model (self s) /\
    cache_test (cache (self (state_of r)))
      = (if cache_test_data merged then Some q else cache_test (cache (self s))) /\
    (forall q0, d = DSequence q0 -> q = q0) /\
    outcome_of (test_step fwk q mid) = Ok (Some results) /\
    (forall k, logs !! k = results !! k ≫= numpy_item_of fwk) /\
    (1 <= length (test_steps (events_of r)))%nat /\
    last (events_of r) = Some (EProgbarUpdate n logs).
Proof.
  intros r Hr. subst r. apply run_of in Hr.
  set (s' := state_of _) in *. set (evs := events_of _) in *. clearbody s' evs.
  unfold test in Hr.
  apply bind_Ok_inv in Hr as (me & s1 & e1 & e2 & H1 & H & ->).
  unfold get_self in H1. injection H1 as <- <- <-.
  destruct (model_truthy (_model (self s))) eqn:Etruth; [| discriminate H].
  cbn [negb] in H.
  apply bind_Ok_inv in H as (merged & s2 & e3 & e4 & H2 & H & ->).
  apply lift_Ok_inv in H2 as (Hmerge & -> & ->).
  apply bind_Ok_inv in H as ([] & s3 & e5 & e6 & H3 & H & ->).
  apply modify_self_Ok_inv in H3 as [-> ->].
  apply bind_Ok_inv in H as (q & s4 & e7 & e8 & H4 & H & ->).
  trainer_in (@eq Trainer) H4 K4.
  { apply keeps_as_sequence; [apply _ |]. intros v0.
    unfold make_test_sequence, make_train_sequence. emits_auto. }
  cbn [self] in K4.
  assert (Hq : forall q0, d = DSequence q0 -> q = q0).
  { intros q0 ->. by apply as_sequence_given in H4. }
  clear H4.
  apply bind_Ok_inv in H as ([] & s5 & e9 & e10 & H5 & H & ->).
  assert (K5 : self s5 = if cache_test_data merged
                         then with_cache (with_cache_test q (cache (self s4))) (self s4)
                         else self s4).
  { destruct (cache_test_data merged).
    - by apply modify_self_Ok_inv in H5 as [-> _].
    - by apply ret_Ok_inv in H5 as (_ & -> & _). }
  clear H5.
  apply bind_Ok_inv in H as ([] & s6 & e11 & e12 & H6 & H & ->).
  trainer_in (@eq Trainer) H6 K6. clear H6.
  apply bind_Ok_inv in H as (n & s7 & e13 & e14 & H7 & H & ->).
  trainer_in (@eq Trainer) H7 K7. { apply keeps_len_sequence. apply _. }
  clear H7.
  apply bind_Ok_inv in H as ([] & s8 & e15 & e16 & H8 & H & ->).
  trainer_in (@eq Trainer) H8 K8. clear H8.
  apply bind_Ok_inv in H as (results & s9 & e17 & e18 & H9 & H & ->).
  destruct results as [results|]; [| discriminate H].
  pose proof (test_step_Ok _ _ _ _ _ _ H9)
    as (model & batches & steps & _ & _ & -> & Hsteps & Hnone & K9).
  apply bind_Ok_inv in H as (items & s10 & e19 & e20 & H10 & H & ->).
  apply lift_Ok_inv in H10 as (Hitems & -> & ->).
  apply bind_Ok_inv in H as (n' & s11 & e21 & e22 & H11 & H & ->).
  trainer_in (@eq Trainer) H11 K11. { apply keeps_len_sequence. apply _. }
  assert (E21 : e21 = []).
  { revert H11. unfold len_sequence. run. intros H11. by injection H11 as _ _ <-. }
  clear H11. subst e21.
  apply bind_Ok_inv in H as ([] & s12 & e23 & e24 & H12 & H & ->).
  unfold emit in H12. injection H12 as <- <-.
  apply ret_Ok_inv in H as (-> & -> & ->).
  exists merged, q, s8, results, n'.
  assert (Hself : self s11 = self s5) by congruence.
  rewrite Hself, K5.
  split; [done |]. split; [done |].
  split; [destruct (cache_test_data merged); by rewrite <- K4 |].
  split; [destruct (cache_test_data merged); by rewrite <- K4 |].
  split; [destruct (cache_test_data merged); by rewrite <- K4 |].
  split; [done |]. split; [by rewrite H9 |].
  split; [intros k; by apply item_logs_lookup |].
  split.
  - assert (Hn : (1 <= length (test_steps (EResetMetrics model :: EIter q :: steps)))%nat).
    { change (test_steps (EResetMetrics model :: EIter q :: steps))
        with (test_steps steps).
      rewrite (test_steps_calls _ _ _ _ Hsteps).
      destruct batches as [|b rest]; [| cbn; lia].
      destruct Hnone as [_ Hnone]. by specialize (Hnone eq_refl). }
    rewrite !test_steps_app, !length_app. lia.
  - rewrite ?app_nil_r, ?app_nil_l, !app_assoc. apply last_snoc.
Qed.
End PredictTest.


Lemma predict_caches_and_squeezes_witness :
  cache_predict (cache (self (state_of
    (predict Demo.quiet Demo.no_data false
       (Demo.ready "torch" Demo.model0 1 0 Demo.no_checkpoint []))))) = Some 0%nat /\
  exists rest,
    events_of (predict Demo.quiet Demo.no_data false
                 (Demo.ready "torch" Demo.model0 1 0 Demo.no_checkpoint []))
      = EMakeSequence (PObj 6) :: EIter 0%nat :: rest.
Proof.
  assert (Hr : outcome_of (predict Demo.quiet Demo.no_data false
                             (Demo.ready "torch" Demo.model0 1 0 Demo.no_checkpoint []))
               = Ok (PList [PObj 5])) by (vm_compute; reflexivity).
  pose proof (predict_caches_and_squeezes Demo.quiet Demo.no_data false
                (Demo.ready "torch" Demo.model0 1 0 Demo.no_checkpoint []) _ Hr) as H.
  cbv zeta in H.
  destruct H as (q & mid & logits & _ & _ & _ & Hc & (a & Ha & Hq & rest & Hev) & _).
  assert (Ea : gf_asarray Demo.quiet
                 (if data_is_none Demo.no_data
                  then np_arange Demo.quiet
                         (graph_num_nodes
                            (self (Demo.ready "torch" Demo.model0 1 0 Demo.no_checkpoint [])))
                  else PNone) = Ok (PObj 6)) by (vm_compute; reflexivity).
  rewrite Ea in Ha. injection Ha as <-.
  assert (Eq : (train_sequence Demo.quiet (PObj 6)
                  (wld (Demo.ready "torch" Demo.model0 1 0 Demo.no_checkpoint []))).1
               = Ok 0%nat) by (vm_compute; reflexivity).
  rewrite Eq in Hq. injection Hq as <-.
  split; [exact Hc |]. by exists rest.
Defined.

Lemma test_returns_converted_results_witness :
  outcome_of (test Demo.quiet Demo.raw_data ∅
                (Demo.ready "torch" Demo.model0 1 0 Demo.no_checkpoint []))
    = Ok {["loss" := PObj 4]} /\
  (1 <= length (test_steps (events_of
     (test Demo.quiet Demo.raw_data ∅
        (Demo.ready "torch" Demo.model0 1 0 Demo.no_checkpoint [])))))%nat.
Proof.
  assert (Hr : outcome_of (test Demo.quiet Demo.raw_data ∅
                             (Demo.ready "torch" Demo.model0 1 0 Demo.no_checkpoint []))
               = Ok {["loss" := PObj 4]}) by (vm_compute; reflexivity).
  split; [exact Hr |].
  pose proof (test_returns_converted_results Demo.quiet Demo.raw_data ∅
                (Demo.ready "torch" Demo.model0 1 0 Demo.no_checkpoint []) _ Hr) as H.
  cbv zeta in H.
  destruct H as (merged & q & mid & results & n & _ & _ & _ & _ & _ & _ & _ & _ & Hn & _).
  exact Hn.
Defined.
(** ** What [train] calls *)

Section Footprint.
Context {F : Type} (fwk : framework F).
Implicit Types s : state F.

Lemma emits_train_setup_of (P : event -> Prop) train_data val_data kwargs :
  (forall ev, setup_event ev -> P ev) ->
  emits P (train_setup fwk train_data val_data kwargs).
Proof.
  intros HP.
  unfold train_setup, setup_callbacks, strip_ckpt_monitor, strip_es_monitor,
    append_early_stopping, append_model_checkpoint, append_rest, put_train_cfg,
    get_train_cfg, as_sequence, make_test_sequence, make_train_sequence.
  emits_auto; by apply HP.
Qed.

Section Loop.
Context (P : event -> Prop) (L : train_locals).
Hypothesis HP : forall ev, loop_event (has_validation L) ev -> P ev.

Lemma emits_train_batches_of model dev batches results :
  emits P (train_batches fwk model dev batches results).
Proof.
  revert results. induction batches as [|b batches IH]; intros results;
    cbn [train_batches]; emits_auto; by apply HP.
Qed.

Lemma emits_train_step_of q : emits P (train_step fwk q).
Proof.
  unfold train_step, the_model. emits_auto;
    first [apply emits_train_batches_of | by apply HP].
Qed.

Lemma emits_test_batches_of model dev batches results :
  has_validation L = true ->
  emits P (test_batches fwk model dev batches results).
Proof.
  intros Hv. revert results. induction batches as [|b batches IH]; intros results;
    cbn [test_batches]; emits_auto; try (apply HP; by rewrite Hv).
Qed.

Lemma emits_validate_of logs : emits P (validate fwk L logs).
Proof.
  unfold validate. pose proof HP as HP'. unfold has_validation in HP'.
  destruct (tl_val_data L) as [q|] eqn:Eq; [| apply emits_ret].
  unfold test_step, the_model. emits_auto;
    first [ apply emits_test_batches_of; unfold has_validation; by rewrite Eq
          | by apply HP' ].
Qed.

Lemma emits_epoch_work_of epoch logs : emits P (epoch_work fwk L epoch logs).
Proof.
  unfold epoch_work, get_train_cfg, len_sequence. emits_auto;
    first [apply emits_train_step_of | apply emits_validate_of | by apply HP].
Qed.

Lemma emits_train_epoch_of epoch logs : emits P (train_epoch fwk L epoch logs).
Proof.
  unfold train_epoch, report_epoch, len_sequence. emits_auto;
    first [apply emits_epoch_work_of | by apply HP].
Qed.

Lemma emits_train_epochs_of todo logs : emits P (train_epochs fwk L todo logs).
Proof.
  revert logs. induction todo as [|e todo IH]; intros logs; cbn [train_epochs];
    emits_auto; first [apply emits_train_epoch_of | by apply HP | intros b; by apply HP].
Qed.

Hypothesis HP' : forall ev, finish_event ev -> P ev.

Lemma emits_restore_checkpoint_of : emits P (restore_checkpoint fwk L).
Proof.
  unfold restore_checkpoint, get_train_cfg. emits_auto; try by apply HP'.
  intros s. cbn. repeat constructor. by apply HP'.
Qed.

Lemma emits_train_body_of : emits P (train_body fwk L).
Proof.
  unfold train_body, get_train_cfg. emits_auto;
    first [apply emits_train_epochs_of | apply emits_restore_checkpoint_of | by apply HP'].
Qed.
End Loop.

(** What the set-up of [train] makes of the data it is given. *)
Lemma train_setup_data train_data val_data kwargs s L s1 evs :
  train_setup fwk train_data val_data kwargs s
    = {| outcome_of := Ok L; state_of := s1; events_of := evs |} ->
  has_validation L = negb (data_is_none val_data) /\
  (forall q, train_data = DSequence q -> tl_train_data L = q) /\
  (forall q, val_data = DSequence q -> tl_val_data L = Some q).
Proof.
  intros H. unfold train_setup in H.
  apply bind_Ok_inv in H as (me & u1 & e1 & e2 & H1 & H & ->).
  apply bind_Ok_inv in H as (merged & u2 & e3 & e4 & H2 & H & ->).
  apply bind_Ok_inv in H as ([] & u3 & e5 & e6 & H3 & H & ->).
  destruct (_model me) as [model|]; [| discriminate H].
  apply bind_Ok_inv in H as (train_seq & u4 & e7 & e8 & H4 & H & ->).
  apply bind_Ok_inv in H as ([] & u5 & e9 & e10 & H5 & H & ->).
  apply bind_Ok_inv in H as (val_seq & u6 & e11 & e12 & H6 & H & ->).
  apply bind_Ok_inv in H as (callbacks & u7 & e13 & e14 & H7 & H & ->).
  apply bind_Ok_inv in H as ([] & u8 & e15 & e16 & H8 & H & ->).
  apply bind_Ok_inv in H as ([] & u9 & e17 & e18 & H9 & H & ->).
  apply bind_Ok_inv in H as (c & u10 & e19 & e20 & H10 & H & ->).
  apply bind_Ok_inv in H as ([] & u11 & e21 & e22 & H11 & H & ->).
  apply bind_Ok_inv in H as ([] & u12 & e23 & e24 & H12 & H & ->).
  apply ret_Ok_inv in H as (-> & _ & _).
  unfold has_validation. cbn [tl_val_data tl_train_data].
  split; [| split].
  - destruct (data_is_none val_data); cbn [negb] in *.
    + by apply ret_Ok_inv in H6 as (-> & _).
    + apply bind_Ok_inv in H6 as (q & v1 & f1 & f2 & _ & H6 & _).
      apply bind_Ok_inv in H6 as ([] & v2 & f3 & f4 & _ & H6 & _).
      by apply ret_Ok_inv in H6 as (-> & _).
  - intros q ->. by apply as_sequence_given in H4.
  - intros q ->. cbn [data_is_none negb] in H6.
    apply bind_Ok_inv in H6 as (q' & v1 & f1 & f2 & H6' & H6 & _).
    apply as_sequence_given in H6' as ->.
    apply bind_Ok_inv in H6 as ([] & v2 & f3 & f4 & _ & H6 & _).
    by apply ret_Ok_inv in H6 as (-> & _).
Qed.

(** How a run of [train] is made of its set-up, the body of its [try]
    statement and its [finally] clause. *)
Lemma train_anatomy train_data val_data kwargs s :
  let r := train fwk train_data val_data kwargs s in
  let setup := train_setup fwk train_data val_data kwargs s in
  match outcome_of setup with
  | Raise e =>
      outcome_of r = Raise e /\ state_of r = state_of setup /\
      events_of r = events_of setup
  | Ok L =>
      let body := train_body fwk L (state_of setup) in
      let cleanup := train_cleanup fwk (state_of body) in
      outcome_of r = match outcome_of body with
                     | Ok _ => Ok History
                     | Raise e => Raise e
                     end /\
      state_of r = state_of cleanup /\
      events_of r = events_of setup ++ events_of body ++ events_of cleanup
  end.
Proof.
  intros r setup. subst r setup. unfold train.
  destruct (train_setup fwk train_data val_data kwargs s) as [[L|e] s1 evs1] eqn:Es.
  - cbn [outcome_of state_of events_of].
    pose proof (train_setup_Ok _ _ _ _ _ _ _ _ Es) as (_ & _ & _ & Hh & _).
    rewrite (bind_Ok _ _ _ _ _ _ Es). unfold train_run, bind, try_finally.
    pose proof (train_cleanup_returns fwk (state_of (train_body fwk L s1))) as Hc.
    destruct (train_body fwk L s1) as [ob sb evsb]. cbn [state_of] in *.
    destruct (train_cleanup fwk sb) as [oc sc evsc]. cbn [outcome_of] in Hc. subst oc.
    destruct ob as [[]|e]; cbn; rewrite ?app_nil_r, ?Hh; done.
  - cbn [outcome_of state_of events_of]. by rewrite (bind_Raise _ _ _ _ _ _ Es).
Qed.

Lemma train_cleanup_idle s :
  ckpt_enabled (cfg_ModelCheckpoint (cfg_train (cfg (self s))))
    && ckpt_remove_weights (cfg_ModelCheckpoint (cfg_train (cfg (self s)))) = false ->
  train_cleanup fwk s = {| outcome_of := Ok tt; state_of := s; events_of := [] |}.
Proof.
  intros Hf. unfold train_cleanup. rewrite (bind_Ok _ _ _ _ _ _ (get_train_cfg_run s)).
  by rewrite Hf.
Qed.


(** X6: [train] deletes no file unless the checkpoint is enabled and its
    [remove_weights] entry is set: otherwise it never calls [os.remove],
    however it ends. *)
Theorem train_removes_only_on_request train_data val_data kwargs s :
  let r := train fwk train_data val_data kwargs s in
  let k := cfg_ModelCheckpoint (cfg_train (cfg (self (state_of r)))) in
  ckpt_enabled k && ckpt_remove_weights k = false ->
  Forall (fun ev => ~ is_remove ev) (events_of r).
Proof.
  intros r k Hflags. subst k.
  pose proof (train_anatomy train_data val_data kwargs s) as H.
  cbv zeta in H. fold r in H.
  assert (Hsetup : Forall (fun ev => ~ is_remove ev)
                     (events_of (train_setup fwk train_data val_data kwargs s))).
  { apply emits_train_setup_of. intros ev Hs Hr. destruct ev; cbn in Hs, Hr; contradiction. }
  destruct (outcome_of (train_setup fwk train_data val_data kwargs s)) as [L|e].
  - destruct H as (_ & Hs & He). rewrite He, Hs in *.
    set (s1 := state_of (train_setup fwk train_data val_data kwargs s)) in *.
    pose proof (keeps_train_cleanup fwk eq (state_of (train_body fwk L s1))) as Hc.
    rewrite <- Hc in Hflags. rewrite (train_cleanup_idle _ Hflags). cbn [events_of].
    rewrite app_nil_r. apply Forall_app. split; [done |].
    apply (emits_train_body_of _ L); intros ev Hev Hr; destruct ev; cbn in Hev, Hr;
      contradiction.
  - destruct H as (_ & _ & He). by rewrite He.
Qed.

(** Every call [train] makes belongs to its set-up, to the loop over the
    epochs, to the end of the [try] statement, or is an [os.remove]. *)
Lemma train_events_classified train_data val_data kwargs s :
  Forall (fun ev => setup_event ev \/ loop_event (negb (data_is_none val_data)) ev \/
                    finish_event ev \/ is_remove ev)
    (events_of (train fwk train_data val_data kwargs s)).
Proof.
  pose proof (train_anatomy train_data val_data kwargs s) as H. cbv zeta in H.
  assert (Hsetup : Forall (fun ev => setup_event ev \/
                                     loop_event (negb (data_is_none val_data)) ev \/
                                     finish_event ev \/ is_remove ev)
                     (events_of (train_setup fwk train_data val_data kwargs s))).
  { apply emits_train_setup_of. by left. }
  destruct (train_setup fwk train_data val_data kwargs s) as [[L|e] s1 evs1] eqn:Es;
    cbn [outcome_of state_of events_of] in *.
  - destruct H as (_ & _ & He). rewrite He.
    apply train_setup_data in Es as (Hv & _).
    apply Forall_app. split; [done |]. apply Forall_app. split.
    + apply (emits_train_body_of _ L); rewrite ?Hv; tauto.
    + eapply Forall_impl; [apply emits_train_cleanup_removes |]. tauto.
  - destruct H as (_ & _ & He). by rewrite He.
Qed.

(** X7: without validation data [train] never runs a test step, however
    it ends. *)
Theorem train_without_validation_never_tests train_data val_data kwargs s :
  data_is_none val_data = true ->
  test_steps (events_of (train fwk train_data val_data kwargs s)) = [].
Proof.
  intros Hnone.
  pose proof (train_events_classified train_data val_data kwargs s) as Hfoot.
  rewrite Hnone in Hfoot. eapply omap_none_Forall; [| exact Hfoot].
  intros ev [H | [H | [H | H]]]; destruct ev; cbn in H; done.
Qed.

(** X8: a [train] that returns with [cfg.train.epochs] at zero or below
    has run no epoch: the callbacks got [on_train_begin] and
    [on_train_end] and nothing else, no step was run on any batch and
    [model.stop_training] was never read; the reload of the checkpoint
    and the clean-up take place all the same. *)
Theorem train_without_epochs train_data val_data kwargs s h :
  let r := train fwk train_data val_data kwargs s in
  outcome_of r = Ok h ->
  epochs (cfg_train (cfg (self (state_of r)))) <= 0 ->
  exists callbacks,
    hook_calls (events_of r) = [(callbacks, on_train_begin); (callbacks, on_train_end)] /\
    Forall (fun ev => ~ is_step ev) (events_of r) /\
    stop_reads (events_of r) = [].
Proof.
  intros r Hr Hn. subst r. apply run_of in Hr.
  set (s' := state_of _) in *. set (evs := events_of _) in *. clearbody s' evs.
  apply train_Ok_stages in Hr
    as (L & s1 & evs1 & s2 & evs2 & s3 & s4 & evs4 & evs5
        & Hsetup & Hloop & Hrestore & -> & -> & Hs3 & Hs' & [Hcfg Hbe] & P1 & P4 & P5).
  rewrite Hcfg in Hn.
  assert (Hrange : py_range (epochs (cfg_train (cfg (self s1)))) = []).
  { unfold py_range. by replace (Z.to_nat _) with 0%nat by lia. }
  rewrite Hrange in Hloop. apply ret_Ok_inv in Hloop as (_ & _ & ->).
  events_in (fun ev => ~ is_step ev) Hsetup Q1.
  { apply emits_train_setup_of. intros ev Hev Hst. destruct ev; cbn in Hev, Hst;
      contradiction. }
  events_in (fun ev => ~ is_step ev) Hrestore Q4.
  { apply emits_restore_checkpoint_of. intros ev Hev Hst.
    destruct ev; cbn in Hev, Hst; contradiction. }
  pose proof (train_setup_Ok _ _ _ _ _ _ _ _ Hsetup) as (_ & _ & _ & _ & _ & _ & Hbegin).
  assert (P5' : Forall plain evs5)
    by (eapply Forall_impl; [exact P5 | apply remove_plain]).
  exists (tl_callbacks L). split; [| split].
  - rewrite !hook_calls_app, Hbegin, (hook_calls_plain _ P4), (hook_calls_plain _ P5').
    done.
  - rewrite !Forall_app. repeat split; try done.
    + repeat constructor. by intros [].
    + eapply Forall_impl; [exact P5 |]. intros ev Hev Hst. by destruct ev.
  - rewrite !stop_reads_app, (stop_reads_within _ P1).
    rewrite (stop_reads_within evs4) by by apply Forall_plain_within.
    rewrite (stop_reads_within evs5) by by apply Forall_plain_within.
    done.
Qed.

(** X9: when [train] returns and the checkpoint callback is disabled,
    nothing is reloaded: [self.model] is the model [train] started with,
    and [on_train_end] is the last call [train] makes. *)
Theorem train_without_checkpoint_keeps_model train_data val_data kwargs s h :
  let r := train fwk train_data val_data kwargs s in
  outcome_of r = Ok h ->
  ckpt_enabled (cfg_ModelCheckpoint (cfg_train (cfg (self (state_of r))))) = false ->
  _model (self (state_of r)) = _model (self s) /\
  exists callbacks, last (events_of r) = Some (ECallback callbacks on_train_end).
Proof.
  intros r Hr Hoff. subst r. apply run_of in Hr.
  set (s' := state_of _) in *. set (evs := events_of _) in *. clearbody s' evs.
  apply train_Ok_inv in Hr
    as (L & s1 & evs1 & s2 & evs2 & s3 & s4 & evs4 & evs5
        & Hsetup & Hloop & Hs3 & Hrestore & Hclean & -> & ->).
  trainer_in (@eq Trainer) Hloop K2. { apply keeps_train_epochs. apply _. }
  trainer_in (@eq Trainer) Hclean K5. { apply keeps_train_cleanup. apply _. }
  apply train_setup_Ok in Hsetup as (Hm & Hm1 & _).
  apply restore_checkpoint_Ok in Hrestore. cbn zeta in Hrestore.
  assert (Hoff4 : ckpt_enabled (cfg_ModelCheckpoint (cfg_train (cfg (self s4)))) = false)
    by (by rewrite K5).
  destruct (ckpt_enabled (cfg_ModelCheckpoint (cfg_train (cfg (self s3))))) eqn:E3.
  - destruct (ckpt_save_weights_only _).
    + destruct Hrestore as [_ Hs4]. rewrite Hs4, E3 in Hoff4. discriminate Hoff4.
    + destruct Hrestore as (m & _ & Hs4). rewrite Hs4 in Hoff4. cbn in Hoff4.
      rewrite E3 in Hoff4. discriminate Hoff4.
  - destruct Hrestore as [-> Hs4].
    assert (E5 : evs5 = []).
    { rewrite train_cleanup_idle in Hclean by (by rewrite Hoff4).
      by injection Hclean as _ <-. }
    subst evs5. split; [congruence |].
    exists (tl_callbacks L). rewrite ?app_nil_r, !app_assoc. apply last_snoc.
Qed.

Lemma epoch_work_trains L epoch logs s logs' s' evs :
  epoch_work fwk L epoch logs s
    = {| outcome_of := Ok logs'; state_of := s'; events_of := evs |} ->
  (1 <= length (train_steps evs))%nat.
Proof.
  intros H. unfold epoch_work in H.
  apply bind_Ok_inv in H as (c & u1 & e1 & e2 & _ & H & ->).
  apply bind_Ok_inv in H as ([] & u2 & e3 & e4 & _ & H & ->).
  apply bind_Ok_inv in H as ([] & u3 & e5 & e6 & _ & H & ->).
  apply bind_Ok_inv in H as ([] & u4 & e7 & e8 & _ & H & ->).
  apply bind_Ok_inv in H as (train_logs & u5 & e9 & e10 & H5 & H & ->).
  apply bind_Ok_inv in H as ([] & u6 & e11 & e12 & _ & H & ->).
  apply bind_Ok_inv in H as (logs1 & u7 & e13 & e14 & H7 & _ & ->).
  destruct train_logs as [d|]; [| discriminate H7].
  apply train_step_Ok in H5 as (model & batches & steps & _ & _ & -> & Hsteps & Hnone & _).
  assert (Hn : (1 <= length (train_steps (EResetMetrics model :: EIter (tl_train_data L)
                                            :: steps)))%nat).
  { change (train_steps (EResetMetrics model :: EIter (tl_train_data L) :: steps))
      with (train_steps steps).
    rewrite (train_steps_calls _ _ _ _ Hsteps).
    destruct batches as [|b rest]; [| cbn; lia].
    destruct Hnone as [_ Hnone]. by specialize (Hnone eq_refl). }
  rewrite !train_steps_app, !length_app. lia.
Qed.

Lemma train_epochs_trains L todo logs s s' evs :
  train_epochs fwk L todo logs s
    = {| outcome_of := Ok tt; state_of := s'; events_of := evs |} ->
  (length (epochs_begun evs) <= length (train_steps evs))%nat.
Proof.
  revert logs s evs. induction todo as [|e todo IH]; intros logs s evs H.
  { by apply ret_Ok_inv in H as (_ & _ & ->). }
  cbn [train_epochs] in H.
  apply bind_Ok_inv in H as (logs' & u1 & e1 & e2 & H1 & H & ->).
  destruct (train_epoch_begun fwk L e logs s) as [Hb1 _].
  rewrite H1 in Hb1. cbn [events_of] in Hb1.
  unfold train_epoch in H1.
  apply bind_Ok_inv in H1 as (logs1 & v1 & f1 & f2 & Hw & _ & ->).
  apply epoch_work_trains in Hw.
  apply bind_Ok_inv in H as (stop & u2 & e3 & e4 & H2 & H & ->).
  unfold get_stop_training in H2. injection H2 as <- <- <-.
  rewrite (epochs_begun_app (f1 ++ f2)), Hb1, (epochs_begun_app [_]).
  change (epochs_begun [EGetStopTraining (stop_training (wld u1))]) with (@nil Z).
  rewrite !train_steps_app, !length_app. cbn [app length].
  destruct (stop_training (wld u1)).
  - unfold emit in H. injection H as _ <-.
    change (epochs_begun [EPrint stderr ("Early Stopping at Epoch " +:+ pretty e)])
      with (@nil Z).
    cbn [length]. lia.
  - apply IH in H. lia.
Qed.

(** X10: in a [train] that returns, every epoch it ran has called
    [train_step_on_batch] at least once: an epoch whose training sequence
    yields no batch makes [train] raise. *)
Theorem every_epoch_trains_a_batch train_data val_data kwargs s h :
  let r := train fwk train_data val_data kwargs s in
  outcome_of r = Ok h ->
  (length (epochs_begun (events_of r)) <= length (train_steps (events_of r)))%nat.
Proof.
  intros r Hr. subst r. apply run_of in Hr.
  set (s' := state_of _) in *. set (evs := events_of _) in *. clearbody s' evs.
  apply train_Ok_stages in Hr
    as (L & s1 & evs1 & s2 & evs2 & s3 & s4 & evs4 & evs5
        & Hsetup & Hloop & Hrestore & -> & -> & Hs3 & Hs' & [Hcfg Hbe] & P1 & P4 & P5).
  apply train_epochs_trains in Hloop.
  assert (P5' : Forall plain evs5)
    by (eapply Forall_impl; [exact P5 | apply remove_plain]).
  rewrite !epochs_begun_app, (epochs_begun_within _ P1).
  rewrite (epochs_begun_within evs4) by by apply Forall_plain_within.
  rewrite (epochs_begun_within evs5) by by apply Forall_plain_within.
  cbn [epochs_begun omap app]. rewrite app_nil_r.
  rewrite !train_steps_app, !length_app. fold (epochs_begun evs2). lia.
Qed.
End Footprint.

Lemma train_removes_only_on_request_witness :
  Forall (fun ev => ~ is_remove ev)
    (events_of (train Demo.quiet Demo.raw_data Demo.no_data ∅
                  (Demo.ready "tensorflow" Demo.model0 2 1
                     (Demo.checkpoint_cfg true true false) ["/tmp/run/checkpoint"]))).
Proof.
  assert (Hflags :
    ckpt_enabled (cfg_ModelCheckpoint (cfg_train (cfg (self (state_of
      (train Demo.quiet Demo.raw_data Demo.no_data ∅
         (Demo.ready "tensorflow" Demo.model0 2 1
            (Demo.checkpoint_cfg true true false) ["/tmp/run/checkpoint"])))))))
    && ckpt_remove_weights (cfg_ModelCheckpoint (cfg_train (cfg (self (state_of
      (train Demo.quiet Demo.raw_data Demo.no_data ∅
         (Demo.ready "tensorflow" Demo.model0 2 1
            (Demo.checkpoint_cfg true true false) ["/tmp/run/checkpoint"]))))))) = false)
    by (vm_compute; reflexivity).
  exact (train_removes_only_on_request Demo.quiet Demo.raw_data Demo.no_data ∅
           (Demo.ready "tensorflow" Demo.model0 2 1
              (Demo.checkpoint_cfg true true false) ["/tmp/run/checkpoint"]) Hflags).
Defined.

Lemma train_without_validation_never_tests_witness :
  test_steps (events_of (train Demo.quiet Demo.raw_data Demo.no_data ∅
                           (Demo.ready "torch" Demo.model0 2 1 Demo.no_checkpoint [])))
    = [].
Proof.
  exact (train_without_validation_never_tests Demo.quiet Demo.raw_data Demo.no_data ∅
           (Demo.ready "torch" Demo.model0 2 1 Demo.no_checkpoint []) eq_refl).
Defined.

Lemma train_without_epochs_witness :
  exists callbacks,
    hook_calls (events_of (train Demo.quiet Demo.raw_data Demo.no_data ∅
                             (Demo.ready "torch" Demo.model0 0 1 Demo.no_checkpoint [])))
      = [(callbacks, on_train_begin); (callbacks, on_train_end)].
Proof.
  assert (Hr : outcome_of (train Demo.quiet Demo.raw_data Demo.no_data ∅
                             (Demo.ready "torch" Demo.model0 0 1 Demo.no_checkpoint []))
               = Ok History) by (vm_compute; reflexivity).
  assert (Hn : epochs (cfg_train (cfg (self (state_of
                 (train Demo.quiet Demo.raw_data Demo.no_data ∅
                    (Demo.ready "torch" Demo.model0 0 1 Demo.no_checkpoint [])))))) <= 0)
    by (vm_compute; discriminate).
  pose proof (train_without_epochs Demo.quiet Demo.raw_data Demo.no_data ∅
                (Demo.ready "torch" Demo.model0 0 1 Demo.no_checkpoint []) History Hr Hn)
    as H.
  cbv zeta in H. destruct H as (callbacks & Hhooks & _). by exists callbacks.
Defined.

Lemma train_without_checkpoint_keeps_model_witness :
  _model (self (state_of (train Demo.quiet Demo.raw_data Demo.no_data ∅
                            (Demo.ready "torch" Demo.model0 2 1 Demo.no_checkpoint []))))
    = Some Demo.model0.
Proof.
  assert (Hr : outcome_of (train Demo.quiet Demo.raw_data Demo.no_data ∅
                             (Demo.ready "torch" Demo.model0 2 1 Demo.no_checkpoint []))
               = Ok History) by (vm_compute; reflexivity).
  assert (Hoff : ckpt_enabled (cfg_ModelCheckpoint (cfg_train (cfg (self (state_of
                   (train Demo.quiet Demo.raw_data Demo.no_data ∅
                      (Demo.ready "torch" Demo.model0 2 1 Demo.no_checkpoint []))))))) = false)
    by (vm_compute; reflexivity).
  pose proof (train_without_checkpoint_keeps_model Demo.quiet Demo.raw_data Demo.no_data ∅
                (Demo.ready "torch" Demo.model0 2 1 Demo.no_checkpoint []) History Hr Hoff)
    as H.
  cbv zeta in H. destruct H as [Hm _]. exact Hm.
Defined.

Lemma every_epoch_trains_a_batch_witness :
  (length (epochs_begun (events_of
     (train Demo.quiet Demo.raw_data Demo.no_data ∅
        (Demo.ready "torch" Demo.model0 2 1 Demo.no_checkpoint []))))
   <= length (train_steps (events_of
        (train Demo.quiet Demo.raw_data Demo.no_data ∅
           (Demo.ready "torch" Demo.model0 2 1 Demo.no_checkpoint [])))))%nat.
Proof.
  assert (Hr : outcome_of (train Demo.quiet Demo.raw_data Demo.no_data ∅
                             (Demo.ready "torch" Demo.model0 2 1 Demo.no_checkpoint []))
               = Ok History) by (vm_compute; reflexivity).
  exact (every_epoch_trains_a_batch Demo.quiet Demo.raw_data Demo.no_data ∅
           (Demo.ready "torch" Demo.model0 2 1 Demo.no_checkpoint []) History Hr).
Defined.
(** ** More on [setup_callbacks] *)

Section MoreSetupCallbacks.
Context {F : Type} (fwk : framework F).
Implicit Types s : state F.

Lemma length_append (p e : string) :
  String.length (p +:+ e) = (String.length p + String.length e)%nat.
Proof.
  induction p as [|c p IH]; [done |].
  change (S (String.length (p +:+ e)) = S (String.length p + String.length e)).
  by rewrite IH.
Qed.

Lemma str_drop_append (p e : string) : str_drop (String.length p) (p +:+ e) = e.
Proof.
  induction p as [|c p IH]; [by destruct e |].
  change (str_drop (String.length p) (p +:+ e) = e). exact IH.
Qed.

Lemma endswith_append (p e : string) : endswith (p +:+ e) e = true.
Proof.
  unfold endswith. rewrite length_append.
  destruct (Nat.leb_spec (String.length e) (String.length p + String.length e)); [| lia].
  replace (String.length p + String.length e - String.length e)%nat
    with (String.length p) by lia.
  rewrite str_drop_append. apply String.eqb_refl.
Qed.

(** The checkpoint path and the callbacks [setup_callbacks] leaves. *)
Lemma setup_callbacks_result s (callbacks : list callback) (validation : bool) :
  let r := setup_callbacks fwk callbacks validation s in
  let k := cfg_ModelCheckpoint (cfg_train (cfg (self s))) in
  let k' := cfg_ModelCheckpoint (cfg_train (cfg (self (state_of r)))) in
  ckpt_path k' = (if ckpt_enabled k && negb (endswith (ckpt_path k) (file_ext fwk))
                  then ckpt_path k +:+ file_ext fwk else ckpt_path k) /\
  makedirs_of (events_of r) = (if ckpt_enabled k then [ckpt_path k'] else []) /\
  (forall callbacks', outcome_of r = Ok callbacks' ->
     callbacks' = callbacks ++ configured_callbacks (cfg_train (cfg (self (state_of r))))).
Proof.
  destruct s as [[ip be dev m bk
                    [cp cm [ep vb ctd cvd [ce cmon crw cpath csbo cswo cv]
                                          [ee em epat emode ev eb er] nan
                                          [te tl tw tu th ti] pw] ct rl] tr ca gn] w].
  unfold setup_callbacks, strip_ckpt_monitor, strip_es_monitor, append_early_stopping,
    append_model_checkpoint, append_rest, get_train_cfg, put_train_cfg,
    configured_callbacks.
  cbn zeta. run.
  destruct validation; run; destruct ce; run;
    destruct (startswith cmon "val_"); run; destruct ee; run;
    destruct (startswith em "val_"); run;
    try destruct (endswith cpath (file_ext fwk)); run;
    try (match goal with
         | |- context [makedirs_from_filepath fwk ?path ?w0] =>
             destruct (makedirs_from_filepath fwk path w0) as [[[]|err] w1]
         end; run);
    (split; [done |]); (split; [done |]); intros callbacks' H; try discriminate H;
    injection H as <-; destruct nan, te; rewrite <- ?app_assoc; by rewrite ?app_nil_r.
Qed.

(** X11: the callbacks [setup_callbacks] returns are the given ones
    followed by the enabled ones among [EarlyStopping], [ModelCheckpoint],
    [TerminateOnNaN] and [TensorBoard], in this order, each built from the
    configuration as [setup_callbacks] leaves it: with the monitors it has
    replaced and the checkpoint path it has extended, the verbosity of
    [ModelCheckpoint] being the entry spelled [vervose]. *)
Theorem setup_callbacks_builds_from_final_cfg s (callbacks callbacks' : list callback)
    (validation : bool) :
  let r := setup_callbacks fwk callbacks validation s in
  outcome_of r = Ok callbacks' ->
  callbacks' = callbacks ++ configured_callbacks (cfg_train (cfg (self (state_of r)))).
Proof.
  intros r Hr. by apply (setup_callbacks_result s callbacks validation).
Qed.

(** X12: with the checkpoint enabled, [setup_callbacks] leaves a
    checkpoint path that ends with the file extension of the backend: the
    configured path if it ends with it already, else the path with the
    extension appended; it calls [makedirs_from_filepath] once, on that
    path; and a second call leaves the path as it is.  With the checkpoint
    disabled, the path stays and no directory is made. *)
Theorem setup_callbacks_checkpoint_path s (callbacks : list callback) (validation : bool) :
  let r := setup_callbacks fwk callbacks validation s in
  let k := cfg_ModelCheckpoint (cfg_train (cfg (self s))) in
  let k' := cfg_ModelCheckpoint (cfg_train (cfg (self (state_of r)))) in
  (if ckpt_enabled k
   then endswith (ckpt_path k') (file_ext fwk) = true /\
        ckpt_path k' = (if endswith (ckpt_path k) (file_ext fwk)
                        then ckpt_path k else ckpt_path k +:+ file_ext fwk) /\
        makedirs_of (events_of r) = [ckpt_path k']
   else ckpt_path k' = ckpt_path k /\ makedirs_of (events_of r) = []) /\
  (forall (callbacks2 : list callback) (validation2 : bool),
     ckpt_path (cfg_ModelCheckpoint (cfg_train (cfg (self (state_of
       (setup_callbacks fwk callbacks2 validation2 (state_of r)))))))
     = ckpt_path k').
Proof.
  intros r k k'.
  destruct (setup_callbacks_result s callbacks validation) as (Hpath & Hdirs & _).
  destruct (setup_callbacks_effect fwk s callbacks validation) as (Hflags & _).
  fold r k k' in Hpath, Hdirs, Hflags.
  assert (Hen : ckpt_enabled k' = ckpt_enabled k).
  { unfold same_train_flags in Hflags. cbn zeta in Hflags.
    by destruct Hflags as (_ & _ & _ & _ & _ & He & _). }
  assert (Hends : ckpt_enabled k = true -> endswith (ckpt_path k') (file_ext fwk) = true).
  { intros He. rewrite Hpath, He. cbn [andb].
    destruct (endswith (ckpt_path k) (file_ext fwk)) eqn:E; cbn [negb]; [done |].
    apply endswith_append. }
  split.
  - destruct (ckpt_enabled k) eqn:He.
    + split; [by apply Hends |]. split; [| done].
      rewrite Hpath. cbn [andb]. by destruct (endswith (ckpt_path k) (file_ext fwk)).
    + by rewrite Hpath.
  - intros callbacks2 validation2.
    destruct (setup_callbacks_result (state_of r) callbacks2 validation2) as (Hpath2 & _).
    cbv zeta in Hpath2. rewrite Hpath2. fold k'. rewrite Hen.
    destruct (ckpt_enabled k) eqn:He; [| done].
    by rewrite (Hends eq_refl).
Qed.
End MoreSetupCallbacks.

Lemma setup_callbacks_builds_from_final_cfg_witness :
  exists callbacks',
    outcome_of (setup_callbacks Demo.quiet [History] false Demo.fresh) = Ok callbacks' /\
    ModelCheckpoint "/tmp/run/weights.h5" "accuracy" true true 0 ∈ callbacks'.
Proof.
  assert (Hr : outcome_of (setup_callbacks Demo.quiet [History] false Demo.fresh)
               = Ok (Demo.returned [] (setup_callbacks Demo.quiet [History] false Demo.fresh)))
    by (vm_compute; reflexivity).
  eexists. split; [exact Hr |].
  rewrite (setup_callbacks_builds_from_final_cfg Demo.quiet Demo.fresh [History] _ false Hr).
  vm_compute. apply elem_of_cons. right. apply elem_of_cons. right.
  apply elem_of_cons. by left.
Defined.

(** ** More on [remove_weights] *)

Section MoreRemoveWeights.
Context {F : Type} (fwk : framework F).
Implicit Types s : state F.

Lemma world_eta (w : world F) :
  {| fs := fs w; stop_training := stop_training w; fw := fw w |} = w.
Proof. by destruct w. Qed.







End MoreRemoveWeights.
(** ** More on [process], [build] and [build_from_model] *)

Section MoreLifecycle.
Context {F : Type} (fwk : framework F).
Implicit Types s : state F.

Lemma require_processed_Ok s (a : unit) s' evs :
  require_processed s = {| outcome_of := Ok a; state_of := s'; events_of := evs |} ->
  is_processed (self s) = true /\ s' = s /\ evs = [].
Proof.
  unfold require_processed. run. destruct (is_processed (self s)); run; intros H; [| done].
  by injection H as <- <-.
Qed.

(** X15: a [build] that returns was called on a processed trainer; it
    has called the builder once, with the keyword arguments, and
    [self.model] is the model the builder returned, moved to the device
    of the trainer unless the backend is tensorflow; the weights of a
    Keras model that has some are backed up; the keyword arguments the
    builder handed back are merged into [cfg.model]; the rest of the
    trainer stays, and [build] returns the trainer. *)
Theorem build_installs_the_model kwargs s me :
  let r := build fwk kwargs s in
  outcome_of r = Ok me ->
  exists built kwargs' model merged,
    is_processed (self s) = true /\
    (wrapper_builder fwk kwargs (wld s)).1 = Ok (built, kwargs') /\
    (if String.eqb (backend (self s)) "tensorflow"
     then model = built /\ events_of r = [EBuilder kwargs]
     else (model_to fwk built (device (self s)) (wrapper_builder fwk kwargs (wld s)).2).1
            = Ok model /\
          events_of r = [EBuilder kwargs; EModelTo built (device (self s))]) /\
    merge_from_dict fwk (cfg_model (cfg (self s))) kwargs' = Ok merged /\
    me = self (state_of r) /\
    self (state_of r)
      = with_cfg (with_cfg_model merged (cfg (self s))) (set_model model (self s)) /\
    _model me = Some model /\
    backup me = (if model_is_keras model && negb (bool_decide (model_weights model = []))
                 then Some (model_weights model) else backup (self s)) /\
    cfg_model (cfg me) = merged /\
    cfg_train (cfg me) = cfg_train (cfg (self s)) /\
    is_processed me = true.
Proof.
  intros r Hr. subst r. apply run_of in Hr.
  set (s' := state_of _) in *. set (evs := events_of _) in *. clearbody s' evs.
  unfold build in Hr.
  apply bind_Ok_inv in Hr as ([] & u1 & e1 & e2 & H1 & H & ->).
  apply require_processed_Ok in H1 as (Hp & -> & ->).
  apply bind_Ok_inv in H as (me0 & u2 & e3 & e4 & H2 & H & ->).
  unfold get_self in H2. injection H2 as <- <- <-.
  apply bind_Ok_inv in H as (kwargs' & u3 & e5 & e6 & H3 & H & ->).
  apply bind_Ok_inv in H as (me1 & u4 & e7 & e8 & H4 & H & ->).
  unfold get_self in H4. injection H4 as <- <- <-.
  apply bind_Ok_inv in H as (merged & u5 & e9 & e10 & H5 & H & ->).
  apply lift_Ok_inv in H5 as (Hmerge & -> & ->).
  apply bind_Ok_inv in H as ([] & u6 & e11 & e12 & H6 & H & ->).
  apply modify_self_Ok_inv in H6 as [-> ->].
  unfold get_self in H. injection H as <- <- <-. cbn [self].
  assert (Hbuilt : exists built model,
            (wrapper_builder fwk kwargs (wld s)).1 = Ok (built, kwargs') /\
            (if String.eqb (backend (self s)) "tensorflow"
             then model = built /\ e5 = [EBuilder kwargs]
             else (model_to fwk built (device (self s))
                     (wrapper_builder fwk kwargs (wld s)).2).1 = Ok model /\
                  e5 = [EBuilder kwargs; EModelTo built (device (self s))]) /\
            self u3 = set_model model (self s)).
  { destruct (String.eqb (backend (self s)) "tensorflow").
    - apply bind_Ok_inv in H3 as ([built kw] & v1 & f1 & f2 & H7 & H3 & ->).
      pose proof (call_Ok_world _ _ _ _ _ _ H7) as [Hb _].
      apply call_Ok_inv in H7 as [-> Hv1].
      apply bind_Ok_inv in H3 as ([] & v2 & f3 & f4 & H8 & H3 & ->).
      apply modify_self_Ok_inv in H8 as [-> ->].
      apply ret_Ok_inv in H3 as (-> & -> & ->). cbn [fst snd self] in *.
      exists built, built. rewrite Hv1. by repeat split.
    - apply bind_Ok_inv in H3 as ([built kw] & v1 & f1 & f2 & H7 & H3 & ->).
      pose proof (call_Ok_world _ _ _ _ _ _ H7) as [Hb Hw1].
      apply call_Ok_inv in H7 as [-> Hv1].
      apply bind_Ok_inv in H3 as (model & v2 & f3 & f4 & H8 & H3 & ->).
      pose proof (call_Ok_world _ _ _ _ _ _ H8) as [Hto _].
      apply call_Ok_inv in H8 as [-> Hv2].
      apply bind_Ok_inv in H3 as ([] & v3 & f5 & f6 & H9 & H3 & ->).
      apply modify_self_Ok_inv in H9 as [-> ->].
      apply ret_Ok_inv in H3 as (-> & -> & ->). cbn [fst snd self] in *.
      exists built, model. rewrite Hw1 in Hto. rewrite Hv2, Hv1. by repeat split. }
  destruct Hbuilt as (built & model & Hb & Hplace & Hs3).
  exists built, kwargs', model, merged. rewrite Hs3 in *. reduce_run.
  split; [done |]. split; [done |].
  split.
  { rewrite !app_nil_r. cbn [app]. exact Hplace. }
  by repeat split.
Qed.

(** X16: a [build_from_model] that returns was called on a processed
    trainer; [self.model] is the given model, moved to the device of the
    trainer unless the backend is tensorflow; the weights of a Keras
    model that has some are backed up; the entry [build_from_model] of
    [cfg.model] is set to [False] and the other entries stay; and
    [build_from_model] returns the trainer. *)
Theorem build_from_model_installs_the_model given s me :
  let r := build_from_model fwk given s in
  outcome_of r = Ok me ->
  exists model,
    is_processed (self s) = true /\
    (if String.eqb (backend (self s)) "tensorflow"
     then model = given /\ events_of r = []
     else (model_to fwk given (device (self s)) (wld s)).1 = Ok model /\
          events_of r = [EModelTo given (device (self s))]) /\
    me = self (state_of r) /\
    _model me = Some model /\
    backup me = (if model_is_keras model && negb (bool_decide (model_weights model = []))
                 then Some (model_weights model) else backup (self s)) /\
    cfg_model (cfg me) !! "build_from_model" = Some (PBool false) /\
    (forall k, k <> "build_from_model" ->
               cfg_model (cfg me) !! k = cfg_model (cfg (self s)) !! k) /\
    cfg_train (cfg me) = cfg_train (cfg (self s)) /\
    is_processed me = true.
Proof.
  intros r Hr. subst r. apply run_of in Hr.
  set (s' := state_of _) in *. set (evs := events_of _) in *. clearbody s' evs.
  unfold build_from_model in Hr.
  apply bind_Ok_inv in Hr as ([] & u1 & e1 & e2 & H1 & H & ->).
  apply require_processed_Ok in H1 as (Hp & -> & ->).
  apply bind_Ok_inv in H as (me0 & u2 & e3 & e4 & H2 & H & ->).
  unfold get_self in H2. injection H2 as <- <- <-.
  apply bind_Ok_inv in H as ([] & u3 & e5 & e6 & H3 & H & ->).
  apply bind_Ok_inv in H as ([] & u4 & e7 & e8 & H4 & H & ->).
  apply modify_self_Ok_inv in H4 as [-> ->].
  unfold get_self in H. injection H as <- <- <-. cbn [self].
  assert (Hplaced : exists model,
            (if String.eqb (backend (self s)) "tensorflow"
             then model = given /\ e5 = []
             else (model_to fwk given (device (self s)) (wld s)).1 = Ok model /\
                  e5 = [EModelTo given (device (self s))]) /\
            self u3 = set_model model (self s)).
  { destruct (String.eqb (backend (self s)) "tensorflow").
    - apply modify_self_Ok_inv in H3 as [-> ->]. by exists given.
    - apply bind_Ok_inv in H3 as (model & v1 & f1 & f2 & H5 & H3 & ->).
      pose proof (call_Ok_world _ _ _ _ _ _ H5) as [Hto _].
      apply call_Ok_inv in H5 as [-> Hv1].
      apply modify_self_Ok_inv in H3 as [-> ->]. cbn [self].
      exists model. by rewrite Hv1. }
  destruct Hplaced as (model & Hplace & Hs3).
  exists model. rewrite Hs3. reduce_run.
  split; [done |]. split.
  { rewrite !app_nil_r. cbn [app]. exact Hplace. }
  split; [done |]. split; [done |]. split; [done |].
  split; [by rewrite lookup_insert_eq |].
  split; [| done]. intros k Hk. by rewrite lookup_insert_ne.
Qed.


End MoreLifecycle.

Lemma build_installs_the_model_witness :
  _model (self (state_of (build Demo.quiet ∅
                            (Demo.start (Demo.trainer "tensorflow" true None
                               (Demo.train_cfg 1 0 Demo.no_checkpoint false)) []))))
    = Some Demo.model0 /\
  backup (self (state_of (build Demo.quiet ∅
                            (Demo.start (Demo.trainer "tensorflow" true None
                               (Demo.train_cfg 1 0 Demo.no_checkpoint false)) []))))
    = Some [PObj 10].
Proof.
  assert (Hr : outcome_of (build Demo.quiet ∅
                             (Demo.start (Demo.trainer "tensorflow" true None
                                (Demo.train_cfg 1 0 Demo.no_checkpoint false)) []))
               = Ok (self (state_of (build Demo.quiet ∅
                             (Demo.start (Demo.trainer "tensorflow" true None
                                (Demo.train_cfg 1 0 Demo.no_checkpoint false)) [])))))
    by (vm_compute; reflexivity).
  pose proof (build_installs_the_model Demo.quiet ∅
                (Demo.start (Demo.trainer "tensorflow" true None
                   (Demo.train_cfg 1 0 Demo.no_checkpoint false)) []) _ Hr) as H.
  cbv zeta in H.
  destruct H as (built & kwargs' & model & merged & _ & Hb & Hplace & _ & _ & _
                 & Hm & Hbk & _).
  assert (Eb : (wrapper_builder Demo.quiet ∅
                  (wld (Demo.start (Demo.trainer "tensorflow" true None
                          (Demo.train_cfg 1 0 Demo.no_checkpoint false)) []))).1
               = Ok (Demo.model0, ∅)) by (vm_compute; reflexivity).
  rewrite Eb in Hb. injection Hb as <- <-.
  replace (String.eqb _ _) with true in Hplace by (vm_compute; reflexivity).
  destruct Hplace as [-> _]. split; [exact Hm |]. rewrite Hbk. vm_compute. reflexivity.
Defined.

Lemma build_from_model_installs_the_model_witness :
  _model (self (state_of (build_from_model Demo.quiet Demo.empty_container
                            (Demo.start (Demo.trainer "torch" true None
                               (Demo.train_cfg 1 0 Demo.no_checkpoint false)) []))))
    = Some Demo.empty_container /\
  backup (self (state_of (build_from_model Demo.quiet Demo.empty_container
                            (Demo.start (Demo.trainer "torch" true None
                               (Demo.train_cfg 1 0 Demo.no_checkpoint false)) []))))
    = None.
Proof.
  assert (Hr : outcome_of (build_from_model Demo.quiet Demo.empty_container
                             (Demo.start (Demo.trainer "torch" true None
                                (Demo.train_cfg 1 0 Demo.no_checkpoint false)) []))
               = Ok (self (state_of (build_from_model Demo.quiet Demo.empty_container
                             (Demo.start (Demo.trainer "torch" true None
                                (Demo.train_cfg 1 0 Demo.no_checkpoint false)) [])))))
    by (vm_compute; reflexivity).
  pose proof (build_from_model_installs_the_model Demo.quiet Demo.empty_container
                (Demo.start (Demo.trainer "torch" true None
                   (Demo.train_cfg 1 0 Demo.no_checkpoint false)) []) _ Hr) as H.
  cbv zeta in H.
  destruct H as (model & _ & Hplace & _ & Hm & Hbk & _).
  replace (String.eqb _ _) with false in Hplace by (vm_compute; reflexivity).
  destruct Hplace as [Hto _].
  assert (Eto : (model_to Demo.quiet Demo.empty_container
                   (device (self (Demo.start (Demo.trainer "torch" true None
                                    (Demo.train_cfg 1 0 Demo.no_checkpoint false)) [])))
                   (wld (Demo.start (Demo.trainer "torch" true None
                           (Demo.train_cfg 1 0 Demo.no_checkpoint false)) []))).1
                = Ok Demo.empty_container) by (vm_compute; reflexivity).
  rewrite Eto in Hto. injection Hto as <-.
  split; [exact Hm |]. rewrite Hbk. vm_compute. reflexivity.
Defined.
(** ** The logs of an epoch and the cache *)

Global Instance val_key_inj : Inj (=) (=) val_key.
Proof. intros k k' H. unfold val_key in H. by injection H. Qed.

Global Instance same_cache_preorder : PreOrder same_cache.
Proof. split; [by intros t | intros t1 t2 t3 H1 H2; unfold same_cache in *; congruence]. Qed.

Section LogsAndCache.
Context {F : Type} (fwk : framework F).
Implicit Types s : state F.

Lemma val_key_prefixed (k : string) : startswith (val_key k) "val_" = true.
Proof. unfold startswith, val_key. cbn. by destruct k. Qed.

Lemma validate_Ok L logs s logs' s' evs :
  validate fwk L logs s = {| outcome_of := Ok logs'; state_of := s'; events_of := evs |} ->
  match tl_val_data L with
  | None => logs' = logs
  | Some q => exists mid dv, outcome_of (test_step fwk q mid) = Ok (Some dv) /\
                             logs' = kmap val_key dv ∪ logs
  end.
Proof.
  unfold validate. destruct (tl_val_data L) as [q|]; intros H.
  - apply bind_Ok_inv in H as (valid_logs & u1 & e1 & e2 & H1 & H & ->).
    destruct valid_logs as [dv|]; [| discriminate H].
    apply bind_Ok_inv in H as ([] & u2 & e3 & e4 & _ & H & ->).
    apply ret_Ok_inv in H as (-> & _). exists s, dv. by rewrite H1.
  - by apply ret_Ok_inv in H as (-> & _).
Qed.

(** X18: the logs an epoch hands to [on_train_batch_end] and
    [on_epoch_end] are the logs of the epochs before, updated with the
    results of the training step, and with validation data updated again
    with the results of the test step, each under its key prefixed with
    ["val_"]: no key is ever dropped, a validation result is found under
    its prefixed key, and a training result under its own key unless a
    validation result took it. *)
Theorem epoch_logs_accumulate L epoch logs s logs' :
  let r := epoch_work fwk L epoch logs s in
  outcome_of r = Ok logs' ->
  exists mid d,
    outcome_of (train_step fwk (tl_train_data L) mid) = Ok (Some d) /\
    match tl_val_data L with
    | None => logs' = d ∪ logs
    | Some q =>
        exists mid' dv,
          outcome_of (test_step fwk q mid') = Ok (Some dv) /\
          logs' = kmap val_key dv ∪ (d ∪ logs) /\
          (forall k v, dv !! k = Some v -> logs' !! ("val_" +:+ k) = Some v)
    end /\
    (forall k v, d !! k = Some v -> startswith k "val_" = false -> logs' !! k = Some v) /\
    (forall k, is_Some (logs !! k) -> is_Some (logs' !! k)) /\
    (exists n, hook_calls (events_of r)
               = pair (tl_callbacks L) <$> epoch_hooks epoch (n, logs')).
Proof.
  intros r Hr. subst r. apply run_of in Hr.
  set (s' := state_of _) in *. set (evs := events_of _) in *. clearbody s' evs.
  pose proof (epoch_work_Ok _ _ _ _ _ _ _ _ Hr) as ((n & _ & Hhooks) & _).
  unfold epoch_work in Hr.
  apply bind_Ok_inv in Hr as (c & u1 & e1 & e2 & _ & H & ->).
  apply bind_Ok_inv in H as ([] & u2 & e3 & e4 & _ & H & ->).
  apply bind_Ok_inv in H as ([] & u3 & e5 & e6 & _ & H & ->).
  apply bind_Ok_inv in H as ([] & u4 & e7 & e8 & _ & H & ->).
  apply bind_Ok_inv in H as (train_logs & u5 & e9 & e10 & H5 & H & ->).
  apply bind_Ok_inv in H as ([] & u6 & e11 & e12 & _ & H & ->).
  apply bind_Ok_inv in H as (logs1 & u7 & e13 & e14 & H7 & H & ->).
  destruct train_logs as [d|]; [| discriminate H7].
  apply ret_Ok_inv in H7 as (-> & _).
  apply bind_Ok_inv in H as (logs2 & u8 & e15 & e16 & H8 & H & ->).
  apply validate_Ok in H8.
  apply bind_Ok_inv in H as (n' & u9 & e17 & e18 & _ & H & ->).
  apply bind_Ok_inv in H as ([] & u10 & e19 & e20 & _ & H & ->).
  apply bind_Ok_inv in H as ([] & u11 & e21 & e22 & _ & H & ->).
  apply ret_Ok_inv in H as (-> & _).
  exists u4, d. split; [by rewrite H5 |].
  destruct (tl_val_data L) as [q|].
  - destruct H8 as (mid' & dv & Ht & ->).
    split; [| split; [| split; [| by exists n]]].
    + exists mid', dv. split; [done |]. split; [done |].
      intros k v Hk. apply lookup_union_Some_l.
      change ("val_" +:+ k) with (val_key k). by rewrite (lookup_kmap val_key dv k).
    + intros k v Hk Hpre. rewrite lookup_union_r.
      * by apply lookup_union_Some_l.
      * apply lookup_kmap_None; [apply _ |]. intros i ->.
        by rewrite val_key_prefixed in Hpre.
    + intros k Hk. rewrite !lookup_union_is_Some. by right; right.
  - subst logs2. split; [done |]. split; [| split; [| by exists n]].
    + intros k v Hk _. by apply lookup_union_Some_l.
    + intros k Hk. rewrite lookup_union_is_Some. by right.
Qed.




End LogsAndCache.

Lemma epoch_logs_accumulate_witness :
  exists d, Demo.returned ∅ (epoch_work Demo.quiet Demo.no_locals 0 {["seen" := PInt 1]}
                               (Demo.ready "torch" Demo.model0 1 0 Demo.no_checkpoint []))
            = d ∪ {["seen" := PInt 1]}.
Proof.
  assert (Hr : outcome_of (epoch_work Demo.quiet Demo.no_locals 0 {["seen" := PInt 1]}
                             (Demo.ready "torch" Demo.model0 1 0 Demo.no_checkpoint []))
               = Ok (Demo.returned ∅
                       (epoch_work Demo.quiet Demo.no_locals 0 {["seen" := PInt 1]}
                          (Demo.ready "torch" Demo.model0 1 0 Demo.no_checkpoint []))))
    by (vm_compute; reflexivity).
  pose proof (epoch_logs_accumulate Demo.quiet Demo.no_locals 0 {["seen" := PInt 1]}
                (Demo.ready "torch" Demo.model0 1 0 Demo.no_checkpoint []) _ Hr) as H.
  cbv zeta in H. destruct H as (mid & d & _ & Hlogs & _).
  exists d. exact Hlogs.
Defined.

(** ** The start of a training and the paths of a checkpoint *)

Section StartAndPaths.
Context {F : Type} (fwk : framework F).
Implicit Types s : state F.

(** X20: when the set-up of [train] returns, it ended with
    [callbacks.set_model(model)], then [model.stop_training = False],
    then console output only, then [on_train_begin]: the callbacks start
    the training in a world where [model.stop_training] is false, whatever
    an earlier training left in it. *)
Theorem training_starts_with_stop_flag_cleared train_data val_data kwargs s L :
  let setup := train_setup fwk train_data val_data kwargs s in
  outcome_of setup = Ok L ->
  exists (w : world F) (before reports : list event),
    stop_training w = false /\
    wld (state_of setup) = (callbacks_call fwk (tl_callbacks L) on_train_begin w).2 /\
    events_of setup
      = before ++ [ESetModel (tl_callbacks L) (tl_model L); ESetStopTraining false]
        ++ reports ++ [ECallback (tl_callbacks L) on_train_begin] /\
    Forall (fun ev => match ev with
                      | EProgbar _ _ _ | EPrint stdout _ => True
                      | _ => False
                      end) reports.
Proof.
  intros setup Hr. subst setup. apply run_of in Hr.
  set (s1 := state_of _) in *. set (evs := events_of _) in *. clearbody s1 evs.
  unfold train_setup in Hr.
  apply bind_Ok_inv in Hr as (me & u1 & e1 & e2 & H1 & H & ->).
  apply bind_Ok_inv in H as (merged & u2 & e3 & e4 & H2 & H & ->).
  apply bind_Ok_inv in H as ([] & u3 & e5 & e6 & H3 & H & ->).
  destruct (_model me) as [model|]; [| discriminate H].
  apply bind_Ok_inv in H as (train_seq & u4 & e7 & e8 & H4 & H & ->).
  apply bind_Ok_inv in H as ([] & u5 & e9 & e10 & H5 & H & ->).
  apply bind_Ok_inv in H as (val_seq & u6 & e11 & e12 & H6 & H & ->).
  apply bind_Ok_inv in H as (callbacks & u7 & e13 & e14 & H7 & H & ->).
  apply bind_Ok_inv in H as ([] & u8 & e15 & e16 & H8 & H & ->).
  apply call_Ok_inv in H8 as [-> _].
  apply bind_Ok_inv in H as ([] & u9 & e17 & e18 & H9 & H & ->).
  unfold set_stop_training in H9. injection H9 as <- <-.
  apply bind_Ok_inv in H as (c & u10 & e19 & e20 & H10 & H & ->).
  rewrite get_train_cfg_run in H10. injection H10 as <- <- <-.
  apply bind_Ok_inv in H as ([] & u11 & e21 & e22 & H11 & H & ->).
  apply bind_Ok_inv in H as ([] & u12 & e23 & e24 & H12 & H & ->).
  pose proof (call_Ok_world _ _ _ _ _ _ H12) as [_ Hw12].
  apply call_Ok_inv in H12 as [-> _].
  apply ret_Ok_inv in H as (-> & -> & ->).
  cbn [tl_callbacks tl_model].
  assert (Hreport : wld u11 = {| fs := fs (wld u8); stop_training := false;
                                 fw := fw (wld u8) |} /\
                    Forall (fun ev => match ev with
                                      | EProgbar _ _ _ | EPrint stdout _ => True
                                      | _ => False
                                      end) e21).
  { revert H11. run. destruct (truthy _); run.
    - destruct (_ <=? 2); run; intros H11; injection H11 as <- <-;
        split; try done; by repeat constructor.
    - intros H11. injection H11 as <- <-. by split. }
  destruct Hreport as [Hw11 Hreports]. rewrite Hw11 in Hw12.
  eexists _, (e1 ++ e3 ++ e5 ++ e7 ++ e9 ++ e11 ++ e13), e21.
  split; [| split; [exact Hw12 | split; [| exact Hreports]]]; [done |].
  rewrite <- !app_assoc. cbn [app]. by rewrite ?app_nil_r.
Qed.

Lemma upto_last_sep_append (x c : string) :
  upto_last_sep c = EmptyString -> upto_last_sep (x +:+ c) = upto_last_sep x.
Proof.
  intros Hc. induction x as [|a x IH]; [exact Hc |].
  change (upto_last_sep (String a (x +:+ c)) = upto_last_sep (String a x)).
  cbn [upto_last_sep]. by rewrite IH.
Qed.

Lemma upto_last_sep_ends (x : string) : upto_last_sep (x +:+ "/") = x +:+ "/".
Proof.
  induction x as [|a x IH]; [done |].
  change (upto_last_sep (String a (x +:+ "/")) = String a (x +:+ "/")).
  cbn [upto_last_sep]. rewrite IH. by destruct x.
Qed.

Lemma rstrip_sep_ends (x : string) : rstrip_sep (x +:+ "/") = rstrip_sep x.
Proof.
  induction x as [|a x IH]; [done |].
  change (rstrip_sep (String a (x +:+ "/")) = rstrip_sep (String a x)).
  cbn [rstrip_sep]. by rewrite IH.
Qed.

Lemma rstrip_sep_idemp (x : string) : rstrip_sep (rstrip_sep x) = rstrip_sep x.
Proof.
  induction x as [|a x IH]; [done |]. cbn [rstrip_sep].
  destruct (rstrip_sep x) as [|b r] eqn:Er.
  - destruct (Ascii.eqb a sep) eqn:Ea; [done |]. cbn [rstrip_sep]. by rewrite Ea.
  - cbn [rstrip_sep]. cbn [rstrip_sep] in IH. by rewrite IH.
Qed.

Lemma rstrip_sep_length (x : string) : (String.length (rstrip_sep x) <= String.length x)%nat.
Proof.
  induction x as [|a x IH]; [done |]. cbn [rstrip_sep].
  destruct (rstrip_sep x) as [|b r].
  - destruct (Ascii.eqb a sep); cbn; lia.
  - cbn in *. lia.
Qed.

Lemma str_drop_split (k : nat) (h : string) : exists pre, h = pre +:+ str_drop k h.
Proof.
  revert h. induction k as [|k IH]; intros h; [by exists EmptyString |].
  destruct h as [|a h]; [by exists EmptyString |].
  destruct (IH h) as [pre Hpre]. exists (String a pre). cbn [str_drop].
  change (String a h = String a (pre +:+ str_drop k h)). by f_equal.
Qed.

Lemma endswith_split (h e : string) : endswith h e = true -> exists pre, h = pre +:+ e.
Proof.
  unfold endswith. destruct (String.length e <=? String.length h)%nat; [| done].
  intros H. apply String.eqb_eq in H.
  destruct (str_drop_split (String.length h - String.length e) h) as [pre Hpre].
  exists pre. by rewrite H in Hpre.
Qed.

Lemma upto_last_sep_shape (p : string) :
  upto_last_sep p = EmptyString \/ exists pre, upto_last_sep p = pre +:+ "/".
Proof.
  induction p as [|a p IH]; [by left |]. cbn [upto_last_sep].
  destruct (upto_last_sep p) as [|b h] eqn:Eh.
  - destruct (Ascii.eqb a sep) eqn:Ea; [| by left].
    right. exists EmptyString. apply Ascii.eqb_eq in Ea. by rewrite Ea.
  - right. destruct IH as [IH | [pre IH]]; [done |].
    exists (String a pre). by rewrite IH.
Qed.

(** [split(join(split(p)[0], name))[0]] is [split(p)[0]] for a name
    without separator. *)
Lemma osp_split_join_head (p name : string) :
  upto_last_sep name = EmptyString ->
  osp_split_head (osp_join (osp_split_head p) name) = osp_split_head p.
Proof.
  intros Hname. unfold osp_split_head at 2 3.
  destruct (rstrip_sep (upto_last_sep p)) as [|b r] eqn:Er.
  - destruct (upto_last_sep_shape p) as [Hp | [pre Hp]]; rewrite Hp in *.
    + unfold osp_join. cbn [String.eqb orb].
      change (EmptyString +:+ name) with name.
      unfold osp_split_head. by rewrite Hname.
    + unfold osp_join. rewrite endswith_append, orb_true_r.
      unfold osp_split_head.
      by rewrite upto_last_sep_append, upto_last_sep_ends, Er.
  - set (h := String b r) in *.
    assert (Hh : rstrip_sep h = h) by (rewrite <- Er; apply rstrip_sep_idemp).
    assert (Hend : endswith h "/" = false).
    { destruct (endswith h "/") eqn:E; [| done].
      apply endswith_split in E as [pre E].
      pose proof (rstrip_sep_length pre) as Hlen.
      rewrite <- rstrip_sep_ends, <- E, Hh, E, length_append in Hlen. cbn in Hlen. lia. }
    unfold osp_join. rewrite Hend.
    change (String.eqb h EmptyString) with false. cbn [orb].
    unfold osp_split_head.
    assert (Hjoin : h +:+ "/" +:+ name = (h +:+ "/") +:+ name).
    { clear. induction h as [|a h IH]; [done |].
      change (String a (h +:+ "/" +:+ name) = String a ((h +:+ "/") +:+ name)).
      by f_equal. }
    rewrite Hjoin, upto_last_sep_append, upto_last_sep_ends, rstrip_sep_ends, Hh by done.
    done.
Qed.

(** X21: the [checkpoint] file [remove_extra_tf_files] looks for lies
    in the directory of the checkpoint: splitting its path gives the
    directory that splitting the resolved checkpoint path gives. *)
Theorem checkpoint_sibling_in_same_directory (filepath : string) :
  osp_split_head (checkpoint_sibling fwk filepath)
    = osp_split_head (realpath fwk filepath).
Proof. unfold checkpoint_sibling. by apply osp_split_join_head. Qed.
End StartAndPaths.

Lemma training_starts_with_stop_flag_cleared_witness :
  exists before reports,
    events_of (train_setup Demo.quiet Demo.raw_data Demo.no_data ∅
                 (Demo.ready "torch" Demo.model0 2 1 Demo.no_checkpoint []))
    = before ++ [ESetModel [History; EarlyStopping "loss" 10 "auto" 0 PNone true]
                   Demo.model0;
                 ESetStopTraining false]
      ++ reports ++ [ECallback [History; EarlyStopping "loss" 10 "auto" 0 PNone true]
                       on_train_begin].
Proof.
  assert (Hr : outcome_of (train_setup Demo.quiet Demo.raw_data Demo.no_data ∅
                             (Demo.ready "torch" Demo.model0 2 1 Demo.no_checkpoint []))
               = Ok {| tl_model := Demo.model0; tl_train_data := 0%nat;
                       tl_val_data := None;
                       tl_callbacks := [History; EarlyStopping "loss" 10 "auto" 0 PNone true];
                       tl_history := History; tl_verbose := 1 |})
    by (vm_compute; reflexivity).
  pose proof (training_starts_with_stop_flag_cleared Demo.quiet Demo.raw_data Demo.no_data ∅
                (Demo.ready "torch" Demo.model0 2 1 Demo.no_checkpoint []) _ Hr) as H.
  cbv zeta in H. destruct H as (w & before & reports & _ & _ & Hev & _).
  by exists before, reports.
Defined.
